(** * Verificador de admisibilidad documental: shallow embedding

    Embedding of [src/src/verificador_admisibilidad.py] (classes
    [VerificadorAdmisibilidad] and [GeneradorReportePDF], and the entry
    point [ejecutar_verificacion_rpa]) and of the library routines it calls
    ([difflib.SequenceMatcher], [str.strip], [re.search]).

    Conventions.
    - A Python [str] is the list of its Unicode code points ([list N]).
    - Python [int]s that count pages or characters are [nat]; numbers parsed
      from the text are [N].
    - Python [float]s are modelled by exact rationals ([Q]); a threshold such
      as [0.60] is the rational 3/5.  The floats the checks compare are
      quotients and products of page and character counts; for counts far
      below 2^50 the rounded comparison and the exact one agree.
    - [self.resultados] is threaded explicitly; a Python exception is a value
      of [excepcion]. *)

From Stdlib Require Import Ascii String QArith Qround.
From stdpp Require Import gmap strings list fin_maps sorting.

Local Open Scope nat_scope.

(** ** Python strings *)

Definition char := N.
Definition str := list char.

(** Code points of an ASCII literal. *)
Definition str_of_string (s : string) : str :=
  map Ascii.N_of_ascii (String.list_ascii_of_string s).

(** The character tables of the interpreter: [str.isspace] (also [\s] and
    [str.strip]), [str.isalnum], the decimal value of a [\d] character (the
    one [int] reads), and the relation [re.IGNORECASE] puts between a pattern
    character and a text character. *)
Class Unicode := {
  isspace : char -> bool;
  isalnum : char -> bool;
  decimal : char -> option N;
  igual_sin_caja : char -> char -> bool
}.

(** ** difflib.SequenceMatcher(None, a, b), with [autojunk] left at [True] *)

Module Difflib.

(** A matching block [(i, j, k)]: [a[i:i+k] == b[j:j+k]]. *)
Definition Match := (nat * nat * nat)%type.

Definition enumerate {A} (l : list A) : list (nat * A) := imap pair l.

(** [__chain_b]: the positions of every element of [b], in increasing
    order.  [isjunk] is [None], so [bjunk] is empty; when [len(b) >= 200] the
    elements that occur more than [len(b) // 100 + 1] times are purged. *)
Definition chain_b_step (b2j : gmap N (list nat)) (p : nat * char)
  : gmap N (list nat) :=
  <[p.2 := default [] (b2j !! p.2) ++ [p.1]]> b2j.

Definition chain_b (b : str) : gmap N (list nat) :=
  let b2j := fold_left chain_b_step (enumerate b) ∅ in
  let n := length b in
  if 200 <=? n then
    let ntest := n / 100 + 1 in
    filter (fun p => ¬ (ntest < length p.2)) b2j
  else b2j.

Section FindLongestMatch.
Variables (a b : str) (b2j : gmap N (list nat)).
Variables (alo ahi blo bhi : nat).

(** [j2len.get(j-1, 0)]: the key [-1] is never present. *)
Definition j2lenget (j2len : gmap nat nat) (j : nat) : nat :=
  match j with
  | O => 0
  | S j' => default 0 (j2len !! j')
  end.

(** [for j in b2j.get(a[i], nothing)], with its [continue] and [break]. *)
Fixpoint inner (i : nat) (j2len : gmap nat nat) (js : list nat)
    (best : Match) (newj2len : gmap nat nat) : Match * gmap nat nat :=
  match js with
  | [] => (best, newj2len)
  | j :: js' =>
      if j <? blo then inner i j2len js' best newj2len
      else if bhi <=? j then (best, newj2len)
      else
        let k := j2lenget j2len j + 1 in
        let best' := if best.2 <? k then (i + 1 - k, j + 1 - k, k) else best in
        inner i j2len js' best' (<[j := k]> newj2len)
  end.

(** One round of [for i in range(alo, ahi)]. *)
Definition outer_step (st : Match * gmap nat nat) (i : nat)
  : Match * gmap nat nat :=
  let js := match a !! i with
            | Some x => default [] (b2j !! x)
            | None => []
            end in
  inner i st.2 js st.1 ∅.

Definition longest_junk_free : Match :=
  (fold_left outer_step (seq alo (ahi - alo)) ((alo, blo, 0), ∅)).1.

Definition same_elt (i j : nat) : bool :=
  match a !! i, b !! j with
  | Some x, Some y => bool_decide (x = y)
  | _, _ => false
  end.

(** [while besti > alo and bestj > blo and a[besti-1] == b[bestj-1]]
    ([isbjunk] is constantly false). *)
Fixpoint extend_left (besti bestj bestsize : nat) : Match :=
  match besti, bestj with
  | S i', S j' =>
      if (alo <? besti) && (blo <? bestj) && same_elt i' j'
      then extend_left i' j' (S bestsize)
      else (besti, bestj, bestsize)
  | _, _ => (besti, bestj, bestsize)
  end.

(** [while besti+bestsize < ahi and bestj+bestsize < bhi and
    a[besti+bestsize] == b[bestj+bestsize]]; [rem] is
    [ahi - (besti+bestsize)], which the loop decreases. *)
Fixpoint extend_right (rem besti bestj bestsize : nat) : Match :=
  match rem with
  | O => (besti, bestj, bestsize)
  | S rem' =>
      if (bestj + bestsize <? bhi) && same_elt (besti + bestsize) (bestj + bestsize)
      then extend_right rem' besti bestj (S bestsize)
      else (besti, bestj, bestsize)
  end.

(** The two loops that absorb junk on each side test [isbjunk], which is
    false everywhere, and do not run. *)
Definition find_longest_match : Match :=
  let '(besti, bestj, bestsize) := longest_junk_free in
  let '(besti, bestj, bestsize) := extend_left besti bestj bestsize in
  extend_right (ahi - (besti + bestsize)) besti bestj bestsize.
End FindLongestMatch.

(** [get_matching_blocks]: the [while queue] loop.  [queue.pop()] takes the
    last element and [append] adds at the end, so the head of the model's list
    is the end of Python's.  [fuel] bounds the number of rounds. *)
Definition Rect := (nat * nat * nat * nat)%type.

Fixpoint blocks_loop (a b : str) (b2j : gmap N (list nat)) (fuel : nat)
    (queue : list Rect) (matching_blocks : list Match) : option (list Match) :=
  match queue with
  | [] => Some matching_blocks
  | (alo, ahi, blo, bhi) :: queue' =>
      match fuel with
      | O => None
      | S fuel' =>
          let '(i, j, k) := find_longest_match a b b2j alo ahi blo bhi in
          if k =? 0 then blocks_loop a b b2j fuel' queue' matching_blocks
          else
            let q1 := if (alo <? i) && (blo <? j)
                      then (alo, i, blo, j) :: queue' else queue' in
            let q2 := if (i + k <? ahi) && (j + k <? bhi)
                      then (i + k, ahi, j + k, bhi) :: q1 else q1 in
            blocks_loop a b b2j fuel' q2 (matching_blocks ++ [(i, j, k)])
      end
  end.

(** Tuple order used by [matching_blocks.sort()]. *)
Definition match_leb (x y : Match) : bool :=
  let '(i1, j1, k1) := x in
  let '(i2, j2, k2) := y in
  (i1 <? i2) || ((i1 =? i2) && ((j1 <? j2) || ((j1 =? j2) && (k1 <=? k2)))).

Fixpoint insert_sorted (x : Match) (l : list Match) : list Match :=
  match l with
  | [] => [x]
  | y :: l' => if match_leb x y then x :: l else y :: insert_sorted x l'
  end.

Definition sort_blocks (l : list Match) : list Match :=
  fold_right insert_sorted [] l.

(** The pass that merges adjacent blocks. *)
Definition collapse_step (st : Match * list Match) (x : Match)
  : Match * list Match :=
  let '((i1, j1, k1), non_adjacent) := st in
  let '(i2, j2, k2) := x in
  if (i1 + k1 =? i2) && (j1 + k1 =? j2) then ((i1, j1, k1 + k2), non_adjacent)
  else ((i2, j2, k2),
        if k1 =? 0 then non_adjacent else non_adjacent ++ [(i1, j1, k1)]).

Definition collapse (la lb : nat) (l : list Match) : list Match :=
  let '((i1, j1, k1), non_adjacent) := fold_left collapse_step l ((0, 0, 0), []) in
  (if k1 =? 0 then non_adjacent else non_adjacent ++ [(i1, j1, k1)])
    ++ [(la, lb, 0)].

(** Each round with [k > 0] removes at least one element of [a] from the
    rectangles still queued, so [2 * len(a) + 1] rounds are enough
    ([blocks_loop_total] below). *)
Definition get_matching_blocks (a b : str) : option (list Match) :=
  let la := length a in
  let lb := length b in
  match blocks_loop a b (chain_b b) (2 * la + 1) [(0, la, 0, lb)] [] with
  | Some l => Some (collapse la lb (sort_blocks l))
  | None => None
  end.

(** [_calculate_ratio]. *)
Definition calculate_ratio (matches length : nat) : Q :=
  if length =? 0 then 1
  else (2 * inject_Z (Z.of_nat matches) / inject_Z (Z.of_nat length))%Q.

Definition sum_sizes (l : list Match) : nat :=
  fold_right (fun t acc => t.2 + acc) 0 l.

Definition ratio_opt (a b : str) : option Q :=
  match get_matching_blocks a b with
  | Some l => Some (calculate_ratio (sum_sizes l) (length a + length b))
  | None => None
  end.

Definition ratio (a b : str) : Q := default 0%Q (ratio_opt a b).

End Difflib.

(** ** Built-ins of [str] and the part of [re] the checks use *)

Section PythonStr.
Context `{Unicode}.

Fixpoint lstrip (s : str) : str :=
  match s with
  | c :: s' => if isspace c then lstrip s' else s
  | [] => []
  end.

(** [str.strip()] *)
Definition strip (s : str) : str := rev (lstrip (rev (lstrip s))).

Fixpoint int_digits (acc : N) (s : str) : option N :=
  match s with
  | [] => Some acc
  | c :: s' =>
      match decimal c with
      | Some d => int_digits (10 * acc + d)%N s'
      | None => None
      end
  end.

(** [sys.get_int_max_str_digits()]: the interpreter's default, which the
    program does not change. *)
Definition int_max_str_digits : nat := 4300.

(** [int(s)] on a string of decimal digits; [None] is [ValueError], which
    [int] also raises on more than [int_max_str_digits] digits. *)
Definition int_ (s : str) : option N :=
  match s with
  | [] => None
  | _ => if length s <=? int_max_str_digits then int_digits 0%N s else None
  end.

(** *** Regular expressions

    The fragment the four patterns are written in.  Quantifiers are greedy
    and apply to one-character items; there is one capturing group; the
    flags are [re.IGNORECASE | re.MULTILINE]. *)
Inductive atom :=
| Chr (c : char)    (* a literal character *)
| Espacio           (* \s *)
| Digito.           (* \d *)

Inductive regex :=
| At (a : atom)
| Star (a : atom)            (* a*  *)
| Plus (a : atom)            (* a+  *)
| Opt (a : atom)             (* a?  *)
| Seq (r1 r2 : regex)
| Grp (r : regex)            (* ( r ) *)
| Bol                        (* ^ *)
| Eol.                       (* $ *)

Definition atom_ok (a : atom) (c : char) : bool :=
  match a with
  | Chr x => igual_sin_caja x c
  | Espacio => isspace c
  | Digito => bool_decide (is_Some (decimal c))
  end.

(** Where the matcher stands: the character before the cursor, the text
    from the cursor on, and the text of group 1 once it has closed. *)
Record cursor := {
  previo : option char;
  resto : str;
  grupo : option str
}.

Definition salto : char := 10%N.

Section Backtracking.
Variable R : Type.

(** Longest run first, then one character less, and so on. *)
Fixpoint star (a : atom) (prev : option char) (s : str) (g : option str)
    (k : cursor -> option R) : option R :=
  match s with
  | c :: s' =>
      if atom_ok a c then
        match star a (Some c) s' g k with
        | Some r => Some r
        | None => k {| previo := prev; resto := s; grupo := g |}
        end
      else k {| previo := prev; resto := s; grupo := g |}
  | [] => k {| previo := prev; resto := s; grupo := g |}
  end.

Fixpoint run (r : regex) (st : cursor) (k : cursor -> option R) : option R :=
  match r with
  | At a =>
      match resto st with
      | c :: s' =>
          if atom_ok a c
          then k {| previo := Some c; resto := s'; grupo := grupo st |}
          else None
      | [] => None
      end
  | Star a => star a (previo st) (resto st) (grupo st) k
  | Plus a =>
      match resto st with
      | c :: s' =>
          if atom_ok a c then star a (Some c) s' (grupo st) k else None
      | [] => None
      end
  | Opt a =>
      match resto st with
      | c :: s' =>
          if atom_ok a c then
            match k {| previo := Some c; resto := s'; grupo := grupo st |} with
            | Some r => Some r
            | None => k st
            end
          else k st
      | [] => k st
      end
  | Seq r1 r2 => run r1 st (fun st' => run r2 st' k)
  | Grp r' =>
      run r' st (fun st' =>
        k {| previo := previo st'; resto := resto st';
             grupo := Some (take (length (resto st) - length (resto st'))
                                 (resto st)) |})
  | Bol =>
      match previo st with
      | None => k st
      | Some c => if bool_decide (c = salto) then k st else None
      end
  | Eol =>
      match resto st with
      | [] => k st
      | c :: _ => if bool_decide (c = salto) then k st else None
      end
  end.
End Backtracking.

(** [re.search]: the leftmost start at which the pattern matches. *)
Fixpoint search_from (r : regex) (prev : option char) (s : str) : option cursor :=
  match run cursor r {| previo := prev; resto := s; grupo := None |} Some with
  | Some st => Some st
  | None =>
      match s with
      | [] => None
      | c :: s' => search_from r (Some c) s'
      end
  end.

(** [re.search(patron, texto, re.IGNORECASE | re.MULTILINE)], returning
    [match.group(1)]. *)
Definition re_search_group1 (patron : regex) (texto : str) : option str :=
  match search_from patron None texto with
  | Some st => Some (default [] (grupo st))
  | None => None
  end.

Definition literal (s : str) (r : regex) : regex :=
  fold_right (fun c acc => Seq (At (Chr c)) acc) r s.
End PythonStr.

(** The tables restricted to ASCII: they agree with the interpreter on the
    code points below 128, and are used for the example documents, which hold
    no other character. *)
Definition ascii_lower (c : char) : char :=
  if ((65 <=? c) && (c <=? 90))%N then (c + 32)%N else c.

Definition unicode_ascii : Unicode := {|
  isspace c := ((9 <=? c) && (c <=? 13) || (28 <=? c) && (c <=? 32))%N;
  isalnum c := ((48 <=? c) && (c <=? 57) || (65 <=? c) && (c <=? 90)
                || (97 <=? c) && (c <=? 122))%N;
  decimal c := if ((48 <=? c) && (c <=? 57))%N then Some (c - 48)%N else None;
  igual_sin_caja x c := (ascii_lower x =? ascii_lower c)%N
|}.

(** ** The verifier: data *)

Inductive excepcion :=
| ZeroDivisionError
| ValueError
| Exception (mensaje : string).

(** [str(e)] *)
Definition str_excepcion (e : excepcion) : string :=
  match e with
  | ZeroDivisionError => "division by zero"
  | ValueError => "invalid literal for int()"
  | Exception m => m
  end.

Inductive salida (A : Type) :=
| Ok (a : A)
| Raise (e : excepcion).
Arguments Ok {A} a.
Arguments Raise {A} e.

#[export] Instance salida_ret : MRet salida := @Ok.
#[export] Instance salida_bind : MBind salida := fun A B k m =>
  match m with
  | Ok a => k a
  | Raise e => Raise e
  end.

(** [try: m  except Exception as e: h e] *)
Definition try_except {A} (m : salida A) (h : excepcion -> salida A) : salida A :=
  match m with
  | Ok a => Ok a
  | Raise e => h e
  end.

(** Python's [x / y] on two integers. *)
Definition truediv (x y : Z) : salida Q :=
  if (y =? 0)%Z then Raise ZeroDivisionError
  else Ok (inject_Z x / inject_Z y)%Q.

Definition Qlt_bool (x y : Q) : bool := negb (Qle_bool y x).

(** [round(q, 2)] of the exact value, ties to the even neighbour.  The
    program rounds the double it has computed, which can fall on the other
    side of a tie of the exact value (23/160*100 is the tie 14.375 here and
    14.374999... there), so a rounded figure can differ from the
    program's in its last digit.  The rounded figures go to the detail
    lines of a result only; the status, the affected pages and the
    compliance percentage of a check do not depend on them. *)
Definition round2 (q : Q) : Q :=
  let z := (q * 100)%Q in
  let f := Qfloor z in
  let d := (z - inject_Z f)%Q in
  let r := if Qlt_bool d (1 # 2) then f
           else if Qlt_bool (1 # 2) d then (f + 1)%Z
           else if Z.even f then f else (f + 1)%Z in
  (inject_Z r / 100)%Q.

(** A page of [PdfReader(...).pages]: what [extract_text()] returns, or the
    exception it raises. *)
Inductive Pagina :=
| Texto (t : str)
| ErrorExtraccion (e : excepcion).

Abbreviation documento := (list Pagina).

(** An f-string: its text with [{}] for each hole, and the values that fill
    the holes. *)
Inductive valor :=
| VInt (n : nat)
| VOptInt (n : option N)          (* an [int] or [None] *)
| VFloat (q : Q)
| VStr (s : string)
| VJoin (l : list nat).           (* [', '.join(map(str, l))] *)

Record detalle := Detalle {
  plantilla : string;
  argumentos : list valor
}.

Record ResultadoVerificacion := {
  tipo_verificacion : string;
  estado : string;
  detalles : list detalle;
  porcentaje_cumplimiento : Q;
  folios_afectados : list nat
}.

Record Config := {
  umbral_blanco : Q;
  umbral_ilegibilidad : Q;
  umbral_plagio : Q;
  verificar_ortografia : bool;
  idioma_ortografia : string;
  formato_fecha : string
}.

Definition _config_default : Config := {|
  umbral_blanco := 98 # 100;
  umbral_ilegibilidad := 60 # 100;
  umbral_plagio := 85 # 100;
  verificar_ortografia := true;
  idioma_ortografia := "es";
  formato_fecha := "%Y-%m-%d %H:%M:%S"
|}.

(** [language_tool_python.LanguageTool]: [check] returns the messages of the
    matches or raises; [close] may raise. *)
Record LanguageTool := {
  check : str -> salida (list str);
  close : salida unit
}.

(** What the run takes from outside the class: the PDF reader, the hash of
    the encoded text ([hashlib.md5(texto.encode()).hexdigest()]; the texts are
    taken to be encodable), the grammar tool and the clock. *)
Class Entorno := {
  PdfReader : string -> salida documento;
  md5_hexdigest : str -> string;
  nuevo_LanguageTool : string -> salida LanguageTool;
  ahora : string -> string
}.

Record FolioIncorrecto := {
  inc_pagina : nat;
  inc_esperado : nat;
  inc_encontrado : option N
}.

Record Duplicado := {
  folio_original : nat;
  folio_duplicado : nat
}.

Record FolioIlegible := {
  ileg_folio : nat;
  ileg_porcentaje : Q;
  ileg_error : option string
}.

Record Seccion := {
  sec_folio : nat;
  sec_texto : str
}.

Record CasoPlagio := {
  folio_1 : nat;
  folio_2 : nat;
  similitud : Q
}.

Record ErroresFolio := {
  err_folio : nat;
  cantidad_errores : nat;
  ejemplos : list str
}.

Record Resumen := {
  total_verificaciones : nat;
  aprobados : nat;
  observados : nat;
  rechazados : nat;
  estado_global : string
}.

(** The dictionary [ejecutar_verificacion_completa] returns: the full one of
    [_preparar_resultados] or the one of [_generar_resultado_error]. *)
Inductive Informe :=
| InformeCompleto (documento_ fecha_verificacion : string) (total_folios_ : nat)
    (resumen : Resumen) (resultados : list ResultadoVerificacion)
| InformeError (documento_ fecha_verificacion error : string)
    (resultados : list ResultadoVerificacion).

Definition qnat (n : nat) : Q := inject_Z (Z.of_nat n).

(** ** The verifier: the checks *)

Section Verificador.
Context `{Unicode} `{Entorno}.
Variable config : Config.

(** [self.documento_pdf.pages] after [_cargar_documento] has succeeded;
    [self.total_folios] is its length. *)
Variable documento_pdf : documento.

Definition total_folios : nat := length documento_pdf.

(** The loop every check runs,

      for num_pagina in range(n): try: ... lista.append(x) ... except: ...

    over the pages [pags] with their indices: [cuerpo] is the [try]
    statement, giving the element the round appends, if it appends one. *)
Definition acumular {E} (cuerpo : nat -> Pagina -> option E)
    (pags : list (nat * Pagina)) : list E :=
  fold_left (fun lista p =>
               match cuerpo p.1 p.2 with
               | Some x => lista ++ [x]
               | None => lista
               end) pags [].

Definition por_cada_folio {E} (cuerpo : nat -> Pagina -> option E) : list E :=
  acumular cuerpo (Difflib.enumerate documento_pdf).

(** *** 1.1 Hojas en blanco *)

Definition hojas_blanco_de : list nat :=
  por_cada_folio (fun num_pagina pagina =>
    match pagina with
    | Texto t =>
        let texto := strip t in
        if length texto <? 10 then Some (num_pagina + 1) else None
    | ErrorExtraccion _ => None
    end).

Definition _verificar_hojas_blanco (resultados : list ResultadoVerificacion)
  : salida (list ResultadoVerificacion) :=
  let hojas_blanco := hojas_blanco_de in
  let estado := if length hojas_blanco =? 0 then "APROBADO" else "OBSERVADO" in
  let detalles :=
    match hojas_blanco with
    | _ :: _ =>
        [Detalle "Se detectaron {} hojas en blanco" [VInt (length hojas_blanco)];
         Detalle "Folios afectados: {}" [VJoin hojas_blanco]]
    | [] => [Detalle "No se detectaron hojas en blanco" []]
    end in
  q ← truediv (Z.of_nat total_folios - Z.of_nat (length hojas_blanco))
              (Z.of_nat total_folios);
  Ok (resultados ++ [{|
    tipo_verificacion := "1.1 Hojas en Blanco";
    estado := estado;
    detalles := detalles;
    porcentaje_cumplimiento := q * 100;
    folios_afectados := hojas_blanco
  |}]).

(** *** 1.2 Foliacion correlativa *)

Definition tras_etiqueta : regex :=
  Seq (Star Espacio) (Seq (Opt (Chr 58%N)) (Seq (Star Espacio) (Grp (Plus Digito)))).

(** [folio\s*:?\s*(\d+)], [foja\s*:?\s*(\d+)], [página\s*:?\s*(\d+)] and
    [^(\d+)$]. *)
Definition patrones : list regex :=
  [ literal (str_of_string "folio") tras_etiqueta;
    literal (str_of_string "foja") tras_etiqueta;
    literal [112; 225; 103; 105; 110; 97]%N tras_etiqueta;
    Seq Bol (Seq (Grp (Plus Digito)) Eol) ].

(** [for patron in patrones: ... break]: the first pattern that matches
    decides; [int] may raise. *)
Fixpoint buscar_folio (ps : list regex) (texto : str) : salida (option N) :=
  match ps with
  | [] => Ok None
  | patron :: ps' =>
      match re_search_group1 patron texto with
      | Some g =>
          match int_ g with
          | Some n => Ok (Some n)
          | None => Raise ValueError
          end
      | None => buscar_folio ps' texto
      end
  end.

(** The list [folios_encontrados] is filled and never read; it is left
    out. *)
Definition folios_incorrectos_de : list FolioIncorrecto :=
  por_cada_folio (fun num_pagina pagina =>
    match pagina with
    | Texto texto =>
        match buscar_folio patrones texto with
        | Ok folio_encontrado =>
            if bool_decide (folio_encontrado = Some (N.of_nat (num_pagina + 1)))
            then None
            else Some {| inc_pagina := num_pagina + 1;
                         inc_esperado := num_pagina + 1;
                         inc_encontrado := folio_encontrado |}
        | Raise _ => None
        end
    | ErrorExtraccion _ => None
    end).

Definition _verificar_foliacion (resultados : list ResultadoVerificacion)
  : salida (list ResultadoVerificacion) :=
  let folios_incorrectos := folios_incorrectos_de in
  let n := length folios_incorrectos in
  let '(estado, detalles) :=
    if n =? 0 then
      ("APROBADO", [Detalle "La foliación es correlativa y correcta" []])
    else if Qle_bool (qnat n) (qnat total_folios * (1 # 10)) then
      ("OBSERVADO",
       [Detalle "Se detectaron {} inconsistencias en la foliación" [VInt n]])
    else
      ("RECHAZADO", [Detalle "Foliación incorrecta en {} folios" [VInt n]]) in
  let detalles :=
    detalles ++
    map (fun inc =>
           Detalle "Página {}: esperado folio {}, encontrado {}"
             [VInt (inc_pagina inc); VInt (inc_esperado inc);
              VOptInt (inc_encontrado inc)])
        (take 10 folios_incorrectos) in
  let detalles :=
    if 10 <? n
    then detalles ++ [Detalle "... y {} inconsistencias más" [VInt (n - 10)]]
    else detalles in
  q ← truediv (Z.of_nat total_folios - Z.of_nat n) (Z.of_nat total_folios);
  Ok (resultados ++ [{|
    tipo_verificacion := "1.2 Foliación Correlativa";
    estado := estado;
    detalles := detalles;
    porcentaje_cumplimiento := q * 100;
    folios_afectados := map inc_pagina folios_incorrectos
  |}]).

(** *** 1.2 Folios duplicados *)

Definition paso_duplicados (st : gmap string nat * list Duplicado)
    (p : nat * Pagina) : gmap string nat * list Duplicado :=
  let '(hashes_folios, duplicados) := st in
  match p.2 with
  | Texto texto =>
      let hash_contenido := md5_hexdigest texto in
      match hashes_folios !! hash_contenido with
      | Some original =>
          (hashes_folios,
           duplicados ++ [{| folio_original := original;
                             folio_duplicado := p.1 + 1 |}])
      | None => (<[hash_contenido := p.1 + 1]> hashes_folios, duplicados)
      end
  | ErrorExtraccion _ => st
  end.

Definition duplicados_de : list Duplicado :=
  (fold_left paso_duplicados (Difflib.enumerate documento_pdf) (∅, [])).2.

Definition _verificar_folios_duplicados (resultados : list ResultadoVerificacion)
  : salida (list ResultadoVerificacion) :=
  let duplicados := duplicados_de in
  let n := length duplicados in
  let '(estado, detalles) :=
    if n =? 0 then
      ("APROBADO", [Detalle "No se detectaron folios duplicados" []])
    else
      ("RECHAZADO",
       Detalle "ALERTA: Se detectaron {} folios duplicados" [VInt n]
       :: map (fun dup =>
                 Detalle "Folio {} es idéntico al folio {}"
                   [VInt (folio_duplicado dup); VInt (folio_original dup)])
              (take 10 duplicados)) in
  q ← truediv (Z.of_nat total_folios - Z.of_nat n) (Z.of_nat total_folios);
  Ok (resultados ++ [{|
    tipo_verificacion := "1.2 Folios Duplicados";
    estado := estado;
    detalles := detalles;
    porcentaje_cumplimiento := q * 100;
    folios_afectados := map folio_duplicado duplicados
  |}]).

(** *** 1.3 Ilegibilidad *)

Definition caracteres_validos (texto : str) : nat :=
  length (List.filter (fun c => isalnum c || isspace c) texto).

Definition folios_ilegibles_de : list FolioIlegible :=
  por_cada_folio (fun num_pagina pagina =>
    match pagina with
    | Texto texto =>
        if 0 <? length texto then
          let porcentaje_legible :=
            (qnat (caracteres_validos texto) / qnat (length texto))%Q in
          if Qlt_bool porcentaje_legible (umbral_ilegibilidad config)
          then Some {| ileg_folio := num_pagina + 1;
                       ileg_porcentaje := round2 (porcentaje_legible * 100);
                       ileg_error := None |}
          else None
        else None
    | ErrorExtraccion e =>
        Some {| ileg_folio := num_pagina + 1;
                ileg_porcentaje := 0;
                ileg_error := Some (str_excepcion e) |}
    end).

Definition _verificar_ilegibilidad (resultados : list ResultadoVerificacion)
  : salida (list ResultadoVerificacion) :=
  let folios_ilegibles := folios_ilegibles_de in
  let n := length folios_ilegibles in
  let umbral_pct := (umbral_ilegibilidad config * 100)%Q in
  let '(estado, detalles) :=
    if n =? 0 then
      ("APROBADO",
       [Detalle "Todos los folios superan el umbral de legibilidad ({}%)"
          [VFloat umbral_pct]])
    else if Qle_bool (qnat n) (qnat total_folios * (5 # 100)) then
      ("OBSERVADO",
       [Detalle "Se detectaron {} folios con baja legibilidad" [VInt n]])
    else
      ("RECHAZADO",
       [Detalle "Cantidad significativa de folios ilegibles: {}" [VInt n]]) in
  let detalles :=
    detalles ++
    map (fun ileg =>
           Detalle "Folio {}: {}% legible (mínimo requerido: {}%)"
             [VInt (ileg_folio ileg); VFloat (ileg_porcentaje ileg);
              VFloat umbral_pct])
        (take 10 folios_ilegibles) in
  q ← truediv (Z.of_nat total_folios - Z.of_nat n) (Z.of_nat total_folios);
  Ok (resultados ++ [{|
    tipo_verificacion := "1.3 Ilegibilidad de Información";
    estado := estado;
    detalles := detalles;
    porcentaje_cumplimiento := q * 100;
    folios_afectados := map ileg_folio folios_ilegibles
  |}]).

(** *** 1.3 Plagio *)

Definition _calcular_similitud (texto1 texto2 : str) : Q :=
  Difflib.ratio texto1 texto2.

Definition secciones_texto_de : list Seccion :=
  por_cada_folio (fun num_pagina pagina =>
    match pagina with
    | Texto t =>
        let texto := strip t in
        if 100 <? length texto
        then Some {| sec_folio := num_pagina + 1; sec_texto := texto |}
        else None
    | ErrorExtraccion _ => None
    end).

(** [for j in range(i + 1, len(secciones_texto))], for the section [si]
    and the sections after it. *)
Definition casos_con (si : Seccion) (despues : list Seccion) : list CasoPlagio :=
  omap (fun sj =>
          let similitud := _calcular_similitud (sec_texto si) (sec_texto sj) in
          if Qle_bool (umbral_plagio config) similitud
          then Some {| folio_1 := sec_folio si;
                       folio_2 := sec_folio sj;
                       similitud := round2 (similitud * 100) |}
          else None) despues.

(** [for i in range(len(secciones_texto))] *)
Fixpoint casos_plagio_de (secciones_texto : list Seccion) : list CasoPlagio :=
  match secciones_texto with
  | [] => []
  | si :: despues => casos_con si despues ++ casos_plagio_de despues
  end.

(** [list(set(l))]: the elements of [l] without repetition, in an order
    of the interpreter's choosing. *)
Definition list_set (l : list nat) : list nat :=
  elements (list_to_set l : gset nat).

Definition _verificar_plagio (resultados : list ResultadoVerificacion)
  : salida (list ResultadoVerificacion) :=
  let secciones_texto := secciones_texto_de in
  let casos_plagio := casos_plagio_de secciones_texto in
  let n := length casos_plagio in
  let '(estado, detalles) :=
    if n =? 0 then
      ("APROBADO", [Detalle "No se detectaron casos de plagio interno" []])
    else
      ("OBSERVADO",
       Detalle "Se detectaron {} casos de alta similitud" [VInt n]
       :: map (fun caso =>
                 Detalle "Folios {} y {}: {}% de similitud"
                   [VInt (folio_1 caso); VInt (folio_2 caso);
                    VFloat (similitud caso)])
              (take 10 casos_plagio)) in
  q ← truediv (Z.of_nat n) (Z.of_nat (Nat.max (length secciones_texto) 1));
  Ok (resultados ++ [{|
    tipo_verificacion := "1.3 Verificación de Plagio";
    estado := estado;
    detalles := detalles;
    porcentaje_cumplimiento := 100 - q * 100;
    folios_afectados :=
      list_set (map folio_1 casos_plagio ++ map folio_2 casos_plagio)
  |}]).

(** *** 1.3 Ortografia *)

Definition errores_por_folio_de (tool : LanguageTool) : list ErroresFolio :=
  acumular (fun num_pagina pagina =>
    match pagina with
    | Texto texto =>
        if 0 <? length (strip texto) then
          match check tool texto with
          | Ok matches =>
              if 0 <? length matches
              then Some {| err_folio := num_pagina + 1;
                           cantidad_errores := length matches;
                           ejemplos := map (take 80) (take 3 matches) |}
              else None
          | Raise _ => None
          end
        else None
    | ErrorExtraccion _ => None
    end) (take (Nat.min total_folios 50) (Difflib.enumerate documento_pdf)).

Definition _verificar_ortografia (resultados : list ResultadoVerificacion)
  : salida (list ResultadoVerificacion) :=
  try_except
    (tool ← nuevo_LanguageTool (idioma_ortografia config);
     let errores_por_folio := errores_por_folio_de tool in
     (* [total_errores] is increased by [len(matches)] whenever an entry
        is appended *)
     let total_errores := sum_list (map cantidad_errores errores_por_folio) in
     _ ← close tool;
     let '(estado, detalles) :=
       if total_errores =? 0 then
         ("APROBADO",
          [Detalle "No se detectaron errores ortográficos significativos" []])
       else if total_errores <=? total_folios * 5 then
         ("OBSERVADO",
          [Detalle "Se detectaron {} errores ortográficos en el documento"
             [VInt total_errores]])
       else
         ("RECHAZADO",
          [Detalle "Cantidad elevada de errores ortográficos: {}"
             [VInt total_errores]]) in
     let detalles :=
       detalles ++
       map (fun error =>
              Detalle "Folio {}: {} errores"
                [VInt (err_folio error); VInt (cantidad_errores error)])
           (take 10 errores_por_folio) in
     q ← truediv (Z.of_nat total_errores) (Z.of_nat total_folios);
     Ok (resultados ++ [{|
       tipo_verificacion := "1.3 Verificación Ortográfica";
       estado := estado;
       detalles := detalles;
       porcentaje_cumplimiento :=
         (if Qlt_bool 0 (100 - q) then 100 - q else 0)%Q;
       folios_afectados := map err_folio errores_por_folio
     |}]))
    (fun e =>
       Ok (resultados ++ [{|
         tipo_verificacion := "1.3 Verificación Ortográfica";
         estado := "NO PROCESADO";
         detalles := [Detalle "No se pudo completar la verificación: {}"
                        [VStr (str_excepcion e)]];
         porcentaje_cumplimiento := 0;
         folios_afectados := []
       |}])).

(** *** The summary *)

(** [sum(1 for r in resultados if r.estado == e)] *)
Definition contar (e : string) (resultados : list ResultadoVerificacion) : nat :=
  length (List.filter (fun r => String.eqb (estado r) e) resultados).

Definition _determinar_estado_global (resultados : list ResultadoVerificacion)
  : string :=
  let rechazados := contar "RECHAZADO" resultados in
  let observados := contar "OBSERVADO" resultados in
  if 0 <? rechazados then "NO ADMISIBLE"
  else if 0 <? observados then "ADMISIBLE CON OBSERVACIONES"
  else "ADMISIBLE".

Definition _preparar_resultados (ruta_documento : string)
    (resultados : list ResultadoVerificacion) : Informe :=
  InformeCompleto ruta_documento (ahora (formato_fecha config)) total_folios
    {| total_verificaciones := length resultados;
       aprobados := contar "APROBADO" resultados;
       observados := contar "OBSERVADO" resultados;
       rechazados := contar "RECHAZADO" resultados;
       estado_global := _determinar_estado_global resultados |}
    resultados.

(** The calls of [ejecutar_verificacion_completa] after the document has
    been loaded. *)
Definition verificaciones (ruta_documento : string)
    (resultados : list ResultadoVerificacion) : salida Informe :=
  resultados ← _verificar_hojas_blanco resultados;
  resultados ← _verificar_foliacion resultados;
  resultados ← _verificar_folios_duplicados resultados;
  resultados ← _verificar_ilegibilidad resultados;
  resultados ← _verificar_plagio resultados;
  resultados ← (if verificar_ortografia config
                then _verificar_ortografia resultados
                else Ok resultados);
  Ok (_preparar_resultados ruta_documento resultados).
End Verificador.

Section Ejecucion.
Context `{Unicode} `{Entorno}.

Definition _generar_resultado_error (config : Config) (ruta_documento : string)
    (resultados : list ResultadoVerificacion) : Informe :=
  InformeError ruta_documento (ahora (formato_fecha config))
    "No se pudo procesar el documento" resultados.

(** [_cargar_documento] either sets [documento_pdf] and [total_folios], or
    appends the result that reports the failure. *)
Definition _cargar_documento (ruta_documento : string)
    (resultados : list ResultadoVerificacion)
  : documento + list ResultadoVerificacion :=
  match PdfReader ruta_documento with
  | Ok doc => inl doc
  | Raise e =>
      inr (resultados ++ [{|
        tipo_verificacion := "Carga de Documento";
        estado := "RECHAZADO";
        detalles := [Detalle "Error al cargar documento: {}"
                       [VStr (str_excepcion e)]];
        porcentaje_cumplimiento := 0;
        folios_afectados := []
      |}])
  end.

(** A fresh [VerificadorAdmisibilidad(ruta_documento, config)], whose
    [resultados] is empty, running [ejecutar_verificacion_completa]. *)
Definition ejecutar_verificacion_completa (config : Config)
    (ruta_documento : string) : salida Informe :=
  match _cargar_documento ruta_documento [] with
  | inr resultados => Ok (_generar_resultado_error config ruta_documento resultados)
  | inl documento_pdf => verificaciones config documento_pdf ruta_documento []
  end.
End Ejecucion.

(** ** Notions used to state the properties *)

(** The indices at which [x] occurs in [b], in increasing order. *)
Definition positions (x : char) (b : str) : list nat :=
  (filter (λ p : nat * char, p.2 = x) (Difflib.enumerate b)).*1.

(** [a[i] == a[j]] and the element has an entry in [b2j]. *)
Definition interesting (b2j : gmap N (list nat)) (a : str) (i j : nat) : bool :=
  match a !! i, a !! j with
  | Some x, Some y => bool_decide (x = y) && bool_decide (is_Some (b2j !! x))
  | _, _ => false
  end.

(** Length of the longest common run of interesting elements that ends at
    [a[i]] and at [a[j]]. *)
Fixpoint run_length (b2j : gmap N (list nat)) (a : str) (i j : nat) : nat :=
  if interesting b2j a i j then
    match i, j with
    | S i', S j' => S (run_length b2j a i' j')
    | _, _ => 1
    end
  else 0.

(** A page the blank-page check counts: its text was extracted and, once
    trimmed, has fewer than 10 characters. *)
Definition es_hoja_blanco `{Unicode} (p : Pagina) : bool :=
  match p with
  | Texto t => length (strip t) <? 10
  | ErrorExtraccion _ => false
  end.

(** *** The number a page declares, in the words of the specification

    A labelled number is looked for first, with the labels "folio", "foja"
    and "página" in this order and without regard to case; a line that
    holds a number and nothing else is the fallback; no match, no number.
    None of this refers to the patterns of the code. *)
Section FolioDeclarado.
Context `{Unicode}.

Definition dos_puntos : char := 58%N.

(** What follows [etiqueta], read without regard to case, at the head of
    [t]. *)
Fixpoint tras_prefijo (etiqueta t : str) : option str :=
  match etiqueta, t with
  | [], _ => Some t
  | x :: etiqueta', c :: t' =>
      if igual_sin_caja x c then tras_prefijo etiqueta' t' else None
  | _ :: _, [] => None
  end.

(** The longest run of decimal digits at the head of [t]. *)
Fixpoint digitos (t : str) : str :=
  match t with
  | c :: t' =>
      if bool_decide (is_Some (decimal c)) then c :: digitos t' else []
  | [] => []
  end.

(** [t] without the colon at its head, if it has one. *)
Definition sin_dos_puntos (t : str) : str :=
  match t with
  | c :: t' => if bool_decide (c = dos_puntos) then t' else t
  | [] => t
  end.

(** After a label: white space, at most one colon, white space, and then
    the digits, at least one. *)
Definition numero_tras_etiqueta (t : str) : option str :=
  match digitos (lstrip (sin_dos_puntos (lstrip t))) with
  | [] => None
  | g => Some g
  end.

(** The digits at the leftmost place of [t] where the label stands with a
    number after it. *)
Fixpoint numero_etiquetado (etiqueta t : str) : option str :=
  match tras_prefijo etiqueta t ≫= numero_tras_etiqueta with
  | Some g => Some g
  | None =>
      match t with
      | [] => None
      | _ :: t' => numero_etiquetado etiqueta t'
      end
  end.

(** The lines of [t], which line feeds separate. *)
Fixpoint lineas (t : str) : list str :=
  match t with
  | [] => [[]]
  | c :: t' =>
      if bool_decide (c = salto) then [] :: lineas t'
      else match lineas t' with
           | l :: ls => (c :: l) :: ls
           | [] => [[c]]
           end
  end.

(** A line that holds a number and nothing else. *)
Definition es_numero (l : str) : bool :=
  negb (bool_decide (l = []))
  && forallb (λ c, bool_decide (is_Some (decimal c))) l.

Definition linea_numerica (t : str) : option str :=
  List.find es_numero (lineas t).

(** The digits of the number the page declares. *)
Definition digitos_declarados (t : str) : option str :=
  match numero_etiquetado (str_of_string "folio") t with
  | Some g => Some g
  | None =>
  match numero_etiquetado (str_of_string "foja") t with
  | Some g => Some g
  | None =>
  match numero_etiquetado [112; 225; 103; 105; 110; 97]%N t with   (* página *)
  | Some g => Some g
  | None => linea_numerica t
  end end end.

(** The number itself, however many digits it has. *)
Definition folio_declarado (t : str) : option N :=
  g ← digitos_declarados t; int_digits 0%N g.

(** What the statements about the declared number ask of the tables of the
    interpreter, and what they satisfy: white space and the colon are not
    digits, the colon is not white space and has no other case, and the
    line feed is not a digit. *)
Definition tablas_coherentes : Prop :=
  (∀ c, isspace c = true → decimal c = None) ∧
  (∀ c, igual_sin_caja dos_puntos c = true ↔ c = dos_puntos) ∧
  isspace dos_puntos = false ∧
  decimal dos_puntos = None ∧
  decimal salto = None.
End FolioDeclarado.

(** *** Notions used to compare the patterns with the declared number *)
Section Emparejador.
Context `{Unicode}.

(** Where [star] stands after the longest run. *)
Fixpoint tras_run (a : atom) (prev : option char) (s : str) : option char * str :=
  match s with
  | c :: s' => if atom_ok a c then tras_run a (Some c) s' else (prev, s)
  | [] => (prev, s)
  end.

(** [match.group(1)] of a match. *)
Definition grupo_de (o : option cursor) : option str :=
  st ← o; Some (default [] (grupo st)).

(** [:?\s*(\d+)] and [^(\d+)$] *)
Definition tras_colon : regex :=
  Seq (Opt (Chr 58%N)) (Seq (Star Espacio) (Grp (Plus Digito))).

Definition numero_solo : regex := Seq Bol (Seq (Grp (Plus Digito)) Eol).

(** [^] matches after this character. *)
Definition inicio_linea (prev : option char) : bool :=
  match prev with
  | None => true
  | Some c => bool_decide (c = salto)
  end.

(** The line at the head of the text holds a number and nothing else. *)
Definition numero_en_cabeza (t : str) : option str :=
  match digitos t with
  | [] => None
  | g =>
      match drop (length g) t with
      | [] => Some g
      | c :: _ => if bool_decide (c = salto) then Some g else None
      end
  end.
End Emparejador.

(** The example of the pagination check: two pages, "Folio: 1" and
    "Folio: 3". *)
Definition doc_folio_1_3 : documento :=
  [Texto (str_of_string "Folio: 1"); Texto (str_of_string "Folio: 3")].

(** The example of the legibility check: 100 pages, the first with 4
    letters among its 10 characters, the others plain text. *)
Definition doc_un_ilegible : documento :=
  Texto (str_of_string "abcd######")
  :: repeat (Texto (str_of_string "texto legible")) 99.

(** ** Example documents *)

(** An environment for the examples: the reader returns [doc], no grammar
    tool is installed, and the digest is a stand-in that, like MD5, tells the
    texts of the example documents apart. *)
Definition entorno_ejemplo (doc : documento) : Entorno := {|
  PdfReader := λ _, Ok doc;
  md5_hexdigest := λ t, string_of_list_ascii (map ascii_of_N t);
  nuevo_LanguageTool := λ _, Raise (Exception "LanguageTool no disponible");
  ahora := λ _, "2025-01-01 00:00:00"
|}.

(** Three pages: the first and the third with the same text, the second
    empty. *)
Definition doc_tres : documento :=
  [Texto (str_of_string "texto de la primera hoja");
   Texto [];
   Texto (str_of_string "texto de la primera hoja")].

(** Three pages with the same text. *)
Definition doc_tres_copias : documento :=
  repeat (Texto (str_of_string "una hoja")) 3.

(** Four pages with the same text of 101 characters. *)
Definition doc_cuatro_copias : documento :=
  repeat (Texto (repeat 97%N 101)) 4.

(** A page whose extraction fails, and a page with an empty text. *)
Definition doc_falla : documento := [ErrorExtraccion (Exception "extract_text")].
Definition doc_vacia : documento := [Texto []].

(** Two pages, the second of which cannot be read. *)
Definition doc_con_falla : documento :=
  [Texto (str_of_string "texto de la primera hoja");
   ErrorExtraccion (Exception "extract_text")].

(** One page that declares, after its label, a number of 4301 digits. *)
Definition texto_numero_largo : str :=
  str_of_string "Folio: " ++ repeat 55%N 4301.

Definition doc_numero_largo : documento := [Texto texto_numero_largo].

(** Results with the given statuses. *)
Definition resultado_con (e : string) : ResultadoVerificacion := {|
  tipo_verificacion := "";
  estado := e;
  detalles := [];
  porcentaje_cumplimiento := 0;
  folios_afectados := []
|}.

(** ** The report generator ([GeneradorReportePDF]) and the entry point *)

(** [KeyError(clave)], whose [str] is the key between quotes. *)
Definition KeyError (clave : string) : excepcion :=
  Exception ("'" ++ clave ++ "'").

(** [round(q, 1)] of the exact value, ties to the even neighbour; as with
    [round2], the double the program rounds can fall on the other side of
    a tie (23/80*100), and the figure goes to the summary table only. *)
Definition round1 (q : Q) : Q :=
  let z := (q * 10)%Q in
  let f := Qfloor z in
  let d := (z - inject_Z f)%Q in
  let r := if Qlt_bool d (1 # 2) then f
           else if Qlt_bool (1 # 2) d then (f + 1)%Z
           else if Z.even f then f else (f + 1)%Z in
  (inject_Z r / 10)%Q.

(** The strings the generator writes: a text with [{}] for each hole and
    what fills the holes. *)
Inductive relleno :=
| RStr (s : string)
| RInt (n : nat)                 (* [str(n)] *)
| RFloat (q : Q)
| RFijo2 (q : Q)                 (* the format [:.2f] *)
| RDetalle (d : detalle)
| RJoin (l : list nat).          (* [", ".join(map(str, l))] *)

Record cadena := Cadena {
  molde : string;
  rellenos : list relleno
}.

(** A literal, and a value alone. *)
Definition lit (s : string) : cadena := Cadena s [].
Definition solo (r : relleno) : cadena := Cadena "{}" [r].

Inductive color :=
| HexColor (hex : string)
| ColorNombre (nombre : string).       (* [colors.black], [colors.grey], ... *)

(** The values of a [TableStyle] command. *)
Inductive valor_estilo :=
| VColor (c : color)
| Numero (q : Q)
| Nombre (s : string)
| Colores (l : list color).

Record comando := Comando {
  cmd_nombre : string;
  cmd_desde : Z * Z;
  cmd_hasta : Z * Z;
  cmd_valores : list valor_estilo
}.

(** The flowables handed to [SimpleDocTemplate.build]; a paragraph names
    its style. *)
Inductive Flowable :=
| Paragraph (texto : cadena) (estilo : string)
| Spacer (ancho alto : Q)
| PageBreak
| Table (datos : list (list cadena)) (colWidths : list Q) (estilo : list comando).

(** [reportlab.lib.units.inch] *)
Definition inch : Q := 72.

Record ParagraphStyle := {
  ps_name : string;
  ps_parent : string;
  ps_fontSize : Q;
  ps_textColor : color;
  ps_spaceAfter : Q;
  ps_spaceBefore : option Q;
  ps_alignment : option Z
}.

(** The styles [_configurar_estilos] adds to the sample style sheet. *)
Definition _configurar_estilos : list ParagraphStyle :=
  [ {| ps_name := "TituloReporte"; ps_parent := "Heading1"; ps_fontSize := 18;
       ps_textColor := HexColor "#1a1a1a"; ps_spaceAfter := 30;
       ps_spaceBefore := None; ps_alignment := Some 1%Z |};
    {| ps_name := "Seccion"; ps_parent := "Heading2"; ps_fontSize := 14;
       ps_textColor := HexColor "#2c3e50"; ps_spaceAfter := 12;
       ps_spaceBefore := Some 12%Q; ps_alignment := None |} ].

(** What the entry point takes from the operating system and from
    reportlab: [os.path.exists], [os.path.basename], [Path(...).stem], and
    [SimpleDocTemplate(ruta, ...).build(elementos)].  The flowables are
    data here, so [doc_build] also stands for what reportlab may raise
    while a [Paragraph] parses its markup; the generator's own exceptions
    ([KeyError], [ZeroDivisionError]) all come before the first paragraph
    whose text is not a literal. *)
Class Sistema := {
  path_exists : string -> bool;
  path_basename : string -> string;
  path_stem : string -> string;
  doc_build : string -> list Flowable -> salida unit
}.

(** Reading a key of the dictionary of results. *)
Definition clave_total_folios (resultados : Informe) : salida nat :=
  match resultados with
  | InformeCompleto _ _ n _ _ => Ok n
  | InformeError _ _ _ _ => Raise (KeyError "total_folios")
  end.

Definition clave_resumen (resultados : Informe) : salida Resumen :=
  match resultados with
  | InformeCompleto _ _ _ r _ => Ok r
  | InformeError _ _ _ _ => Raise (KeyError "resumen")
  end.

Definition clave_documento (resultados : Informe) : string :=
  match resultados with
  | InformeCompleto d _ _ _ _ => d
  | InformeError d _ _ _ => d
  end.

Definition clave_fecha_verificacion (resultados : Informe) : string :=
  match resultados with
  | InformeCompleto _ f _ _ _ => f
  | InformeError _ f _ _ => f
  end.

Definition clave_resultados (resultados : Informe) : list ResultadoVerificacion :=
  match resultados with
  | InformeCompleto _ _ _ _ l => l
  | InformeError _ _ _ l => l
  end.

(** [sub in s] *)
Fixpoint contiene (sub s : string) : bool :=
  String.prefix sub s ||
  match s with
  | EmptyString => false
  | String _ s' => contiene sub s'
  end.

Definition todo : Z * Z := ((-1)%Z, (-1)%Z).

Section Generador.
Context `{Sistema}.
Variable resultados : Informe.

Definition _generar_encabezado : salida (list Flowable) :=
  let titulo := Paragraph (lit "REPORTE DE VERIFICACIÓN DE ADMISIBILIDAD DOCUMENTAL")
                          "TituloReporte" in
  total ← clave_total_folios resultados;
  resumen ← clave_resumen resultados;
  let datos :=
    [ [lit "Documento analizado:";
       solo (RStr (path_basename (clave_documento resultados)))];
      [lit "Fecha de verificación:";
       solo (RStr (clave_fecha_verificacion resultados))];
      [lit "Total de folios:"; solo (RInt total)];
      [lit "Estado global:"; solo (RStr (estado_global resumen))] ] in
  let tabla_info :=
    Table datos [(5 # 2) * inch; 4 * inch]%Q
      [ Comando "BACKGROUND" (0, 0)%Z (0, -1)%Z [VColor (HexColor "#ecf0f1")];
        Comando "TEXTCOLOR" (0, 0)%Z todo [VColor (ColorNombre "black")];
        Comando "ALIGN" (0, 0)%Z todo [Nombre "LEFT"];
        Comando "FONTNAME" (0, 0)%Z (0, -1)%Z [Nombre "Helvetica-Bold"];
        Comando "FONTSIZE" (0, 0)%Z todo [Numero 9];
        Comando "BOTTOMPADDING" (0, 0)%Z todo [Numero 8];
        Comando "GRID" (0, 0)%Z todo [Numero (1 # 2); VColor (ColorNombre "grey")] ] in
  Ok [titulo; tabla_info].

(** [f"{round(cantidad / total * 100, 1)}%"] *)
Definition porcentaje_de (cantidad total : nat) : salida cadena :=
  q ← truediv (Z.of_nat cantidad) (Z.of_nat total);
  Ok (Cadena "{}%" [RFloat (round1 (q * 100))]).

Definition _generar_resumen_ejecutivo : salida (list Flowable) :=
  resumen ← clave_resumen resultados;
  p_aprobados ← porcentaje_de (aprobados resumen) (total_verificaciones resumen);
  p_observados ← porcentaje_de (observados resumen) (total_verificaciones resumen);
  p_rechazados ← porcentaje_de (rechazados resumen) (total_verificaciones resumen);
  let datos :=
    [ [lit "CONCEPTO"; lit "CANTIDAD"; lit "PORCENTAJE"];
      [lit "Verificaciones realizadas";
       solo (RInt (total_verificaciones resumen)); lit "100%"];
      [lit "Aprobadas"; solo (RInt (aprobados resumen)); p_aprobados];
      [lit "Observadas"; solo (RInt (observados resumen)); p_observados];
      [lit "Rechazadas"; solo (RInt (rechazados resumen)); p_rechazados] ] in
  let tabla_resumen :=
    Table datos [3 * inch; (3 # 2) * inch; (3 # 2) * inch]%Q
      [ Comando "BACKGROUND" (0, 0)%Z (-1, 0)%Z [VColor (HexColor "#34495e")];
        Comando "TEXTCOLOR" (0, 0)%Z (-1, 0)%Z [VColor (ColorNombre "whitesmoke")];
        Comando "ALIGN" (0, 0)%Z todo [Nombre "CENTER"];
        Comando "FONTNAME" (0, 0)%Z (-1, 0)%Z [Nombre "Helvetica-Bold"];
        Comando "FONTSIZE" (0, 0)%Z todo [Numero 10];
        Comando "BOTTOMPADDING" (0, 0)%Z todo [Numero 12];
        Comando "GRID" (0, 0)%Z todo [Numero 1; VColor (ColorNombre "black")];
        Comando "ROWBACKGROUNDS" (0, 1)%Z todo
          [Colores [ColorNombre "white"; HexColor "#f8f9fa"]] ] in
  Ok [ Paragraph (lit "RESUMEN EJECUTIVO") "Seccion";
       tabla_resumen;
       Spacer 1 ((2 # 10) * inch);
       Paragraph (Cadena "<b>ESTADO GLOBAL: {}</b>" [RStr (estado_global resumen)])
                 "Normal" ].

(** [colores.get(estado, colors.grey)] *)
Definition _obtener_color_estado (estado : string) : color :=
  if String.eqb estado "APROBADO" then HexColor "#27ae60"
  else if String.eqb estado "OBSERVADO" then HexColor "#f39c12"
  else if String.eqb estado "RECHAZADO" then HexColor "#e74c3c"
  else if String.eqb estado "NO PROCESADO" then HexColor "#95a5a6"
  else if String.eqb estado "ADMISIBLE" then HexColor "#27ae60"
  else if String.eqb estado "ADMISIBLE CON OBSERVACIONES" then HexColor "#f39c12"
  else if String.eqb estado "NO ADMISIBLE" then HexColor "#e74c3c"
  else ColorNombre "grey".

Definition _generar_seccion_resultado (resultado : ResultadoVerificacion)
  : list Flowable :=
  let color_estado := _obtener_color_estado (estado resultado) in
  let folios := folios_afectados resultado in
  let datos :=
    [ [lit "Estado:"; solo (RStr (estado resultado))];
      [lit "Cumplimiento:";
       Cadena "{}%" [RFijo2 (porcentaje_cumplimiento resultado)]];
      [lit "Folios afectados:"; solo (RInt (length folios))] ] in
  let tabla_info :=
    Table datos [2 * inch; 4 * inch]%Q
      [ Comando "BACKGROUND" (0, 0)%Z (0, -1)%Z [VColor (HexColor "#ecf0f1")];
        Comando "BACKGROUND" (1, 0)%Z (1, 0)%Z [VColor color_estado];
        Comando "TEXTCOLOR" (0, 0)%Z todo [VColor (ColorNombre "black")];
        Comando "ALIGN" (0, 0)%Z todo [Nombre "LEFT"];
        Comando "FONTNAME" (0, 0)%Z (0, -1)%Z [Nombre "Helvetica-Bold"];
        Comando "FONTSIZE" (0, 0)%Z todo [Numero 10];
        Comando "BOTTOMPADDING" (0, 0)%Z todo [Numero 12];
        Comando "GRID" (0, 0)%Z todo [Numero 1; VColor (ColorNombre "grey")] ] in
  [ Paragraph (Cadena "<b>{}</b>" [RStr (tipo_verificacion resultado)]) "Normal";
    Spacer 1 ((1 # 10) * inch);
    tabla_info;
    Spacer 1 ((1 # 10) * inch) ]
  ++ match detalles resultado with
     | [] => []
     | ds => Paragraph (lit "<b>Detalles:</b>") "Normal"
             :: map (fun d => Paragraph (Cadena "• {}" [RDetalle d]) "Normal") ds
     end
  ++ (if (0 <? length folios) && (length folios <=? 20) then
        [Paragraph (Cadena "<b>Folios específicos:</b> {}" [RJoin folios]) "Normal"]
      else if 20 <? length folios then
        [Paragraph (Cadena "<b>Folios específicos (primeros 20):</b> {} ... y {} más"
                      [RJoin (take 20 folios); RInt (length folios - 20)])
                   "Normal"]
      else []).

Definition _generar_resultados_detallados : list Flowable :=
  [ PageBreak;
    Paragraph (lit "RESULTADOS DETALLADOS POR VERIFICACIÓN") "Seccion";
    Spacer 1 ((2 # 10) * inch) ]
  ++ flat_map (fun resultado =>
                 _generar_seccion_resultado resultado ++ [Spacer 1 ((3 # 10) * inch)])
              (clave_resultados resultados).

(** The recommendation a result adds, if any. *)
Definition recomendacion_de (resultado : ResultadoVerificacion) : option string :=
  let tipo := tipo_verificacion resultado in
  if String.eqb (estado resultado) "RECHAZADO" then
    if contiene "Hojas en Blanco" tipo then
      Some "Eliminar las hojas en blanco identificadas del documento"
    else if contiene "Folios Duplicados" tipo then
      Some "Revisar y eliminar los folios duplicados detectados"
    else if contiene "Foliación" tipo then
      Some "Corregir la numeración correlativa de los folios según normativa vigente"
    else if contiene "Ilegibilidad" tipo then
      Some "Re-escanear o reemplazar los folios con baja legibilidad"
    else if contiene "Ortográfica" tipo then
      Some "Realizar corrección ortográfica exhaustiva del documento"
    else None
  else if String.eqb (estado resultado) "OBSERVADO" then
    if contiene "Plagio" tipo then
      Some "Revisar las secciones con alta similitud para verificar autoría"
    else if contiene "Ilegibilidad" tipo then
      Some "Considerar mejorar la calidad de los folios observados"
    else None
  else None.

Definition _generar_recomendaciones : list string :=
  let recomendaciones := omap recomendacion_de (clave_resultados resultados) in
  match recomendaciones with
  | [] => [ "El documento cumple satisfactoriamente con todos los requisitos";
            "Proceder con el siguiente paso del proceso de admisión" ]
  | _ => recomendaciones
  end.

Definition _generar_conclusiones : salida (list Flowable) :=
  resumen ← clave_resumen resultados;
  let estado_global := estado_global resumen in
  let conclusion :=
    if String.eqb estado_global "ADMISIBLE" then
      "El documento ha superado satisfactoriamente todas las verificaciones de admisibilidad. 
            Se encuentra en condiciones óptimas para su procesamiento y archivo."
    else if String.eqb estado_global "ADMISIBLE CON OBSERVACIONES" then
      "El documento presenta observaciones que, si bien no impiden su admisibilidad, 
            requieren atención y corrección para garantizar la calidad y consistencia documental."
    else
      "El documento NO cumple con los requisitos mínimos de admisibilidad. 
            Se requiere corrección obligatoria de las deficiencias identificadas antes de su aceptación." in
  Ok ([ Paragraph (lit "CONCLUSIONES Y RECOMENDACIONES") "Seccion";
        Spacer 1 ((2 # 10) * inch);
        Paragraph (Cadena "<b>Conclusión:</b> {}" [RStr conclusion]) "Normal";
        Spacer 1 ((2 # 10) * inch);
        Paragraph (lit "<b>Recomendaciones:</b>") "Normal";
        Spacer 1 ((1 # 10) * inch) ]
      ++ imap (fun i recom => Paragraph (Cadena "{}. {}" [RInt (i + 1); RStr recom])
                                        "Normal")
              _generar_recomendaciones
      ++ [ Spacer 1 ((3 # 10) * inch);
           Paragraph (Cadena "{}" [RStr (String.concat "" (repeat "_" 60))]) "Normal";
           Spacer 1 ((1 # 10) * inch);
           Paragraph (lit "Sistema Automatizado de Verificación de Admisibilidad")
                     "Normal";
           Paragraph (Cadena "Fecha de emisión: {}"
                        [RStr (clave_fecha_verificacion resultados)]) "Normal" ]).

(** [generar]: the flowables, in the order they are added, then
    [doc.build]. *)
Definition elementos_de_generar : salida (list Flowable) :=
  e1 ← _generar_encabezado;
  e2 ← _generar_resumen_ejecutivo;
  let e3 := _generar_resultados_detallados in
  e4 ← _generar_conclusiones;
  Ok (e1 ++ [Spacer 1 ((3 # 10) * inch)] ++ e2 ++ [Spacer 1 ((3 # 10) * inch)]
      ++ e3 ++ [PageBreak] ++ e4).

Definition generar (ruta_salida : string) : salida (list Flowable) :=
  elementos ← elementos_de_generar;
  _ ← doc_build ruta_salida elementos;
  Ok elementos.
End Generador.

Section Rpa.
Context `{Unicode} `{Entorno} `{Sistema}.

(** [ejecutar_verificacion_rpa]: [None] when the file does not exist;
    otherwise the dictionary of results, once the report has been built. *)
Definition ejecutar_verificacion_rpa (ruta_documento : string)
    (ruta_salida_reporte : option string) : salida (option Informe) :=
  if negb (path_exists ruta_documento) then Ok None
  else
    let configuracion := {|
      umbral_blanco := 98 # 100;
      umbral_ilegibilidad := 60 # 100;
      umbral_plagio := 85 # 100;
      verificar_ortografia := true;
      idioma_ortografia := "es";
      formato_fecha := "%Y-%m-%d %H:%M:%S"
    |} in
    resultados ← ejecutar_verificacion_completa configuracion ruta_documento;
    let ruta_salida_reporte :=
      match ruta_salida_reporte with
      | Some r => r
      | None =>
          ("reporte_admisibilidad_" ++ path_stem ruta_documento ++ "_"
           ++ ahora "%Y%m%d_%H%M%S" ++ ".pdf")%string
      end in
    _ ← generar resultados ruta_salida_reporte;
    _ ← clave_resumen resultados;
    Ok (Some resultados).
End Rpa.

(** A grammar tool for the examples: one match for each letter z. *)
Definition tool_ejemplo : LanguageTool := {|
  check := fun t => Ok (map (fun c => [c]) (List.filter (N.eqb 122) t));
  close := Ok tt
|}.

Definition entorno_con_tool (doc : documento) : Entorno := {|
  PdfReader := fun _ => Ok doc;
  md5_hexdigest := fun t => string_of_list_ascii (map ascii_of_N t);
  nuevo_LanguageTool := fun _ => Ok tool_ejemplo;
  ahora := fun _ => "2025-01-01 00:00:00"
|}.

Definition entorno_sin_pdf : Entorno := {|
  PdfReader := fun _ => Raise (Exception "EOF marker not found");
  md5_hexdigest := fun t => string_of_list_ascii (map ascii_of_N t);
  nuevo_LanguageTool := fun _ => Raise (Exception "LanguageTool no disponible");
  ahora := fun _ => "2025-01-01 00:00:00"
|}.

Definition sistema_ejemplo : Sistema := {|
  path_exists := fun _ => true;
  path_basename := fun r => r;
  path_stem := fun r => r;
  doc_build := fun _ _ => Ok tt
|}.

(** Two pages, with no z in the first and three in the second. *)
Definition doc_zetas : documento :=
  [Texto (str_of_string "texto de la primera hoja");
   Texto (str_of_string "zarza con zetas")].

(** * Facts about the SequenceMatcher model *)

Module DifflibFacts.
Import Difflib.

Section Bounds.
Variables (a b : str) (b2j : gmap N (list nat)).
Variables (alo ahi blo bhi : nat).

Lemma j2lenget_le (m : gmap nat nat) (c j : nat) :
  (∀ j' v, m !! j' = Some v → v ≤ c) → j2lenget m j ≤ c.
Proof.
  intros Hm. destruct j as [|j']; simpl; [lia|].
  destruct (m !! j') as [v|] eqn:E; simpl; [eauto | lia].
Qed.

Lemma inner_bounds (i : nat) (j2len : gmap nat nat) (js : list nat) :
  alo ≤ i →
  (∀ j v, j2len !! j = Some v → v ≤ i - alo) →
  ∀ (best : Match) (new : gmap nat nat),
    alo ≤ best.1.1 →
    best.1.1 + best.2 ≤ i + 1 →
    (∀ j v, new !! j = Some v → v ≤ i + 1 - alo) →
    let r := inner blo bhi i j2len js best new in
    alo ≤ r.1.1.1 ∧ r.1.1.1 + r.1.2 ≤ i + 1 ∧
    (∀ j v, r.2 !! j = Some v → v ≤ i + 1 - alo).
Proof.
  intros Hi Hlen. induction js as [|j js IH]; intros best new Hb1 Hb2 Hnew; simpl.
  - auto.
  - destruct (j <? blo); [by apply IH|].
    destruct (bhi <=? j); [simpl; auto|].
    pose proof (j2lenget_le j2len (i - alo) j Hlen) as Hk.
    apply IH.
    + destruct (best.2 <? j2lenget j2len j + 1); simpl; [lia|done].
    + destruct (best.2 <? j2lenget j2len j + 1); simpl; [lia|done].
    + intros j' v. rewrite lookup_insert. case_decide; [|by apply Hnew].
      intros [= <-]. lia.
Qed.

Lemma outer_step_bounds (i : nat) (st : Match * gmap nat nat) :
  alo ≤ i →
  alo ≤ st.1.1.1 → st.1.1.1 + st.1.2 ≤ i →
  (∀ j v, st.2 !! j = Some v → v ≤ i - alo) →
  let r := outer_step a b2j blo bhi st i in
  alo ≤ r.1.1.1 ∧ r.1.1.1 + r.1.2 ≤ i + 1 ∧
  (∀ j v, r.2 !! j = Some v → v ≤ i + 1 - alo).
Proof.
  intros Hi H1 H2 H3. unfold outer_step. cbv zeta.
  apply inner_bounds; [done|done|done|lia|].
  intros j v. by rewrite lookup_empty.
Qed.

Lemma outer_bounds (n : nat) :
  let st := fold_left (outer_step a b2j blo bhi) (seq alo n) ((alo, blo, 0), ∅) in
  alo ≤ st.1.1.1 ∧ st.1.1.1 + st.1.2 ≤ alo + n ∧
  (∀ j v, st.2 !! j = Some v → v ≤ n).
Proof.
  induction n as [|n IH].
  - simpl. split_and!; [lia|lia|]. intros j v. by rewrite lookup_empty.
  - rewrite seq_S, fold_left_app. simpl.
    destruct IH as (IH1 & IH2 & IH3).
    destruct (outer_step_bounds (alo + n) _ ltac:(lia) IH1 IH2) as (R1 & R2 & R3).
    { intros j v Hj. apply IH3 in Hj. lia. }
    split_and!; [done|lia|].
    intros j v Hj. apply R3 in Hj. lia.
Qed.

Lemma extend_left_bounds (besti bestj bestsize : nat) :
  alo ≤ besti →
  let r := extend_left a b alo blo besti bestj bestsize in
  alo ≤ r.1.1 ∧ r.1.1 + r.2 = besti + bestsize.
Proof.
  revert bestj bestsize.
  induction besti as [|i' IH]; intros bestj bestsize Hlo; simpl; [lia|].
  destruct bestj as [|j']; simpl; [lia|].
  destruct (alo <? S i') eqn:E1; simpl; [|lia].
  destruct (blo <? S j'); simpl; [|lia].
  destruct (same_elt a b i' j'); simpl; [|lia].
  apply Nat.ltb_lt in E1.
  destruct (IH j' (S bestsize) ltac:(lia)) as [? ?]. lia.
Qed.

Lemma extend_right_bounds (rem besti bestj bestsize : nat) :
  let r := extend_right a b bhi rem besti bestj bestsize in
  r.1.1 = besti ∧ bestsize ≤ r.2 ∧ r.2 ≤ bestsize + rem.
Proof.
  revert bestsize.
  induction rem as [|rem IH]; intros bestsize; simpl; [lia|].
  destruct (_ && _); simpl; [|lia].
  destruct (IH (S bestsize)) as (? & ? & ?). lia.
Qed.

(** The block lies inside [a[alo:ahi]]. *)
Lemma find_longest_match_bounds :
  let r := find_longest_match a b b2j alo ahi blo bhi in
  alo ≤ r.1.1 ∧ (r.2 = 0 ∨ r.1.1 + r.2 ≤ ahi).
Proof.
  unfold find_longest_match, longest_junk_free.
  pose proof (outer_bounds (ahi - alo)) as (B1 & B2 & _).
  destruct (fold_left _ _ _).1 as [[bi bj] bs] eqn:E. simpl in B1, B2.
  pose proof (extend_left_bounds bi bj bs B1) as [L1 L2].
  destruct (extend_left a b alo blo bi bj bs) as [[bi' bj'] bs'] eqn:E'.
  simpl in L1, L2.
  pose proof (extend_right_bounds (ahi - (bi' + bs')) bi' bj' bs') as (R1 & R2 & R3).
  destruct (extend_right _ _ _ _ _ _ _) as [[i j] k]. simpl in *.
  split; [lia|].
  destruct (decide (alo ≤ ahi)); [right; lia|].
  assert (bs = 0) by lia. left. lia.
Qed.
End Bounds.

(** Twice the rows still queued, plus one per rectangle: every round of
    the [while queue] loop lowers it. *)
Lemma blocks_loop_total (a b : str) (b2j : gmap N (list nat)) (fuel : nat) :
  ∀ (queue : list Rect) (acc : list Match),
    sum_list (map (λ r : Rect, 2 * (r.1.1.2 - r.1.1.1) + 1) queue) ≤ fuel →
    is_Some (blocks_loop a b b2j fuel queue acc).
Proof.
  induction fuel as [|fuel IH]; intros queue acc Hq.
  - destruct queue as [|[[[alo ahi] blo] bhi] q]; simpl in *; [eauto | lia].
  - destruct queue as [|[[[alo ahi] blo] bhi] q]; simpl in *; [eauto|].
    pose proof (find_longest_match_bounds a b b2j alo ahi blo bhi) as [F1 F2].
    destruct (find_longest_match a b b2j alo ahi blo bhi) as [[i j] k].
    simpl in F1, F2.
    destruct (k =? 0) eqn:Ek.
    + apply IH. lia.
    + apply Nat.eqb_neq in Ek. destruct F2 as [?|F2]; [lia|].
      apply IH.
      destruct ((alo <? i) && (blo <? j)), ((i + k <? ahi) && (j + k <? bhi));
        simpl; lia.
Qed.

Lemma get_matching_blocks_total (a b : str) : is_Some (get_matching_blocks a b).
Proof.
  unfold get_matching_blocks.
  destruct (blocks_loop_total a b (chain_b b) (2 * length a + 1)
              [(0, length a, 0, length b)] []) as [l ->]; [simpl; lia | eauto].
Qed.

(** [ratio] always returns: the fuel of the model is never exhausted. *)
Lemma ratio_opt_total (a b : str) : ratio_opt a b = Some (ratio a b).
Proof.
  unfold ratio, ratio_opt.
  destruct (get_matching_blocks_total a b) as [l ->]. done.
Qed.

End DifflibFacts.

Module ReflexiveFacts.
Import Difflib.

Lemma enumerate_snoc (b : str) (c : char) :
  enumerate (b ++ [c]) = enumerate b ++ [(length b, c)].
Proof. unfold enumerate. rewrite imap_app. simpl. by rewrite Nat.add_0_r. Qed.

Lemma positions_snoc (x c : char) (b : str) :
  positions x (b ++ [c]) =
  positions x b ++ (if decide (c = x) then [length b] else []).
Proof.
  unfold positions. rewrite enumerate_snoc, filter_app, fmap_app. f_equal.
  destruct (decide (c = x)) as [->|Hne].
  - rewrite filter_cons_True, filter_nil by reflexivity. reflexivity.
  - rewrite filter_cons_False, filter_nil by (simpl; congruence). reflexivity.
Qed.

Lemma elem_of_positions (x : char) (b : str) (j : nat) :
  j ∈ positions x b ↔ b !! j = Some x.
Proof.
  unfold positions, enumerate. rewrite list_elem_of_fmap. split.
  - intros ([j' y] & -> & Hin). apply list_elem_of_filter in Hin as [Hy Hin].
    apply elem_of_lookup_imap in Hin as (i & z & [= -> ->] & Hl).
    simpl in *. by subst.
  - intros Hl. exists (j, x). split; [done|].
    apply list_elem_of_filter. split; [done|].
    by apply elem_of_lookup_imap_2 with (f := pair).
Qed.

Lemma positions_sorted (x : char) (b : str) : StronglySorted lt (positions x b).
Proof.
  induction b as [|c b IH] using rev_ind; [constructor|].
  rewrite positions_snoc. apply StronglySorted_app_2; [|done|].
  - intros j1 j2 H1 H2. apply elem_of_positions, lookup_lt_Some in H1.
    destruct (decide (c = x)); [|by apply elem_of_nil in H2].
    apply list_elem_of_singleton in H2. lia.
  - destruct (decide (c = x)); repeat constructor.
Qed.

Lemma chain_fold_lookup (b : str) (x : char) :
  fold_left chain_b_step (enumerate b) ∅ !! x =
  match positions x b with
  | [] => None
  | js => Some js
  end.
Proof.
  induction b as [|c b IH] using rev_ind; [done|].
  rewrite enumerate_snoc, fold_left_app, positions_snoc. simpl.
  unfold chain_b_step at 1. simpl.
  rewrite lookup_insert. destruct (decide (c = x)) as [->|Hne].
  - rewrite IH. destruct (positions x b); done.
  - rewrite IH, app_nil_r. done.
Qed.

Lemma chain_b_lookup (b : str) (x : char) (js : list nat) :
  chain_b b !! x = Some js → js = positions x b.
Proof.
  unfold chain_b. intros Hl.
  assert (fold_left chain_b_step (enumerate b) ∅ !! x = Some js) as Hf.
  { destruct (200 <=? length b); [|done].
    by apply map_lookup_filter_Some_1_1 in Hl. }
  rewrite chain_fold_lookup in Hf. destruct (positions x b); congruence.
Qed.

Section Reflexive.
Variable a : str.
Let b2j := chain_b a.
Let n := length a.
Let js_of (i : nat) : list nat :=
  match a !! i with
  | Some x => default [] (b2j !! x)
  | None => []
  end.

Lemma interesting_spec (i j : nat) :
  interesting b2j a i j = true ↔
  ∃ x, a !! i = Some x ∧ a !! j = Some x ∧ is_Some (b2j !! x).
Proof.
  unfold interesting. destruct (a !! i) as [x|], (a !! j) as [y|].
  - rewrite andb_true_iff, !bool_decide_eq_true. split.
    + intros [<- Hx]. eauto.
    + intros (z & [= <-] & [= <-] & Hz). eauto.
  - split; [done|]. by intros (z & _ & Hz & _).
  - split; [done|]. by intros (z & Hz & _).
  - split; [done|]. by intros (z & Hz & _).
Qed.

Lemma js_of_elem (i j : nat) : j ∈ js_of i ↔ interesting b2j a i j = true.
Proof.
  rewrite interesting_spec. unfold js_of.
  destruct (a !! i) as [x|] eqn:Ei.
  - destruct (b2j !! x) as [js|] eqn:Ex; simpl.
    + apply chain_b_lookup in Ex as Hjs. subst js.
      rewrite elem_of_positions. split.
      * intros Hj. exists x. eauto.
      * by intros (y & [= <-] & Hj & _).
    + rewrite elem_of_nil. split; [done|]. intros (y & [= <-] & _ & [? ?]).
      congruence.
  - rewrite elem_of_nil. split; [done|]. by intros (y & Hy & _).
Qed.

Lemma js_of_sorted (i : nat) : StronglySorted lt (js_of i).
Proof.
  unfold js_of. destruct (a !! i) as [x|]; [|constructor].
  destruct (b2j !! x) as [js|] eqn:Ex; simpl; [|constructor].
  apply chain_b_lookup in Ex as ->. apply positions_sorted.
Qed.

Lemma js_of_lt (i j : nat) : j ∈ js_of i → j < n.
Proof.
  rewrite js_of_elem, interesting_spec. intros (x & _ & Hj & _).
  by apply lookup_lt_Some in Hj.
Qed.

Lemma interesting_diag (i j : nat) :
  interesting b2j a i j = true →
  interesting b2j a i i = true ∧ interesting b2j a j j = true.
Proof.
  rewrite !interesting_spec. intros (x & Hi & Hj & Hx). split; exists x; eauto.
Qed.

(** A common run never outgrows the run of the diagonal cell it leans
    on. *)
Lemma run_length_le_diag (i j : nat) :
  run_length b2j a i j ≤ run_length b2j a (i `min` j) (i `min` j).
Proof.
  revert j. induction i as [|i IH]; intros j.
  - simpl. destruct (interesting b2j a 0 j) eqn:E; [|lia].
    apply interesting_diag in E as [-> _]. lia.
  - destruct j as [|j].
    + simpl. destruct (interesting b2j a (S i) 0) eqn:E; [|lia].
      apply interesting_diag in E as [_ ->]. lia.
    + simpl. destruct (interesting b2j a (S i) (S j)) eqn:E; [|lia].
      apply interesting_diag in E as [E1 E2].
      specialize (IH j).
      destruct (Nat.min_spec i j) as [[_ Hm]|[_ Hm]]; rewrite Hm in *.
      * rewrite E1. lia.
      * rewrite E2. lia.
Qed.

Lemma run_length_step (i j : nat) (j2len : gmap nat nat) :
  (∀ j0, j2lenget j2len j0 =
         match i, j0 with
         | S i', S j' => run_length b2j a i' j'
         | _, _ => 0
         end) →
  interesting b2j a i j = true →
  j2lenget j2len j + 1 = run_length b2j a i j.
Proof.
  intros HG E. rewrite HG. destruct i, j; simpl; rewrite E; lia.
Qed.

Lemma inner_diag (i : nat) (j2len : gmap nat nat) :
  (∀ j0, j2lenget j2len j0 =
         match i, j0 with
         | S i', S j' => run_length b2j a i' j'
         | _, _ => 0
         end) →
  ∀ (js : list nat) (best : Match) (new : gmap nat nat),
    StronglySorted lt js →
    (∀ j, j ∈ js → interesting b2j a i j = true ∧ j < n) →
    best.1.1 = best.1.2 →
    (∀ m, m < i → run_length b2j a m m ≤ best.2) →
    (i ∈ js ∨ run_length b2j a i i ≤ best.2) →
    let r := inner 0 n i j2len js best new in
    r.1.1.1 = r.1.1.2 ∧
    (∀ m, m < i + 1 → run_length b2j a m m ≤ r.1.2) ∧
    (∀ j, r.2 !! j = if decide (j ∈ js) then Some (run_length b2j a i j)
                     else new !! j).
Proof.
  intros HG. induction js as [|j js IH]; intros best new Hs Hjs Hd Hrows Hi.
  - simpl. split_and!; [done| |].
    + intros m Hm. destruct (decide (m = i)) as [->|]; [|apply Hrows; lia].
      destruct Hi as [Hi|]; [by apply elem_of_nil in Hi | done].
    + intros j. destruct (decide (j ∈ [])) as [Hin|_]; [|done].
      by apply elem_of_nil in Hin.
  - apply StronglySorted_inv in Hs as [Hs Hall].
    destruct (Hjs j ltac:(left)) as [Ej Hjn].
    pose proof (run_length_step i j j2len HG Ej) as Hk.
    change (inner 0 n i j2len (j :: js) best new) with
      (if n <=? j then (best, new)
       else inner 0 n i j2len js
              (if best.2 <? j2lenget j2len j + 1
               then (i + 1 - (j2lenget j2len j + 1),
                     j + 1 - (j2lenget j2len j + 1), j2lenget j2len j + 1)
               else best)
              (<[j := j2lenget j2len j + 1]> new)).
    replace (n <=? j) with false by (symmetry; apply Nat.leb_gt; lia).
    rewrite Hk.
    assert (best.2 < run_length b2j a i j → j = i) as Hupd.
    { intros Hlt. destruct (decide (j = i)) as [|Hne]; [done|exfalso].
      pose proof (run_length_le_diag i j) as Hle.
      destruct (Nat.min_spec i j) as [[Hij Hm]|[Hij Hm]]; rewrite Hm in Hle.
      - destruct Hi as [Hi|Hi]; [|lia].
        apply elem_of_cons in Hi as [->|Hi]; [done|].
        rewrite Forall_forall in Hall. apply Hall in Hi. lia.
      - specialize (Hrows j ltac:(lia)). lia. }
    set (best' := if best.2 <? run_length b2j a i j
                  then (i + 1 - run_length b2j a i j,
                        j + 1 - run_length b2j a i j, run_length b2j a i j)
                  else best).
    destruct (IH best' (<[j := run_length b2j a i j]> new)) as (R1 & R2 & R3).
    + done.
    + intros j0 Hj0. apply Hjs. by right.
    + subst best'. destruct (best.2 <? _) eqn:E; simpl; [|done].
      apply Nat.ltb_lt in E. by rewrite (Hupd E).
    + subst best'. intros m Hm. specialize (Hrows m Hm).
      destruct (best.2 <? _) eqn:E; simpl; [|done].
      apply Nat.ltb_lt in E. lia.
    + subst best'. destruct (best.2 <? _) eqn:E; simpl.
      * apply Nat.ltb_lt in E. rewrite <- (Hupd E). by right.
      * apply Nat.ltb_ge in E.
        destruct Hi as [Hi|Hi]; [|by right].
        apply elem_of_cons in Hi as [->|Hi]; [by right | by left].
    + split_and!; [done|done|].
      intros j0. rewrite R3, lookup_insert.
      destruct (decide (j0 ∈ js)) as [Hin|Hnin],
               (decide (j0 ∈ j :: js)) as [Hin'|Hnin']; [done| | |].
      * exfalso. apply Hnin'. by right.
      * apply elem_of_cons in Hin' as [->|?]; [|done].
        by destruct (decide (j = j)).
      * destruct (decide (j = j0)) as [->|?]; [|done].
        exfalso. apply Hnin'. by left.
Qed.

Lemma outer_diag (t : nat) :
  let st := fold_left (outer_step a b2j 0 n) (seq 0 t) ((0, 0, 0), ∅) in
  st.1.1.1 = st.1.1.2 ∧
  (∀ m, m < t → run_length b2j a m m ≤ st.1.2) ∧
  (∀ j0, j2lenget st.2 j0 =
         match t, j0 with
         | S t', S j' => run_length b2j a t' j'
         | _, _ => 0
         end).
Proof.
  induction t as [|t IH].
  - simpl. split_and!; [done | lia |]. by intros [|j'].
  - rewrite seq_S, fold_left_app. simpl.
    destruct IH as (IH1 & IH2 & IH3).
    set (st := fold_left _ _ _) in *.
    unfold outer_step. cbv zeta. fold (js_of t).
    destruct (inner_diag t st.2 IH3 (js_of t) st.1 ∅) as (R1 & R2 & R3).
    + apply js_of_sorted.
    + intros j Hj. split; [by apply js_of_elem | by eapply js_of_lt].
    + done.
    + done.
    + destruct (interesting b2j a t t) eqn:E.
      * left. by apply js_of_elem.
      * right. destruct t; simpl; rewrite E; lia.
    + split_and!; [done | intros m Hm; apply R2; lia |].
      intros [|j']; [done|]. simpl. rewrite R3, lookup_empty.
      destruct (decide (j' ∈ js_of t)) as [Hin|Hnin]; [done|]. simpl.
      rewrite js_of_elem in Hnin. apply not_true_is_false in Hnin.
      destruct t, j'; simpl; by rewrite Hnin.
Qed.

Lemma same_elt_diag (i : nat) : i < n → same_elt a a i i = true.
Proof.
  intros Hi. unfold same_elt.
  destruct (a !! i) as [x|] eqn:E; [by apply bool_decide_eq_true|].
  apply lookup_ge_None in E. unfold n in Hi. lia.
Qed.

Lemma extend_left_diag (p s : nat) :
  p ≤ n → extend_left a a 0 0 p p s = (0, 0, s + p).
Proof.
  revert s. induction p as [|p IH]; intros s Hp; simpl.
  - f_equal. lia.
  - rewrite same_elt_diag by lia. simpl. rewrite IH by lia. f_equal. lia.
Qed.

Lemma extend_right_diag (rem s : nat) :
  s + rem = n → extend_right a a n rem 0 0 s = (0, 0, n).
Proof.
  revert s. induction rem as [|rem IH]; intros s Hs; simpl.
  - f_equal. lia.
  - replace (s <? n) with true by (symmetry; apply Nat.ltb_lt; lia).
    rewrite same_elt_diag by lia. simpl. apply IH. lia.
Qed.

(** On two copies of a text the first block found is the whole text. *)
Lemma find_longest_match_self :
  find_longest_match a a b2j 0 n 0 n = (0, 0, n).
Proof.
  unfold find_longest_match, longest_junk_free. rewrite Nat.sub_0_r.
  pose proof (outer_diag n) as (D1 & _ & _).
  pose proof (DifflibFacts.outer_bounds a b2j 0 0 n n) as (_ & B2 & _).
  destruct (fold_left _ _ _).1 as [[p q] s]. simpl in *. subst q.
  rewrite extend_left_diag by lia. simpl.
  apply extend_right_diag. lia.
Qed.

Lemma get_matching_blocks_self :
  get_matching_blocks a a =
  Some (if n =? 0 then [(0, 0, 0)] else [(0, 0, n); (n, n, 0)]).
Proof.
  unfold get_matching_blocks. fold n. fold b2j.
  replace (2 * n + 1) with (S (2 * n)) by lia.
  simpl. rewrite find_longest_match_self.
  destruct (n =? 0) eqn:E; [by apply Nat.eqb_eq in E as -> |].
  change (0 + n) with n. rewrite Nat.ltb_irrefl. simpl.
  destruct (n + (n + 0)); simpl; unfold collapse; simpl; by rewrite E.
Qed.

Lemma ratio_self : (ratio a a == 1)%Q.
Proof.
  unfold ratio, ratio_opt. rewrite get_matching_blocks_self. fold n.
  destruct (n =? 0) eqn:E; simpl.
  - apply Nat.eqb_eq in E. unfold calculate_ratio. simpl.
    rewrite E. simpl. reflexivity.
  - apply Nat.eqb_neq in E. unfold calculate_ratio, sum_sizes. simpl.
    replace (n + n =? 0) with false by (symmetry; apply Nat.eqb_neq; lia).
    rewrite Nat.add_0_r. unfold Qeq, Qdiv, Qmult, Qinv, inject_Z. simpl.
    destruct (Z.of_nat (n + n)) eqn:Ez; [lia | simpl | lia].
    lia.
Qed.
End Reflexive.
End ReflexiveFacts.

(** * Facts about the checks *)

Lemma StronglySorted_lt_NoDup (l : list nat) : StronglySorted lt l → NoDup l.
Proof.
  induction 1 as [|x l _ IH Hall]; constructor; [|done].
  intros Hin. rewrite Forall_forall in Hall. apply Hall in Hin. lia.
Qed.

Lemma truediv_ok (x y : Z) :
  y ≠ 0%Z → truediv x y = Ok (inject_Z x / inject_Z y)%Q.
Proof. intros Hy. unfold truediv. by destruct (Z.eqb_spec y 0). Qed.

Lemma truediv_zero (x : Z) : truediv x 0 = Raise ZeroDivisionError.
Proof. done. Qed.

Lemma qnat_sub (m k : nat) :
  (inject_Z (Z.of_nat m - Z.of_nat k) == qnat m - qnat k)%Q.
Proof. unfold qnat, Qeq, Qminus, Qplus, Qopp, inject_Z. simpl. lia. Qed.

Lemma Qle_bool_decimo (k m : nat) :
  Qle_bool (qnat k) (qnat m * (1 # 10)) = true ↔ 10 * k ≤ m.
Proof.
  rewrite Qle_bool_iff. unfold qnat, Qle, Qmult, inject_Z. simpl. lia.
Qed.

Lemma Qle_bool_vigesimo (k m : nat) :
  Qle_bool (qnat k) (qnat m * (5 # 100)) = true ↔ 20 * k ≤ m.
Proof.
  rewrite Qle_bool_iff. unfold qnat, Qle, Qmult, inject_Z. simpl. lia.
Qed.

Section PorCadaFolio.
Context {E : Type} (cuerpo : nat → Pagina → option E).

Lemma acumular_omap (pags : list (nat * Pagina)) :
  acumular cuerpo pags = omap (λ p, cuerpo p.1 p.2) pags.
Proof.
  unfold acumular.
  enough (∀ lista, fold_left (λ lista p,
                      match cuerpo p.1 p.2 with
                      | Some x => lista ++ [x]
                      | None => lista
                      end) pags lista
                   = lista ++ omap (λ p, cuerpo p.1 p.2) pags) as Hg
    by apply (Hg []).
  induction pags as [|p pags IH]; intros lista; simpl.
  - by rewrite app_nil_r.
  - rewrite IH. destruct (cuerpo p.1 p.2); [|done]. by rewrite <- app_assoc.
Qed.

Lemma por_cada_folio_snoc (doc : documento) (p : Pagina) :
  por_cada_folio (doc ++ [p]) cuerpo =
  por_cada_folio doc cuerpo ++
    match cuerpo (length doc) p with
    | Some x => [x]
    | None => []
    end.
Proof.
  unfold por_cada_folio. rewrite !acumular_omap.
  unfold Difflib.enumerate. rewrite imap_app, omap_app. simpl.
  rewrite Nat.add_0_r. by destruct (cuerpo (length doc) p).
Qed.

Lemma elem_of_por_cada_folio (doc : documento) (x : E) :
  x ∈ por_cada_folio doc cuerpo ↔
  ∃ n p, doc !! n = Some p ∧ cuerpo n p = Some x.
Proof.
  unfold por_cada_folio. rewrite acumular_omap, list_elem_of_omap. split.
  - intros ([n p] & Hin & Hx).
    apply elem_of_lookup_imap in Hin as (i & y & [= -> ->] & Hl). eauto.
  - intros (n & p & Hl & Hx). exists (n, p). split; [|done].
    by apply elem_of_lookup_imap_2 with (f := pair).
Qed.

(** When each element records the number of its page. *)
Context (folio : E → nat).
Hypothesis folio_cuerpo : ∀ n p x, cuerpo n p = Some x → folio x = n + 1.

Lemma elem_of_folios (doc : documento) (k : nat) :
  k ∈ map folio (por_cada_folio doc cuerpo) ↔
  ∃ n p x, k = n + 1 ∧ doc !! n = Some p ∧ cuerpo n p = Some x.
Proof.
  change (map folio ?l) with (folio <$> l).
  rewrite list_elem_of_fmap. split.
  - intros (x & -> & Hin). apply elem_of_por_cada_folio in Hin as (n & p & ? & ?).
    exists n, p, x. eauto.
  - intros (n & p & x & -> & Hl & Hx). exists x. split.
    + symmetry. eauto.
    + apply elem_of_por_cada_folio. eauto.
Qed.

Lemma folios_sorted (doc : documento) :
  StronglySorted lt (map folio (por_cada_folio doc cuerpo)).
Proof.
  induction doc as [|p doc IH] using rev_ind; [constructor|].
  rewrite por_cada_folio_snoc, map_app.
  apply StronglySorted_app_2; [|done|].
  - intros k1 k2 H1 H2.
    apply elem_of_folios in H1 as (n & q & x & -> & Hl & _).
    apply lookup_lt_Some in Hl.
    destruct (cuerpo (length doc) p) as [y|] eqn:Ey; simpl in H2.
    + apply list_elem_of_singleton in H2 as ->.
      rewrite (folio_cuerpo _ _ _ Ey). lia.
    + by apply elem_of_nil in H2.
  - destruct (cuerpo (length doc) p); repeat constructor.
Qed.

Lemma folios_NoDup (doc : documento) :
  NoDup (map folio (por_cada_folio doc cuerpo)).
Proof. apply StronglySorted_lt_NoDup, folios_sorted. Qed.

Lemma length_por_cada_folio (doc : documento) :
  length (por_cada_folio doc cuerpo) ≤ length doc.
Proof.
  induction doc as [|p doc IH] using rev_ind; [done|].
  rewrite por_cada_folio_snoc, !length_app.
  destruct (cuerpo (length doc) p); simpl; lia.
Qed.
End PorCadaFolio.

Section HojasBlanco.
Context `{Unicode}.

Lemma length_hojas_blanco (doc : documento) :
  length (hojas_blanco_de doc) = length (List.filter es_hoja_blanco doc).
Proof.
  unfold hojas_blanco_de.
  induction doc as [|p doc IH] using rev_ind; [done|].
  rewrite por_cada_folio_snoc, List.filter_app, !length_app, IH. f_equal.
  destruct p as [t|e]; simpl; [|done]. by destruct (length (strip t) <? 10).
Qed.

(** C7, amended.  On a document with at least one page the blank-page check
    returns a result whose affected pages are exactly the numbers of the
    pages whose trimmed text has fewer than 10 characters, each listed once;
    the status is APROBADO when there is none and OBSERVADO otherwise, never
    RECHAZADO; and the compliance is (total - blank) / total * 100. *)
Theorem verificar_hojas_blanco_spec (doc : documento)
    (rs : list ResultadoVerificacion) :
  doc ≠ [] →
  ∃ r, _verificar_hojas_blanco doc rs = Ok (rs ++ [r]) ∧
    (∀ k, k ∈ folios_afectados r ↔
          ∃ n t, k = n + 1 ∧ doc !! n = Some (Texto t) ∧ length (strip t) < 10) ∧
    NoDup (folios_afectados r) ∧
    length (folios_afectados r) = length (List.filter es_hoja_blanco doc) ∧
    estado r = (if length (List.filter es_hoja_blanco doc) =? 0
                then "APROBADO" else "OBSERVADO") ∧
    estado r ≠ "RECHAZADO" ∧
    (porcentaje_cumplimiento r ==
     (qnat (length doc) - qnat (length (List.filter es_hoja_blanco doc)))
     / qnat (length doc) * 100)%Q.
Proof.
  intros Hdoc. unfold _verificar_hojas_blanco, total_folios.
  rewrite truediv_ok by (destruct doc; [done | simpl; lia]).
  eexists. split; [reflexivity|]. simpl.
  rewrite <- length_hojas_blanco.
  split_and!.
  - intros k. unfold hojas_blanco_de.
    rewrite <- (map_id (por_cada_folio doc _)).
    rewrite elem_of_folios.
    + split.
      * intros (n & p & x & -> & Hl & Hx). destruct p as [t|e]; [|done].
        destruct (Nat.ltb_spec (length (strip t)) 10); [|done]. eauto.
      * intros (n & t & -> & Hl & Hlt). exists n, (Texto t), (n + 1).
        split_and!; [done|done|].
        by destruct (Nat.ltb_spec (length (strip t)) 10); [|lia].
    + intros n [t|e] x; [|done]. destruct (_ <? _); [|done]. by intros [= <-].
  - unfold hojas_blanco_de. rewrite <- (map_id (por_cada_folio doc _)).
    apply folios_NoDup.
    intros n [t|e] x; [|done]. destruct (_ <? _); [|done]. by intros [= <-].
  - done.
  - by destruct (length (hojas_blanco_de doc) =? 0).
  - by destruct (length (hojas_blanco_de doc) =? 0).
  - rewrite qnat_sub. reflexivity.
Qed.
End HojasBlanco.

Section Regex.
Context `{Unicode}.

Lemma star_inv {R} (a : atom) (s : str) :
  ∀ prev g (k : cursor → option R) res,
    star R a prev s g k = Some res →
    ∃ pre post prev',
      s = pre ++ post ∧ Forall (λ c, atom_ok a c = true) pre ∧
      k {| previo := prev'; resto := post; grupo := g |} = Some res.
Proof.
  induction s as [|c s IH]; intros prev g k res Hs; simpl in Hs.
  - exists [], [], prev. eauto.
  - destruct (atom_ok a c) eqn:Ec.
    + destruct (star R a (Some c) s g k) as [r|] eqn:Es.
      * injection Hs as ->. apply IH in Es as (pre & post & prev' & -> & Hpre & Hk).
        exists (c :: pre), post, prev'. split_and!; [done| |done].
        by constructor.
      * exists [], (c :: s), prev. eauto.
    + exists [], (c :: s), prev. eauto.
Qed.

(** A match of the whole pattern goes through its continuation. *)
Lemma run_inv {R} (r : regex) :
  ∀ st (k : cursor → option R) res,
    run R r st k = Some res → ∃ st', k st' = Some res.
Proof.
  induction r as [a|a|a|a|r1 IH1 r2 IH2|r IH| |]; intros st k res Hr; simpl in Hr.
  - destruct (resto st) as [|c s]; [done|]. destruct (atom_ok a c); [eauto|done].
  - apply star_inv in Hr as (? & ? & ? & _ & _ & ?). eauto.
  - destruct (resto st) as [|c s]; [done|]. destruct (atom_ok a c); [|done].
    apply star_inv in Hr as (? & ? & ? & _ & _ & ?). eauto.
  - destruct (resto st) as [|c s]; [eauto|]. destruct (atom_ok a c); [|eauto].
    destruct (k _) eqn:Ek; [|eauto]. injection Hr as ->. eauto.
  - apply IH1 in Hr as [st' Hr]. by apply IH2 in Hr.
  - apply IH in Hr as [st' Hr]. eauto.
  - destruct (previo st) as [c|]; [|eauto]. destruct (bool_decide _); [eauto|done].
  - destruct (resto st) as [|c s]; [eauto|]. destruct (bool_decide _); [eauto|done].
Qed.

(** The group [(\d+)] closes on a non-empty run of decimal digits. *)
Lemma run_grupo_digitos {R} (st : cursor) (k : cursor → option R) res :
  run R (Grp (Plus Digito)) st k = Some res →
  ∃ st' c g, k st' = Some res ∧ grupo st' = Some (c :: g) ∧
             Forall (λ c, is_Some (decimal c)) (c :: g).
Proof.
  simpl. destruct (resto st) as [|c s] eqn:Es; [done|].
  destruct (bool_decide (is_Some (decimal c))) eqn:Ec; [|done].
  intros Hr. apply star_inv in Hr as (pre & post & prev' & -> & Hpre & Hk).
  cbn [resto previo grupo] in Hk.
  replace (take _ _) with (c :: pre) in Hk.
  - eexists _, c, pre. split_and!; [exact Hk|done|].
    constructor; [by apply bool_decide_eq_true in Ec|].
    eapply Forall_impl; [exact Hpre|]. intros x Hx. by apply bool_decide_eq_true in Hx.
  - replace (length (c :: pre ++ post) - length post) with (length (c :: pre))
      by (simpl; rewrite length_app; lia).
    change (c :: pre ++ post) with ((c :: pre) ++ post).
    by rewrite take_app_length.
Qed.

Lemma int_digits_Some (g : str) :
  Forall (λ c, is_Some (decimal c)) g → ∀ acc, is_Some (int_digits acc g).
Proof.
  induction 1 as [|c g [d Hd] _ IH]; intros acc; simpl; [eauto|].
  rewrite Hd. apply IH.
Qed.

Lemma run_literal {R} (l : str) (r : regex) :
  ∀ st (k : cursor → option R) res,
    run R (literal l r) st k = Some res → ∃ st', run R r st' k = Some res.
Proof.
  induction l as [|c l IH]; intros st k res Hr; [eauto|].
  change (literal (c :: l) r) with (Seq (At (Chr c)) (literal l r)) in Hr.
  simpl in Hr. destruct (resto st) as [|x s]; [done|].
  destruct (igual_sin_caja c x); [|done]. by apply IH in Hr.
Qed.

Lemma search_from_inv (r : regex) (s : str) :
  ∀ prev st, search_from r prev s = Some st →
    ∃ st0, run cursor r st0 Some = Some st.
Proof.
  induction s as [|c s IH]; intros prev st Hs; simpl in Hs.
  - destruct (run cursor r _ Some) eqn:Er; [|done]. injection Hs as ->. eauto.
  - destruct (run cursor r _ Some) eqn:Er.
    + injection Hs as ->. eauto.
    + eauto.
Qed.

Lemma tras_etiqueta_grupo (st res : cursor) :
  run cursor tras_etiqueta st Some = Some res →
  ∃ c g, grupo res = Some (c :: g) ∧ Forall (λ c, is_Some (decimal c)) (c :: g).
Proof.
  intros Hr.
  change (run cursor (Star Espacio) st (λ st1,
            run cursor (Opt (Chr 58%N)) st1 (λ st2,
              run cursor (Star Espacio) st2 (λ st3,
                run cursor (Grp (Plus Digito)) st3 Some))) = Some res) in Hr.
  apply run_inv in Hr as [st1 Hr]. apply run_inv in Hr as [st2 Hr].
  apply run_inv in Hr as [st3 Hr].
  apply run_grupo_digitos in Hr as (st' & c & g & [= <-] & Hg & Hd). eauto.
Qed.

Lemma numero_solo_grupo (st res : cursor) :
  run cursor (Seq Bol (Seq (Grp (Plus Digito)) Eol)) st Some = Some res →
  ∃ c g, grupo res = Some (c :: g) ∧ Forall (λ c, is_Some (decimal c)) (c :: g).
Proof.
  intros Hr.
  change (run cursor Bol st (λ st1,
            run cursor (Grp (Plus Digito)) st1 (λ st2,
              run cursor Eol st2 Some)) = Some res) in Hr.
  apply run_inv in Hr as [st1 Hr].
  apply run_grupo_digitos in Hr as (st' & c & g & Hr & Hg & Hd).
  simpl in Hr. destruct (resto st') as [|x s].
  - injection Hr as <-. eauto.
  - destruct (bool_decide (x = salto)); [|done]. injection Hr as <-. eauto.
Qed.

End Regex.

(** ** The patterns and the declared number *)

Section PatronesDeclarados.
Context `{Unicode}.
Hypothesis Htablas : tablas_coherentes.

Lemma star_greedy {R} (a : atom) (g : option str) (k : cursor → option R) :
  (∀ p post,
     k {| previo := (tras_run a p post).1; resto := (tras_run a p post).2;
          grupo := g |} = None →
     k {| previo := p; resto := post; grupo := g |} = None) →
  ∀ s prev,
    star R a prev s g k =
    k {| previo := (tras_run a prev s).1; resto := (tras_run a prev s).2;
         grupo := g |}.
Proof.
  intros Hk. induction s as [|c s IH]; intros prev; simpl; [done|].
  destruct (atom_ok a c) eqn:Ec; [|done].
  rewrite IH. destruct (k _) as [r|] eqn:Ek; [done|].
  apply Hk. simpl. by rewrite Ec.
Qed.

Lemma tras_run_espacio (prev : option char) (s : str) :
  (tras_run Espacio prev s).2 = lstrip s.
Proof.
  revert prev. induction s as [|c s IH]; intros prev; simpl; [done|].
  destruct (isspace c); [apply IH|done].
Qed.

Lemma tras_run_digito (prev : option char) (s : str) :
  s = digitos s ++ (tras_run Digito prev s).2.
Proof.
  revert prev. induction s as [|c s IH]; intros prev; simpl; [done|].
  destruct (bool_decide (is_Some (decimal c))); simpl; [|done].
  f_equal. apply IH.
Qed.

Lemma lstrip_idem (s : str) : lstrip (lstrip s) = lstrip s.
Proof.
  induction s as [|c s IH]; simpl; [done|].
  destruct (isspace c) eqn:Ec; [done|]. simpl. by rewrite Ec.
Qed.

(** [(\d+)] at the end of a pattern takes the longest run of digits. *)
Lemma run_digitos_fin (st : cursor) :
  grupo_de (run cursor (Grp (Plus Digito)) st Some) =
  match digitos (resto st) with
  | [] => None
  | g => Some g
  end.
Proof.
  simpl. destruct (resto st) as [|c s] eqn:Es; [done|]. simpl.
  destruct (bool_decide (is_Some (decimal c))) eqn:Ec; [|done].
  rewrite star_greedy by done. cbn [grupo_de mbind option_bind resto grupo default].
  pose proof (tras_run_digito (Some c) s) as Hs.
  set (post := (tras_run Digito (Some c) s).2) in *.
  unfold id. f_equal.
  assert (S (length s) - length post = length (c :: digitos s)) as ->.
  { rewrite Hs at 1. simpl. rewrite length_app. lia. }
  transitivity (take (length (c :: digitos s)) ((c :: digitos s) ++ post));
    [|by rewrite take_app_length].
  f_equal. simpl. by rewrite <- Hs.
Qed.

Lemma run_digitos_fin_None (st : cursor) :
  run cursor (Grp (Plus Digito)) st Some = None ↔ digitos (resto st) = [].
Proof.
  pose proof (run_digitos_fin st) as Hg.
  destruct (run cursor (Grp (Plus Digito)) st Some) as [r|]; simpl in Hg.
  - split; [done|]. intros Hd. by rewrite Hd in Hg.
  - split; [|done]. intros _. by destruct (digitos (resto st)).
Qed.

Lemma digitos_espacio (c : char) (s : str) :
  isspace c = true → digitos (c :: s) = [].
Proof.
  intros Hc. destruct Htablas as (Hsd & _). simpl.
  rewrite (Hsd c Hc). by rewrite bool_decide_eq_false_2 by (by intros [? ?]).
Qed.

Lemma digitos_dos_puntos (s : str) : digitos (dos_puntos :: s) = [].
Proof.
  destruct Htablas as (_ & _ & _ & Hd & _). simpl.
  rewrite Hd. by rewrite bool_decide_eq_false_2 by (by intros [? ?]).
Qed.

Lemma lstrip_dos_puntos (s : str) : lstrip (dos_puntos :: s) = dos_puntos :: s.
Proof. destruct Htablas as (_ & _ & Hs & _). simpl. by rewrite Hs. Qed.

(** [\s*(\d+)] *)
Lemma run_espacios_digitos (st : cursor) :
  run cursor (Seq (Star Espacio) (Grp (Plus Digito))) st Some =
  run cursor (Grp (Plus Digito))
    {| previo := (tras_run Espacio (previo st) (resto st)).1;
       resto := lstrip (resto st); grupo := grupo st |} Some.
Proof.
  change (run cursor (Seq (Star Espacio) (Grp (Plus Digito))) st Some)
    with (star cursor Espacio (previo st) (resto st) (grupo st)
            (λ st', run cursor (Grp (Plus Digito)) st' Some)).
  rewrite star_greedy; [by rewrite tras_run_espacio|].
  intros p post Hn. apply run_digitos_fin_None. cbn [resto].
  apply run_digitos_fin_None in Hn. cbn [resto] in Hn.
  rewrite tras_run_espacio in Hn.
  destruct post as [|c s]; [done|]. simpl in Hn.
  destruct (isspace c) eqn:Ec; [by apply digitos_espacio|done].
Qed.

Lemma run_espacios_digitos_None (st : cursor) :
  run cursor (Seq (Star Espacio) (Grp (Plus Digito))) st Some = None ↔
  digitos (lstrip (resto st)) = [].
Proof. rewrite run_espacios_digitos. by rewrite run_digitos_fin_None. Qed.

(** [:?\s*(\d+)] *)
Lemma run_tras_colon_None (st : cursor) :
  run cursor tras_colon st Some = None ↔
  digitos (lstrip (sin_dos_puntos (resto st))) = [].
Proof.
  destruct Htablas as (_ & Hc & _).
  change (run cursor tras_colon st Some)
    with (run cursor (Opt (Chr 58%N)) st
            (λ st', run cursor (Seq (Star Espacio) (Grp (Plus Digito))) st' Some)).
  set (K := λ st', run cursor (Seq (Star Espacio) (Grp (Plus Digito))) st' Some).
  assert (∀ st', K st' = None ↔ digitos (lstrip (resto st')) = []) as HK.
  { intros st'. apply run_espacios_digitos_None. }
  clearbody K. cbn [run]. destruct (resto st) as [|c s] eqn:Es.
  - rewrite HK. by rewrite Es.
  - cbn [atom_ok sin_dos_puntos]. fold dos_puntos.
    case_bool_decide as Hd.
    + subst c. rewrite (proj2 (Hc dos_puntos)) by done.
      destruct (K {| previo := Some dos_puntos; resto := s; grupo := grupo st |})
        as [r|] eqn:Er.
      * split; [done|]. intros Hn.
        assert (K {| previo := Some dos_puntos; resto := s; grupo := grupo st |}
                = None) as Hk by (by apply HK).
        congruence.
      * apply HK in Er. cbn [resto] in Er.
        rewrite HK, Es, lstrip_dos_puntos.
        split; [done|]. intros _. apply digitos_dos_puntos.
    + destruct (igual_sin_caja dos_puntos c) eqn:Ei; [by apply Hc in Ei|].
      rewrite HK. by rewrite Es.
Qed.

Lemma run_tras_colon (st : cursor) :
  grupo_de (run cursor tras_colon st Some) =
  match digitos (lstrip (sin_dos_puntos (resto st))) with
  | [] => None
  | g => Some g
  end.
Proof.
  destruct Htablas as (_ & Hc & _).
  change (run cursor tras_colon st Some)
    with (run cursor (Opt (Chr 58%N)) st
            (λ st', run cursor (Seq (Star Espacio) (Grp (Plus Digito))) st' Some)).
  set (K := λ st', run cursor (Seq (Star Espacio) (Grp (Plus Digito))) st' Some).
  assert (∀ st', K st' = None ↔ digitos (lstrip (resto st')) = []) as HK.
  { intros st'. apply run_espacios_digitos_None. }
  assert (∀ st', grupo_de (K st') = match digitos (lstrip (resto st')) with
                                    | [] => None
                                    | g => Some g
                                    end) as HG.
  { intros st'. unfold K. by rewrite run_espacios_digitos, run_digitos_fin. }
  clearbody K. cbn [run]. destruct (resto st) as [|c s] eqn:Es.
  - rewrite HG. by rewrite Es.
  - cbn [atom_ok sin_dos_puntos]. fold dos_puntos.
    case_bool_decide as Hd.
    + subst c. rewrite (proj2 (Hc dos_puntos)) by done.
      destruct (K {| previo := Some dos_puntos; resto := s; grupo := grupo st |})
        as [r|] eqn:Er.
      * rewrite <- Er. by rewrite HG.
      * apply HK in Er. cbn [resto] in Er. rewrite Er.
        rewrite HG, Es. by rewrite lstrip_dos_puntos, digitos_dos_puntos.
    + destruct (igual_sin_caja dos_puntos c) eqn:Ei; [by apply Hc in Ei|].
      rewrite HG. by rewrite Es.
Qed.

(** [\s*:?\s*(\d+)]: what follows a label. *)
Lemma run_tras_etiqueta (st : cursor) :
  grupo_de (run cursor tras_etiqueta st Some) = numero_tras_etiqueta (resto st).
Proof.
  change (run cursor tras_etiqueta st Some)
    with (star cursor Espacio (previo st) (resto st) (grupo st)
            (λ st', run cursor tras_colon st' Some)).
  rewrite star_greedy.
  - rewrite run_tras_colon. cbn [resto]. by rewrite tras_run_espacio.
  - intros p post Hn. apply run_tras_colon_None. cbn [resto].
    apply run_tras_colon_None in Hn. cbn [resto] in Hn.
    rewrite tras_run_espacio in Hn.
    destruct post as [|c s]; [done|]. simpl in Hn. cbn [sin_dos_puntos].
    destruct (isspace c) eqn:Ec; [|done].
    case_bool_decide as Hd.
    { subst c. destruct Htablas as (_ & _ & Hs & _). congruence. }
    simpl. rewrite Ec.
    (* the rest of the white space, then what was there *)
    destruct (lstrip s) as [|x s'] eqn:Ex; [done|].
    cbn [sin_dos_puntos] in Hn. case_bool_decide as Hx.
    + subst x. by rewrite digitos_dos_puntos.
    + assert (lstrip (x :: s') = x :: s') as Hl.
      { rewrite <- Ex. apply lstrip_idem. }
      by rewrite Hl in Hn.
Qed.

Lemma run_etiqueta (l : str) (st : cursor) :
  grupo_de (run cursor (literal l tras_etiqueta) st Some) =
  tras_prefijo l (resto st) ≫= numero_tras_etiqueta.
Proof.
  revert st. induction l as [|x l IH]; intros st.
  - change (literal [] tras_etiqueta) with tras_etiqueta.
    rewrite run_tras_etiqueta. by destruct (resto st).
  - change (literal (x :: l) tras_etiqueta)
      with (Seq (At (Chr x)) (literal l tras_etiqueta)).
    cbn [run]. destruct (resto st) as [|c s]; [done|]. cbn [atom_ok tras_prefijo].
    destruct (igual_sin_caja x c); [|done]. by rewrite IH.
Qed.

Lemma search_etiqueta (l : str) (t : str) (prev : option char) :
  grupo_de (search_from (literal l tras_etiqueta) prev t) = numero_etiquetado l t.
Proof.
  revert prev. induction t as [|c t IH]; intros prev.
  - cbn [search_from numero_etiquetado].
    pose proof (run_etiqueta l {| previo := prev; resto := []; grupo := None |}) as Hr.
    cbn [resto] in Hr. rewrite <- Hr.
    by destruct (run cursor _ _ Some).
  - cbn [search_from numero_etiquetado].
    pose proof (run_etiqueta l {| previo := prev; resto := c :: t; grupo := None |})
      as Hr.
    cbn [resto] in Hr. rewrite <- Hr.
    destruct (run cursor _ _ Some) as [r|]; [done|]. simpl. apply IH.
Qed.

Lemma re_search_etiqueta (l t : str) :
  re_search_group1 (literal l tras_etiqueta) t = numero_etiquetado l t.
Proof.
  rewrite <- (search_etiqueta l t None). unfold re_search_group1, grupo_de.
  by destruct (search_from _ None t).
Qed.
Lemma digito_no_salto (c : char) : is_Some (decimal c) → c ≠ salto.
Proof.
  destruct Htablas as (_ & _ & _ & _ & Hs). intros [d Hd] ->. congruence.
Qed.

Lemma drop_digitos (prev : option char) (s : str) :
  (tras_run Digito prev s).2 = drop (length (digitos s)) s.
Proof.
  revert prev. induction s as [|c s IH]; intros prev; simpl; [done|].
  destruct (bool_decide (is_Some (decimal c))); simpl; [apply IH|done].
Qed.

(** [^(\d+)$] at one place of the text. *)
Lemma run_numero_solo (prev : option char) (t : str) :
  grupo_de (run cursor numero_solo
              {| previo := prev; resto := t; grupo := None |} Some) =
  if inicio_linea prev then numero_en_cabeza t else None.
Proof.
  change (run cursor numero_solo {| previo := prev; resto := t; grupo := None |} Some)
    with (run cursor Bol {| previo := prev; resto := t; grupo := None |}
            (λ st1, run cursor (Grp (Plus Digito)) st1
                      (λ st2, run cursor Eol st2 Some))).
  set (K := λ st1, run cursor (Grp (Plus Digito)) st1
                     (λ st2, run cursor Eol st2 Some)).
  assert (K {| previo := prev; resto := t; grupo := None |}
          = match numero_en_cabeza t with
            | Some g => Some {| previo := (tras_run Digito prev t).1;
                                resto := drop (length g) t;
                                grupo := Some g |}
            | None => None
            end) as Hg.
  { unfold K. cbn [run resto previo grupo]. unfold numero_en_cabeza.
    destruct t as [|c s]; [done|]. cbn [atom_ok digitos tras_run].
    destruct (bool_decide (is_Some (decimal c))) eqn:Ec; [|done].
    rewrite star_greedy.
    - cbn [resto previo grupo]. rewrite drop_digitos.
      pose proof (tras_run_digito (Some c) s) as Hs. rewrite drop_digitos in Hs.
      set (post := drop (length (digitos s)) s) in *.
      assert (take (length (c :: s) - length post) (c :: s) = c :: digitos s) as ->.
      { assert (length (c :: s) - length post = length (c :: digitos s)) as ->.
        { rewrite Hs at 1. simpl. rewrite length_app. lia. }
        transitivity (take (length (c :: digitos s)) ((c :: digitos s) ++ post));
          [|by rewrite take_app_length].
        f_equal. simpl. by rewrite <- Hs. }
      cbn [length drop]. fold post.
      assert (drop (length (c :: digitos s)) (c :: s) = post) as Hdrop by done.
      clearbody post.
      destruct post as [|x post']; [by rewrite Hdrop|].
      destruct (bool_decide (x = salto)); [by rewrite Hdrop|done].
    - intros p post. cbn [resto previo grupo].
      destruct post as [|x post']; [done|]. cbn [tras_run atom_ok].
      destruct (bool_decide (is_Some (decimal x))) eqn:Ex; [|done].
      intros _. apply bool_decide_eq_true in Ex. apply digito_no_salto in Ex.
      by rewrite bool_decide_eq_false_2. }
  clearbody K. cbn [run previo]. destruct prev as [c|]; cbn [inicio_linea].
  - destruct (bool_decide (c = salto)); [|done].
    rewrite Hg. by destruct (numero_en_cabeza t).
  - rewrite Hg. by destruct (numero_en_cabeza t).
Qed.

(** The first line and the others. *)
Lemma lineas_cons (t : str) : ∃ l ls, lineas t = l :: ls.
Proof.
  destruct t as [|c t]; simpl; [eauto|].
  destruct (bool_decide (c = salto)); [eauto|]. destruct (lineas t); eauto.
Qed.

Lemma todos_digitos_cabeza (t : str) :
  match drop (length (digitos t)) t with
  | [] => true
  | c :: _ => bool_decide (c = salto)
  end = forallb (λ c, bool_decide (is_Some (decimal c))) (hd [] (lineas t)) ∧
  (forallb (λ c, bool_decide (is_Some (decimal c))) (hd [] (lineas t)) = true →
   digitos t = hd [] (lineas t)).
Proof.
  induction t as [|c t [IH1 IH2]]; [done|]. cbn [digitos lineas].
  destruct (bool_decide (is_Some (decimal c))) eqn:Ec.
  - apply bool_decide_eq_true in Ec as Hc. apply digito_no_salto in Hc.
    rewrite (bool_decide_eq_false_2 _ Hc).
    destruct (lineas_cons t) as (l & ls & Hl). rewrite Hl in *.
    cbn [hd forallb length drop] in *. rewrite Ec. cbn [andb].
    split; [done|]. intros Hf. f_equal. by apply IH2.
  - cbn [length drop]. destruct (bool_decide (c = salto)) eqn:Es; [done|].
    destruct (lineas_cons t) as (l & ls & Hl). rewrite Hl.
    cbn [hd forallb]. rewrite Ec. done.
Qed.

Lemma numero_en_cabeza_linea (t : str) :
  numero_en_cabeza t =
  if es_numero (hd [] (lineas t)) then Some (hd [] (lineas t)) else None.
Proof.
  unfold numero_en_cabeza, es_numero.
  destruct (todos_digitos_cabeza t) as [H1 H2].
  destruct (forallb _ (hd [] (lineas t))) eqn:Ef.
  - rewrite <- (H2 eq_refl). destruct (digitos t) as [|c g] eqn:Ed; [done|].
    cbn [negb bool_decide andb]. rewrite bool_decide_eq_false_2 by done.
    cbn [negb andb]. destruct (drop _ t) as [|x ?]; [done|]. by rewrite H1.
  - rewrite andb_false_r. destruct (digitos t) as [|c g]; [done|].
    destruct (drop _ t) as [|x ?]; [done|]. by rewrite H1.
Qed.

Lemma search_numero_solo (t : str) :
  ∀ prev,
    grupo_de (search_from numero_solo prev t) =
    if inicio_linea prev then List.find es_numero (lineas t)
    else List.find es_numero (tl (lineas t)).
Proof.
  induction t as [|c t IH]; intros prev.
  - cbn [search_from].
    pose proof (run_numero_solo prev []) as Hr.
    destruct (run cursor numero_solo _ Some) as [r|] eqn:Er.
    + simpl in Hr. by destruct (inicio_linea prev).
    + by destruct (inicio_linea prev).
  - cbn [search_from].
    pose proof (run_numero_solo prev (c :: t)) as Hr.
    rewrite numero_en_cabeza_linea in Hr.
    destruct (lineas_cons (c :: t)) as (l & ls & Hl). rewrite Hl in *.
    cbn [hd tl List.find] in *.
    assert (ls = if bool_decide (c = salto) then lineas t else tl (lineas t)) as Hls.
    { cbn [lineas] in Hl. destruct (bool_decide (c = salto)); [by injection Hl|].
      destruct (lineas_cons t) as (l' & ls' & Hl'). rewrite Hl' in *.
      by injection Hl. }
    assert (grupo_de (search_from numero_solo (Some c) t) = List.find es_numero ls)
      as Hrec.
    { rewrite IH, Hls. cbn [inicio_linea]. by destruct (bool_decide (c = salto)). }
    destruct (run cursor numero_solo _ Some) as [r|] eqn:Er.
    + destruct (inicio_linea prev); [|done].
      destruct (es_numero l); [done|done].
    + destruct (inicio_linea prev); [|done].
      by destruct (es_numero l).
Qed.

Lemma re_search_numero_solo (t : str) :
  re_search_group1 numero_solo t = linea_numerica t.
Proof.
  unfold linea_numerica. pose proof (search_numero_solo t None) as Hs.
  cbn [inicio_linea] in Hs. rewrite <- Hs.
  unfold re_search_group1, grupo_de. by destruct (search_from _ None t).
Qed.

(** What the declarative reading finds is a numeral. *)
Lemma digitos_son_digitos (t : str) :
  Forall (λ c, is_Some (decimal c)) (digitos t).
Proof.
  induction t as [|c t IH]; simpl; [constructor|].
  case_bool_decide; by constructor.
Qed.

Lemma numero_tras_etiqueta_numeral (t g : str) :
  numero_tras_etiqueta t = Some g →
  g ≠ [] ∧ Forall (λ c, is_Some (decimal c)) g.
Proof.
  unfold numero_tras_etiqueta.
  match goal with |- context [digitos ?x] =>
    pose proof (digitos_son_digitos x) as Hd; destruct (digitos x) as [|c g']
  end; [done|]. by intros [= <-].
Qed.

Lemma numero_etiquetado_numeral (l t g : str) :
  numero_etiquetado l t = Some g →
  g ≠ [] ∧ Forall (λ c, is_Some (decimal c)) g.
Proof.
  induction t as [|c t IH]; cbn [numero_etiquetado].
  - destruct (tras_prefijo l [] ≫= numero_tras_etiqueta) as [g'|] eqn:E; [|done].
    intros [= <-]. destruct (tras_prefijo l []) as [t'|]; [|done].
    by apply numero_tras_etiqueta_numeral in E.
  - destruct (tras_prefijo l (c :: t) ≫= numero_tras_etiqueta) as [g'|] eqn:E;
      [|done].
    intros [= <-]. destruct (tras_prefijo l (c :: t)) as [t'|]; [|done].
    by apply numero_tras_etiqueta_numeral in E.
Qed.

Lemma linea_numerica_numeral (t g : str) :
  linea_numerica t = Some g →
  g ≠ [] ∧ Forall (λ c, is_Some (decimal c)) g.
Proof.
  unfold linea_numerica. intros Hf. apply find_some in Hf as [_ Hn].
  unfold es_numero in Hn. apply andb_true_iff in Hn as [Hne Hd].
  split.
  - apply negb_true_iff, bool_decide_eq_false in Hne. done.
  - apply Forall_forall. intros c Hc. rewrite forallb_forall in Hd.
    apply list_elem_of_In in Hc. apply Hd in Hc. by apply bool_decide_eq_true in Hc.
Qed.

Lemma digitos_declarados_numeral (t g : str) :
  digitos_declarados t = Some g →
  g ≠ [] ∧ Forall (λ c, is_Some (decimal c)) g.
Proof.
  unfold digitos_declarados.
  destruct (numero_etiquetado (str_of_string "folio") t) as [g1|] eqn:E1.
  { intros [= ->]. by eapply numero_etiquetado_numeral. }
  destruct (numero_etiquetado (str_of_string "foja") t) as [g2|] eqn:E2.
  { intros [= ->]. by eapply numero_etiquetado_numeral. }
  destruct (numero_etiquetado [112; 225; 103; 105; 110; 97]%N t) as [g3|] eqn:E3.
  { intros [= ->]. by eapply numero_etiquetado_numeral. }
  apply linea_numerica_numeral.
Qed.

(** The loop over the patterns finds the digits of the declared number;
    [int] raises when they are more than the interpreter converts. *)
Lemma buscar_folio_ok (t : str) :
  buscar_folio patrones t =
  match digitos_declarados t with
  | None => Ok None
  | Some g =>
      if length g <=? int_max_str_digits then Ok (int_digits 0%N g)
      else Raise ValueError
  end.
Proof.
  assert (∀ g, g ≠ [] → Forall (λ c, is_Some (decimal c)) g →
               match int_ g with
               | Some n => Ok (Some n)
               | None => Raise ValueError
               end = if length g <=? int_max_str_digits
                     then Ok (int_digits 0%N g) else Raise ValueError) as Hint.
  { intros g Hne Hd. unfold int_. destruct g as [|c g]; [done|].
    destruct (_ <=? _); [|done].
    by destruct (int_digits_Some (c :: g) Hd 0%N) as [n ->]. }
  pose proof (digitos_declarados_numeral t) as Hnum.
  unfold patrones, digitos_declarados in *. cbn [buscar_folio].
  rewrite !re_search_etiqueta by done.
  fold numero_solo. rewrite re_search_numero_solo.
  destruct (numero_etiquetado (str_of_string "folio") t) as [g|].
  { destruct (Hnum g eq_refl). by apply Hint. }
  destruct (numero_etiquetado (str_of_string "foja") t) as [g|].
  { destruct (Hnum g eq_refl). by apply Hint. }
  destruct (numero_etiquetado _ t) as [g|].
  { destruct (Hnum g eq_refl). by apply Hint. }
  destruct (linea_numerica t) as [g|]; [|done].
  destruct (Hnum g eq_refl). by apply Hint.
Qed.
End PatronesDeclarados.

(** The tables restricted to ASCII are coherent. *)
Lemma tablas_ascii : @tablas_coherentes unicode_ascii.
Proof.
  unfold tablas_coherentes. split_and!; [| |reflexivity..].
  - intros c. unfold isspace, decimal, unicode_ascii. intros Hc.
    destruct ((48 <=? c)%N && (c <=? 57)%N) eqn:Ed; [|done].
    apply andb_true_iff in Ed as [?%N.leb_le ?%N.leb_le].
    apply orb_true_iff in Hc as [Hc|Hc];
      apply andb_true_iff in Hc as [?%N.leb_le ?%N.leb_le]; lia.
  - intros c. unfold igual_sin_caja, unicode_ascii, dos_puntos.
    change (ascii_lower 58%N) with 58%N. unfold ascii_lower.
    destruct ((65 <=? c)%N && (c <=? 90)%N) eqn:Ec; rewrite N.eqb_eq.
    + apply andb_true_iff in Ec as [?%N.leb_le ?%N.leb_le]. lia.
    + split; intros; by subst.
Qed.

Lemma Qlt_bool_iff (x y : Q) : Qlt_bool x y = true ↔ (x < y)%Q.
Proof.
  unfold Qlt_bool. rewrite negb_true_iff. split.
  - intros Hf. apply Qnot_le_lt. intros Hle. apply Qle_bool_iff in Hle. congruence.
  - intros Hlt. apply not_true_is_false. intros Hle. apply Qle_bool_iff in Hle.
    by apply Qlt_not_le in Hlt.
Qed.

Lemma total_no_cero (doc : documento) : doc ≠ [] → Z.of_nat (length doc) ≠ 0%Z.
Proof. destruct doc; [done | simpl; lia]. Qed.

Section Foliacion.
Context `{Unicode}.

Lemma folios_incorrectos_cuerpo (n : nat) (p : Pagina) (x : FolioIncorrecto) :
  match p with
  | Texto texto =>
      match buscar_folio patrones texto with
      | Ok folio_encontrado =>
          if bool_decide (folio_encontrado = Some (N.of_nat (n + 1)))
          then None
          else Some {| inc_pagina := n + 1; inc_esperado := n + 1;
                       inc_encontrado := folio_encontrado |}
      | Raise _ => None
      end
  | ErrorExtraccion _ => None
  end = Some x →
  inc_pagina x = n + 1 ∧ ∃ t, p = Texto t.
Proof.
  destruct p as [t|e]; [|done]. destruct (buscar_folio patrones t); [|done].
  case_bool_decide; [done|]. intros [= <-]. eauto.
Qed.

(** A page is recorded exactly when its declared number is absent or is
    not its position, unless the number has more digits than [int]
    converts: then [int] raises and the page is passed over. *)
Lemma folio_incorrecto_declarado (n : nat) (t : str) :
  tablas_coherentes →
  is_Some (match buscar_folio patrones t with
           | Ok folio_encontrado =>
               if bool_decide (folio_encontrado = Some (N.of_nat (n + 1)))
               then None
               else Some {| inc_pagina := n + 1; inc_esperado := n + 1;
                            inc_encontrado := folio_encontrado |}
           | Raise _ => None
           end) ↔
  folio_declarado t ≠ Some (N.of_nat (n + 1)) ∧
  ∀ g, digitos_declarados t = Some g → length g ≤ int_max_str_digits.
Proof.
  intros Htablas. rewrite buscar_folio_ok by done. unfold folio_declarado.
  destruct (digitos_declarados t) as [g|]; simpl.
  - destruct (Nat.leb_spec (length g) int_max_str_digits) as [Hle|Hgt].
    + case_bool_decide as Hd.
      * split; [by intros [? ?]|]. by intros [? _].
      * split; [|by eauto]. intros _. split; [done|]. by intros ? [= <-].
    + split; [by intros [? ?]|]. intros [_ Hg]. specialize (Hg g eq_refl). lia.
  - split; [|by eauto]. intros _. split; [done|]. by intros ? [=].
Qed.

End Foliacion.

Section Ilegibilidad.
Context `{Unicode}.
Variable config : Config.

Lemma folios_ilegibles_folio (n : nat) (p : Pagina) (x : FolioIlegible) :
  match p with
  | Texto texto =>
      if 0 <? length texto then
        if Qlt_bool (qnat (caracteres_validos texto) / qnat (length texto))
                    (umbral_ilegibilidad config)
        then Some {| ileg_folio := n + 1;
                     ileg_porcentaje :=
                       round2 (qnat (caracteres_validos texto)
                               / qnat (length texto) * 100);
                     ileg_error := None |}
        else None
      else None
  | ErrorExtraccion e =>
      Some {| ileg_folio := n + 1; ileg_porcentaje := 0;
              ileg_error := Some (str_excepcion e) |}
  end = Some x →
  ileg_folio x = n + 1.
Proof.
  destruct p as [t|e]; [|by intros [= <-]].
  destruct (0 <? length t); [|done]. destruct (Qlt_bool _ _); [|done].
  by intros [= <-].
Qed.

(** C8, amended.  On a document with at least one page the legibility check
    returns a result in which a page with a non-empty text is affected
    exactly when the share of its characters that are alphanumeric or
    white space is strictly below the threshold; a page whose extraction
    fails is affected, with percentage 0 and the text of the error; the
    status is APROBADO with no affected page, OBSERVADO when they are at
    most a twentieth of the pages and RECHAZADO otherwise.  With the
    default threshold, a page that is 40% legible among 100 pages is
    reported and the status is OBSERVADO. *)
Theorem verificar_ilegibilidad_spec (doc : documento)
    (rs : list ResultadoVerificacion) :
  doc ≠ [] →
  ∃ r, _verificar_ilegibilidad config doc rs = Ok (rs ++ [r]) ∧
    (∀ n t, doc !! n = Some (Texto t) → t ≠ [] →
       (n + 1 ∈ folios_afectados r ↔
        (qnat (caracteres_validos t) / qnat (length t)
         < umbral_ilegibilidad config)%Q)) ∧
    (∀ n e, doc !! n = Some (ErrorExtraccion e) →
       n + 1 ∈ folios_afectados r ∧
       {| ileg_folio := n + 1; ileg_porcentaje := 0;
          ileg_error := Some (str_excepcion e) |}
         ∈ folios_ilegibles_de config doc) ∧
    (∀ k, k ∈ folios_afectados r → ∃ n p, k = n + 1 ∧ doc !! n = Some p) ∧
    NoDup (folios_afectados r) ∧
    estado r = (let m := length (folios_afectados r) in
                if m =? 0 then "APROBADO"
                else if 20 * m <=? length doc then "OBSERVADO"
                else "RECHAZADO") ∧
    (∃ r0, @_verificar_ilegibilidad unicode_ascii _config_default
             doc_un_ilegible [] = Ok [r0] ∧
           folios_afectados r0 = [1] ∧ estado r0 = "OBSERVADO").
Proof.
  intros Hdoc. unfold _verificar_ilegibilidad, total_folios.
  set (n := length (folios_ilegibles_de config doc)).
  destruct (if n =? 0 then _ else _) as [est det] eqn:Eest.
  rewrite truediv_ok by by apply total_no_cero.
  eexists. split; [reflexivity|]. cbn [folios_afectados estado].
  split_and!.
  - intros m t Hl Ht. unfold folios_ilegibles_de.
    rewrite (elem_of_folios _ _ folios_ilegibles_folio).
    rewrite <- Qlt_bool_iff.
    assert ((0 <? length t) = true) as Hlen
      by (destruct t; [done | by apply Nat.ltb_lt; simpl; lia]).
    split.
    + intros (m' & p & x & Hm & Hl' & Hx).
      assert (m' = m) as -> by lia. rewrite Hl in Hl'. injection Hl' as <-.
      rewrite Hlen in Hx. by destruct (Qlt_bool _ _).
    + intros Hq. eexists m, (Texto t), _. split_and!; [done|done|].
      by rewrite Hlen, Hq.
  - intros m e Hl. split.
    + unfold folios_ilegibles_de.
      rewrite (elem_of_folios _ _ folios_ilegibles_folio).
      eexists m, (ErrorExtraccion e), _. eauto.
    + apply elem_of_por_cada_folio. exists m, (ErrorExtraccion e). eauto.
  - intros k. unfold folios_ilegibles_de.
    rewrite (elem_of_folios _ _ folios_ilegibles_folio).
    intros (m & p & x & -> & Hl & _). eauto.
  - apply folios_NoDup, folios_ilegibles_folio.
  - rewrite length_map. fold n. destruct (n =? 0); [by injection Eest as <- _|].
    destruct (Qle_bool _ _) eqn:Eq.
    + apply Qle_bool_vigesimo in Eq. injection Eest as <- _.
      destruct (_ <=? length doc) eqn:E; [done|]. apply Nat.leb_gt in E. lia.
    + injection Eest as <- _.
      destruct (_ <=? length doc) eqn:Hle; [|done]. apply Nat.leb_le in Hle.
      assert (20 * n ≤ length doc) as Hle' by lia.
      apply Qle_bool_vigesimo in Hle'. congruence.
  - eexists. split_and!; vm_compute; reflexivity.
Qed.
End Ilegibilidad.

Section Duplicados.
Context `{Entorno}.

Lemma duplicados_snoc (doc : documento) (p : Pagina) :
  fold_left paso_duplicados (Difflib.enumerate (doc ++ [p])) (∅, []) =
  paso_duplicados (fold_left paso_duplicados (Difflib.enumerate doc) (∅, []))
                  (length doc, p).
Proof.
  unfold Difflib.enumerate. rewrite imap_app, fold_left_app. simpl.
  by rewrite Nat.add_0_r.
Qed.

(** After the loop: the dictionary holds the hashes of the pages read,
    and the duplicates are the pages whose hash an earlier page has. *)
Lemma duplicados_inv (doc : documento) :
  let st := fold_left paso_duplicados (Difflib.enumerate doc) (∅, []) in
  (∀ h, is_Some (st.1 !! h) ↔
        ∃ i t, doc !! i = Some (Texto t) ∧ md5_hexdigest t = h) ∧
  (∀ k, k ∈ map folio_duplicado st.2 ↔
        ∃ j t, k = j + 1 ∧ doc !! j = Some (Texto t) ∧
               ∃ i t', i < j ∧ doc !! i = Some (Texto t') ∧
                       md5_hexdigest t' = md5_hexdigest t) ∧
  StronglySorted lt (map folio_duplicado st.2).
Proof.
  induction doc as [|p doc IH] using rev_ind.
  - simpl. split_and!.
    + intros h. rewrite lookup_empty. split; [by intros [? ?]|].
      by intros (i & t & Hl & _).
    + intros k. split; [by intros ?%elem_of_nil|]. by intros (j & t & _ & Hl & _).
    + constructor.
  - rewrite duplicados_snoc. cbv zeta in IH.
    destruct (fold_left paso_duplicados (Difflib.enumerate doc) (∅, []))
      as [hashes dups]. simpl in IH. destruct IH as (IA & IB & IC).
    assert (∀ k, k ∈ map folio_duplicado dups → k < length doc + 1) as Hlt.
    { intros k Hk. apply IB in Hk as (j & t & -> & Hl & _).
      apply lookup_lt_Some in Hl. lia. }
    unfold paso_duplicados. cbn [fst snd]. destruct p as [t|e].
    + destruct (hashes !! md5_hexdigest t) as [orig|] eqn:Eh; cbn [fst snd].
      * split_and!.
        -- intros h. rewrite IA. split.
           ++ intros (i & t' & Hl & Hh). exists i, t'. split; [|done].
              apply lookup_app_l_Some. done.
           ++ intros (i & t' & Hl & Hh).
              apply lookup_snoc_Some in Hl as [[_ Hl]|[_ [= ->]]]; [eauto|].
              apply IA. rewrite <- Hh, Eh. eauto.
        -- intros k. rewrite map_app. simpl.
           rewrite elem_of_app, list_elem_of_singleton, IB. split.
           ++ intros [(j & t' & -> & Hl & i & t'' & Hij & Hi & Hh)| ->].
              ** exists j, t'. split_and!; [done|by apply lookup_app_l_Some|].
                 exists i, t''. split_and!; [done|by apply lookup_app_l_Some|done].
              ** exists (length doc), t.
                 split_and!; [done|by apply list_lookup_middle|].
                 assert (is_Some (hashes !! md5_hexdigest t)) as Hs by eauto.
                 apply IA in Hs as (i & t' & Hi & Hh).
                 exists i, t'. split_and!; [|by apply lookup_app_l_Some|done].
                 by apply lookup_lt_Some in Hi.
           ++ intros (j & t' & -> & Hl & i & t'' & Hij & Hi & Hh).
              apply lookup_snoc_Some in Hl as [[Hj Hl]|[-> _]]; [|by right].
              left. exists j, t'. split_and!; [done|done|].
              exists i, t''. split_and!; [done| |done].
              apply lookup_snoc_Some in Hi as [[_ Hi]|[-> _]]; [done|lia].
        -- rewrite map_app. apply StronglySorted_app_2; [|done|repeat constructor].
           intros k1 k2 H1 H2. apply Hlt in H1.
           apply list_elem_of_singleton in H2. simpl in H2. lia.
      * split_and!.
        -- intros h. rewrite lookup_insert. split.
           ++ case_decide as Hd.
              ** intros _. subst h. exists (length doc), t.
                 split; [by apply list_lookup_middle|done].
              ** intros Hs. apply IA in Hs as (i & t' & Hl & Hh).
                 exists i, t'. split; [by apply lookup_app_l_Some|done].
           ++ intros (i & t' & Hl & Hh). case_decide as Hd; [eauto|].
              apply lookup_snoc_Some in Hl as [[_ Hl]|[_ [= ->]]]; [|done].
              apply IA. eauto.
        -- intros k. rewrite IB. split.
           ++ intros (j & t' & -> & Hl & i & t'' & Hij & Hi & Hh).
              exists j, t'. split_and!; [done|by apply lookup_app_l_Some|].
              exists i, t''. split_and!; [done|by apply lookup_app_l_Some|done].
           ++ intros (j & t' & -> & Hl & i & t'' & Hij & Hi & Hh).
              assert (doc !! i = Some (Texto t'')) as Hi'.
              { apply lookup_snoc_Some in Hi as [[_ Hi]|[-> _]]; [done|].
                apply lookup_lt_Some in Hl. rewrite length_app in Hl.
                simpl in Hl. lia. }
              apply lookup_snoc_Some in Hl as [[Hj Hl]|[-> [= <-]]].
              ** exists j, t'. split_and!; [done|done|]. eauto.
              ** exfalso. assert (is_Some (hashes !! md5_hexdigest t)) as [? Hs].
                 { apply IA. eauto. }
                 congruence.
        -- done.
    + split_and!.
      * intros h. rewrite IA. split.
        -- intros (i & t' & Hl & Hh). exists i, t'.
           split; [by apply lookup_app_l_Some|done].
        -- intros (i & t' & Hl & Hh).
           apply lookup_snoc_Some in Hl as [[_ Hl]|[_ [=]]]. eauto.
      * intros k. rewrite IB. split.
        -- intros (j & t' & -> & Hl & i & t'' & Hij & Hi & Hh).
           exists j, t'. split_and!; [done|by apply lookup_app_l_Some|].
           exists i, t''. split_and!; [done|by apply lookup_app_l_Some|done].
        -- intros (j & t' & -> & Hl & i & t'' & Hij & Hi & Hh).
           apply lookup_snoc_Some in Hl as [[_ Hl]|[_ [=]]].
           apply lookup_snoc_Some in Hi as [[_ Hi]|[_ [=]]].
           exists j, t'. split_and!; [done|done|]. eauto.
      * done.
Qed.

(** C5, amended.  On a document with at least one page the duplicate
    check returns a result whose affected pages are exactly the pages whose
    text has the hash of the text of an earlier page, each listed once; the
    status is APROBADO with no such page and RECHAZADO otherwise.  Of two
    pages with the same text the later is always affected; the earlier is
    affected exactly when a page before it has the same hash, so the first
    page with a given hash never is. *)
Theorem verificar_folios_duplicados_spec (doc : documento)
    (rs : list ResultadoVerificacion) :
  doc ≠ [] →
  ∃ r, _verificar_folios_duplicados doc rs = Ok (rs ++ [r]) ∧
    (∀ k, k ∈ folios_afectados r ↔
          ∃ j t, k = j + 1 ∧ doc !! j = Some (Texto t) ∧
                 ∃ i t', i < j ∧ doc !! i = Some (Texto t') ∧
                         md5_hexdigest t' = md5_hexdigest t) ∧
    NoDup (folios_afectados r) ∧
    estado r = (if length (folios_afectados r) =? 0
                then "APROBADO" else "RECHAZADO") ∧
    (∀ i j t, i < j → doc !! i = Some (Texto t) → doc !! j = Some (Texto t) →
       j + 1 ∈ folios_afectados r ∧
       (i + 1 ∈ folios_afectados r ↔
        ∃ h t', h < i ∧ doc !! h = Some (Texto t') ∧
                md5_hexdigest t' = md5_hexdigest t)).
Proof.
  intros Hdoc. unfold _verificar_folios_duplicados, total_folios.
  set (n := length (duplicados_de doc)).
  destruct (if n =? 0 then _ else _) as [est det] eqn:Eest.
  rewrite truediv_ok by by apply total_no_cero.
  eexists. split; [reflexivity|]. cbn [folios_afectados estado].
  destruct (duplicados_inv doc) as (_ & IB & IC). fold (duplicados_de doc) in IB, IC.
  split_and!.
  - done.
  - by apply StronglySorted_lt_NoDup.
  - rewrite length_map. fold n. destruct (n =? 0); by injection Eest as <- _.
  - intros i j t Hij Hi Hj. split.
    + apply IB. exists j, t. split_and!; [done|done|]. eauto.
    + rewrite IB. split.
      * intros (i' & t0 & Hii & Hl & h & t' & Hh & Hlh & Hhash).
        assert (i' = i) as -> by lia. rewrite Hi in Hl. injection Hl as <-. eauto.
      * intros (h & t' & Hh & Hlh & Hhash). exists i, t. eauto 10.
Qed.
End Duplicados.

Section Ejecucion.
Context `{Unicode} `{Entorno}.
Variable config : Config.

Lemma verificar_hojas_blanco_ok (doc : documento) rs :
  doc ≠ [] →
  ∃ r, _verificar_hojas_blanco doc rs = Ok (rs ++ [r]) ∧
       tipo_verificacion r = "1.1 Hojas en Blanco".
Proof.
  intros Hdoc. unfold _verificar_hojas_blanco, total_folios.
  rewrite truediv_ok by by apply total_no_cero. eauto.
Qed.

Lemma verificar_foliacion_ok (doc : documento) rs :
  doc ≠ [] →
  ∃ r, _verificar_foliacion doc rs = Ok (rs ++ [r]) ∧
       tipo_verificacion r = "1.2 Foliación Correlativa".
Proof.
  intros Hdoc. unfold _verificar_foliacion, total_folios.
  destruct (if _ =? 0 then _ else _) as [est det].
  rewrite truediv_ok by by apply total_no_cero. eauto.
Qed.

Lemma verificar_folios_duplicados_ok (doc : documento) rs :
  doc ≠ [] →
  ∃ r, _verificar_folios_duplicados doc rs = Ok (rs ++ [r]) ∧
       tipo_verificacion r = "1.2 Folios Duplicados".
Proof.
  intros Hdoc. unfold _verificar_folios_duplicados, total_folios.
  destruct (if _ =? 0 then _ else _) as [est det].
  rewrite truediv_ok by by apply total_no_cero. eauto.
Qed.

Lemma verificar_ilegibilidad_ok (doc : documento) rs :
  doc ≠ [] →
  ∃ r, _verificar_ilegibilidad config doc rs = Ok (rs ++ [r]) ∧
       tipo_verificacion r = "1.3 Ilegibilidad de Información".
Proof.
  intros Hdoc. unfold _verificar_ilegibilidad, total_folios.
  destruct (if _ =? 0 then _ else _) as [est det].
  rewrite truediv_ok by by apply total_no_cero. eauto.
Qed.

(** The similarity check divides by [max(len(secciones_texto), 1)] and
    returns on every document. *)
Lemma verificar_plagio_ok (doc : documento) rs :
  ∃ r, _verificar_plagio config doc rs = Ok (rs ++ [r]) ∧
       tipo_verificacion r = "1.3 Verificación de Plagio".
Proof.
  unfold _verificar_plagio.
  destruct (if _ =? 0 then _ else _) as [est det].
  rewrite truediv_ok by lia. eauto.
Qed.

(** The spelling check catches whatever it raises. *)
Lemma verificar_ortografia_ok (doc : documento) rs :
  ∃ r, _verificar_ortografia config doc rs = Ok (rs ++ [r]) ∧
       tipo_verificacion r = "1.3 Verificación Ortográfica".
Proof.
  unfold _verificar_ortografia, try_except.
  destruct (nuevo_LanguageTool (idioma_ortografia config)) as [tool|e];
    simpl; [|eauto].
  destruct (close tool) as [[]|e]; simpl; [|eauto].
  destruct (if _ =? 0 then _ else _) as [est det].
  destruct (truediv _ _) as [q|e]; simpl; eauto.
Qed.

Lemma sin_folios_division_por_cero rs :
  _verificar_hojas_blanco [] rs = Raise ZeroDivisionError ∧
  _verificar_foliacion [] rs = Raise ZeroDivisionError ∧
  _verificar_folios_duplicados [] rs = Raise ZeroDivisionError ∧
  _verificar_ilegibilidad config [] rs = Raise ZeroDivisionError.
Proof. split_and!; reflexivity. Qed.

(** C10, amended.  Without pages the blank-page, pagination, duplicate
    and legibility checks raise ZeroDivisionError when they divide by the
    number of pages; each of them returns a result exactly when the
    document has at least one page.  The similarity check and the spelling
    check return a result on every document. *)
Theorem division_por_cero_sin_folios (rs : list ResultadoVerificacion) :
  (_verificar_hojas_blanco [] rs = Raise ZeroDivisionError ∧
   _verificar_foliacion [] rs = Raise ZeroDivisionError ∧
   _verificar_folios_duplicados [] rs = Raise ZeroDivisionError ∧
   _verificar_ilegibilidad config [] rs = Raise ZeroDivisionError) ∧
  ∀ doc : documento,
    ((∃ r, _verificar_hojas_blanco doc rs = Ok (rs ++ [r]))
     ↔ 0 < total_folios doc) ∧
    ((∃ r, _verificar_foliacion doc rs = Ok (rs ++ [r]))
     ↔ 0 < total_folios doc) ∧
    ((∃ r, _verificar_folios_duplicados doc rs = Ok (rs ++ [r]))
     ↔ 0 < total_folios doc) ∧
    ((∃ r, _verificar_ilegibilidad config doc rs = Ok (rs ++ [r]))
     ↔ 0 < total_folios doc) ∧
    (∃ r, _verificar_plagio config doc rs = Ok (rs ++ [r])) ∧
    (∃ r, _verificar_ortografia config doc rs = Ok (rs ++ [r])).
Proof.
  pose proof (sin_folios_division_por_cero rs) as (Z1 & Z2 & Z3 & Z4).
  split; [done|]. intros doc.
  assert ((∃ r, _verificar_plagio config doc rs = Ok (rs ++ [r])) ∧
          (∃ r, _verificar_ortografia config doc rs = Ok (rs ++ [r])))
    as [Hp Ho].
  { destruct (verificar_plagio_ok doc rs) as (r & ? & _).
    destruct (verificar_ortografia_ok doc rs) as (r' & ? & _). eauto. }
  unfold total_folios. destruct doc as [|p doc].
  - rewrite Z1, Z2, Z3, Z4. simpl.
    split_and!; [split; [by intros [? ?] | lia]..|done|done].
  - split_and!; [split; [simpl; lia | intros _]..|done|done].
    + destruct (verificar_hojas_blanco_ok (p :: doc) rs) as (r & ? & _); eauto.
    + destruct (verificar_foliacion_ok (p :: doc) rs) as (r & ? & _); eauto.
    + destruct (verificar_folios_duplicados_ok (p :: doc) rs) as (r & ? & _); eauto.
    + destruct (verificar_ilegibilidad_ok (p :: doc) rs) as (r & ? & _); eauto.
Qed.

Lemma verificaciones_ok (doc : documento) (ruta : string) :
  doc ≠ [] →
  ∃ resultados,
    verificaciones config doc ruta [] =
      Ok (_preparar_resultados config doc ruta resultados) ∧
    map tipo_verificacion resultados =
      ["1.1 Hojas en Blanco"; "1.2 Foliación Correlativa";
       "1.2 Folios Duplicados"; "1.3 Ilegibilidad de Información";
       "1.3 Verificación de Plagio"]
      ++ (if verificar_ortografia config
          then ["1.3 Verificación Ortográfica"] else []).
Proof.
  intros Hdoc. unfold verificaciones.
  destruct (verificar_hojas_blanco_ok doc [] Hdoc) as (r1 & -> & T1). simpl.
  destruct (verificar_foliacion_ok doc [r1] Hdoc) as (r2 & -> & T2). simpl.
  destruct (verificar_folios_duplicados_ok doc [r1; r2] Hdoc) as (r3 & -> & T3).
  simpl.
  destruct (verificar_ilegibilidad_ok doc [r1; r2; r3] Hdoc) as (r4 & -> & T4).
  simpl.
  destruct (verificar_plagio_ok doc [r1; r2; r3; r4]) as (r5 & -> & T5). simpl.
  destruct (verificar_ortografia config).
  - destruct (verificar_ortografia_ok doc [r1; r2; r3; r4; r5]) as (r6 & -> & T6).
    simpl. eexists. split; [reflexivity|]. simpl. congruence.
  - simpl. eexists. split; [reflexivity|]. simpl. congruence.
Qed.

(** C4, amended.  When the document loads and has at least one page, the
    run returns the full report, with one result per check in the order
    the checks run; whatever fails while a page is read is handled inside
    the check, and the spelling check, which alone has a handler of its
    own around the whole check, always adds its result. *)
Theorem ejecutar_verificacion_completa_informe (ruta : string) (doc : documento) :
  PdfReader ruta = Ok doc → doc ≠ [] →
  ∃ resumen resultados,
    ejecutar_verificacion_completa config ruta =
      Ok (InformeCompleto ruta (ahora (formato_fecha config)) (length doc)
            resumen resultados) ∧
    map tipo_verificacion resultados =
      ["1.1 Hojas en Blanco"; "1.2 Foliación Correlativa";
       "1.2 Folios Duplicados"; "1.3 Ilegibilidad de Información";
       "1.3 Verificación de Plagio"]
      ++ (if verificar_ortografia config
          then ["1.3 Verificación Ortográfica"] else []) ∧
    estado_global resumen = _determinar_estado_global resultados ∧
    (∀ (doc' : documento) rs,
       ∃ r, _verificar_ortografia config doc' rs = Ok (rs ++ [r])).
Proof.
  intros Hload Hdoc. unfold ejecutar_verificacion_completa, _cargar_documento.
  rewrite Hload.
  destruct (verificaciones_ok doc ruta Hdoc) as (resultados & -> & Htipos).
  eexists _, resultados. split_and!; [reflexivity|done|done|].
  intros doc' rs. destruct (verificar_ortografia_ok doc' rs) as (r & ? & _). eauto.
Qed.
End Ejecucion.

Section ErrorExtraccion.
Context `{Unicode} `{Entorno}.
Variable config : Config.

Lemma folio_no_acumulado {E} (cuerpo : nat → Pagina → option E)
    (folio : E → nat) (doc : documento) (n : nat) (p : Pagina) :
  (∀ m q x, cuerpo m q = Some x → folio x = m + 1) →
  doc !! n = Some p → cuerpo n p = None →
  ∀ k, n + 1 ∉ map folio (acumular cuerpo (take k (Difflib.enumerate doc))).
Proof.
  intros Hfolio Hl Hnone k Hin.
  change (map folio ?l) with (folio <$> l) in Hin.
  apply list_elem_of_fmap in Hin as (x & Hx & Hin).
  rewrite acumular_omap in Hin. apply list_elem_of_omap in Hin as ([m q] & Hin & Hc).
  apply elem_of_take in Hin as (i & Hin & _).
  apply list_lookup_imap_Some in Hin as (y & Hy & [= -> ->]).
  simpl in Hc. pose proof (Hfolio _ _ _ Hc) as Hf.
  assert (i = n) as -> by lia. rewrite Hl in Hy. injection Hy as <-.
  by rewrite Hnone in Hc.
Qed.

Lemma folio_no_recorrido {E} (cuerpo : nat → Pagina → option E)
    (folio : E → nat) (doc : documento) (n : nat) (p : Pagina) :
  (∀ m q x, cuerpo m q = Some x → folio x = m + 1) →
  doc !! n = Some p → cuerpo n p = None →
  n + 1 ∉ map folio (por_cada_folio doc cuerpo).
Proof.
  intros Hfolio Hl Hnone. unfold por_cada_folio.
  rewrite <- (firstn_all (Difflib.enumerate doc)).
  by eapply folio_no_acumulado.
Qed.

(** C9, amended.  A page whose extraction fails never stops the run: the
    checks after the load all return.  The legibility check reports the
    page, with percentage 0 and the text of the error; the blank-page,
    pagination, duplicate, similarity and spelling checks pass over it and
    do not report it. *)
Theorem error_extraccion_por_folio (doc : documento) (ruta : string)
    (n : nat) (e : excepcion) :
  doc !! n = Some (ErrorExtraccion e) →
  (∃ informe, verificaciones config doc ruta [] = Ok informe) ∧
  {| ileg_folio := n + 1; ileg_porcentaje := 0;
     ileg_error := Some (str_excepcion e) |} ∈ folios_ilegibles_de config doc ∧
  (n + 1 ∉ hojas_blanco_de doc) ∧
  (n + 1 ∉ map inc_pagina (folios_incorrectos_de doc)) ∧
  (n + 1 ∉ map folio_duplicado (duplicados_de doc)) ∧
  (n + 1 ∉ map sec_folio (secciones_texto_de doc)) ∧
  (∀ tool, n + 1 ∉ map err_folio (errores_por_folio_de doc tool)).
Proof.
  intros Hl.
  assert (doc ≠ []) as Hdoc by (by intros ->).
  split_and!.
  - destruct (verificaciones_ok config doc ruta Hdoc) as (rs & -> & _). eauto.
  - apply elem_of_por_cada_folio. exists n, (ErrorExtraccion e). eauto.
  - unfold hojas_blanco_de. rewrite <- (map_id (por_cada_folio doc _)).
    eapply folio_no_recorrido; [|done|done].
    intros m [t|?] x; [|done]. destruct (_ <? _); [|done]. by intros [= <-].
  - eapply folio_no_recorrido; [|done|done].
    intros m q x Hx. by apply folios_incorrectos_cuerpo in Hx as [? _].
  - destruct (duplicados_inv doc) as (_ & IB & _).
    fold (duplicados_de doc) in IB. rewrite IB.
    intros (j & t & Hj & Hlj & _). assert (j = n) as -> by lia.
    by rewrite Hl in Hlj.
  - eapply folio_no_recorrido; [|done|done].
    intros m [t|?] x; [|done]. simpl. destruct (100 <? _); [|done].
    by intros [= <-].
  - intros tool. unfold errores_por_folio_de.
    eapply folio_no_acumulado; [|done|done].
    intros m [t|?] x; [|done]. destruct (0 <? length (strip t)); [|done].
    destruct (check tool t) as [ms|?]; [|done].
    destruct (0 <? length ms); [|done]. by intros [= <-].
Qed.
End ErrorExtraccion.

Section EstadoGlobal.

Lemma contar_existsb (e : string) (rs : list ResultadoVerificacion) :
  (0 <? contar e rs) = existsb (λ r, String.eqb (estado r) e) rs.
Proof.
  unfold contar. induction rs as [|r rs IH]; [done|]. simpl.
  destruct (String.eqb (estado r) e); [done|]. by rewrite <- IH.
Qed.

Lemma contar_sin_no_procesado (e : string) (rs : list ResultadoVerificacion) :
  e ≠ "NO PROCESADO" →
  contar e (List.filter (λ r, negb (String.eqb (estado r) "NO PROCESADO")) rs)
  = contar e rs.
Proof.
  intros He. unfold contar. induction rs as [|r rs IH]; [done|]. simpl.
  destruct (String.eqb_spec (estado r) "NO PROCESADO") as [Hnp|Hnp]; simpl.
  - rewrite Hnp. destruct (String.eqb_spec "NO PROCESADO" e); [congruence|done].
  - destruct (String.eqb (estado r) e); simpl; by rewrite IH.
Qed.

(** C1.  The global status is NO ADMISIBLE when some result is RECHAZADO;
    otherwise ADMISIBLE CON OBSERVACIONES when some result is OBSERVADO;
    otherwise ADMISIBLE.  Results that are NO PROCESADO do not take part:
    removing them leaves the status as it was, and results that are all
    APROBADO but for one NO PROCESADO give ADMISIBLE. *)
Theorem determinar_estado_global_spec (rs : list ResultadoVerificacion) :
  _determinar_estado_global rs =
    (if existsb (λ r, String.eqb (estado r) "RECHAZADO") rs
     then "NO ADMISIBLE"
     else if existsb (λ r, String.eqb (estado r) "OBSERVADO") rs
          then "ADMISIBLE CON OBSERVACIONES"
          else "ADMISIBLE") ∧
  _determinar_estado_global
    (List.filter (λ r, negb (String.eqb (estado r) "NO PROCESADO")) rs)
  = _determinar_estado_global rs ∧
  (∀ rs1 rs2 u,
     rs = rs1 ++ u :: rs2 →
     Forall (λ r, estado r = "APROBADO") (rs1 ++ rs2) →
     estado u = "NO PROCESADO" →
     _determinar_estado_global rs = "ADMISIBLE").
Proof.
  assert (∀ l, _determinar_estado_global l =
               (if existsb (λ r, String.eqb (estado r) "RECHAZADO") l
                then "NO ADMISIBLE"
                else if existsb (λ r, String.eqb (estado r) "OBSERVADO") l
                     then "ADMISIBLE CON OBSERVACIONES"
                     else "ADMISIBLE")) as Hg.
  { intros l. unfold _determinar_estado_global. by rewrite !contar_existsb. }
  split_and!.
  - apply Hg.
  - unfold _determinar_estado_global.
    by rewrite !contar_sin_no_procesado.
  - intros rs1 rs2 u -> Hall Hu. rewrite Hg.
    apply Forall_app in Hall as [H1 H2].
    rewrite !existsb_app. simpl. rewrite Hu. simpl.
    assert (∀ l e, e ≠ "APROBADO" → Forall (λ r, estado r = "APROBADO") l →
                   existsb (λ r, String.eqb (estado r) e) l = false) as Hno.
    { intros l e He Hl. induction Hl as [|r l Hr _ IH]; [done|]. simpl.
      rewrite Hr, IH. by destruct (String.eqb_spec "APROBADO" e); [congruence|]. }
    by rewrite !Hno.
Qed.
End EstadoGlobal.

Section Rango.
Context `{Unicode} `{Entorno}.
Variable config : Config.

Lemma porcentaje_rango (total k : nat) :
  0 < total → k ≤ total →
  (0 <= inject_Z (Z.of_nat total - Z.of_nat k) / inject_Z (Z.of_nat total) * 100
   ∧ inject_Z (Z.of_nat total - Z.of_nat k) / inject_Z (Z.of_nat total) * 100
     <= 100)%Q.
Proof.
  intros Ht Hk. unfold Qle, Qdiv, Qmult, Qinv, inject_Z. simpl.
  destruct (Z.of_nat total) as [|p|p] eqn:Ep; [lia| |lia]. simpl.
  split; nia.
Qed.

Lemma length_duplicados (doc : documento) :
  length (duplicados_de doc) ≤ length doc.
Proof.
  unfold duplicados_de. induction doc as [|p doc IH] using rev_ind; [done|].
  rewrite duplicados_snoc, length_app. simpl.
  destruct (fold_left paso_duplicados (Difflib.enumerate doc) (∅, []))
    as [hashes dups]. simpl in IH. unfold paso_duplicados. cbn [fst snd].
  destruct p as [t|e]; [|simpl; lia].
  destruct (hashes !! md5_hexdigest t); simpl; [rewrite length_app; simpl|]; lia.
Qed.

(** The four checks that divide by the number of pages keep the
    percentage between 0 and 100. *)
Lemma porcentaje_en_rango (doc : documento) (rs : list ResultadoVerificacion) :
  doc ≠ [] →
  ∀ rs' r,
    (_verificar_hojas_blanco doc rs = Ok (rs' ++ [r]) ∨
     _verificar_foliacion doc rs = Ok (rs' ++ [r]) ∨
     _verificar_folios_duplicados doc rs = Ok (rs' ++ [r]) ∨
     _verificar_ilegibilidad config doc rs = Ok (rs' ++ [r])) →
    (0 <= porcentaje_cumplimiento r ∧ porcentaje_cumplimiento r <= 100)%Q.
Proof.
  intros Hdoc rs' r.
  assert (0 < length doc) as Hpos by (destruct doc; [done | simpl; lia]).
  unfold _verificar_hojas_blanco, _verificar_foliacion,
    _verificar_folios_duplicados, _verificar_ilegibilidad, total_folios.
  intros [Hr|[Hr|[Hr|Hr]]]; revert Hr;
    try destruct (if _ =? 0 then _ else _) as [est det];
    rewrite truediv_ok by (by apply total_no_cero); simpl;
    intros [= Happ]; apply app_inj_tail in Happ as [_ <-];
    cbn [porcentaje_cumplimiento]; apply porcentaje_rango; try done.
  - apply length_por_cada_folio.
  - apply length_por_cada_folio.
  - apply length_duplicados.
  - apply length_por_cada_folio.
Qed.
End Rango.

Section Similitud.

(** C3, amended.  Comparing a text with an exact copy of itself gives
    the ratio 1. *)
Theorem calcular_similitud_copia (texto : str) :
  (_calcular_similitud texto texto == 1)%Q.
Proof. apply ReflexiveFacts.ratio_self. Qed.

(** C3 as stated fails: the ratio depends on the order of the two
    texts. *)
Lemma calcular_similitud_no_simetrica :
  _calcular_similitud (str_of_string "tide") (str_of_string "diet") = 2 # 8 ∧
  _calcular_similitud (str_of_string "diet") (str_of_string "tide") = 4 # 8 ∧
  Qeq_bool (_calcular_similitud (str_of_string "tide") (str_of_string "diet"))
           (_calcular_similitud (str_of_string "diet") (str_of_string "tide"))
  = false.
Proof. split_and!; vm_compute; reflexivity. Qed.

(** C2 fails on four pages with the same text: six pairs over four
    pages give 100 - 150. *)
Theorem plagio_porcentaje_negativo :
  ∃ r, @_verificar_plagio unicode_ascii _config_default doc_cuatro_copias []
       = Ok [r] ∧
       length (@secciones_texto_de unicode_ascii doc_cuatro_copias) = 4 ∧
       length (casos_plagio_de _config_default
                 (@secciones_texto_de unicode_ascii doc_cuatro_copias)) = 6 ∧
       estado r = "OBSERVADO" ∧
       Qeq_bool (porcentaje_cumplimiento r) (-50) = true ∧
       Qle_bool 0 (porcentaje_cumplimiento r) = false.
Proof. eexists. split_and!; vm_compute; reflexivity. Qed.
End Similitud.

(** * The theorems on the example documents *)

Lemma determinar_estado_global_ejemplo :
  Forall (λ r, estado r = "APROBADO")
         ([resultado_con "APROBADO"] ++ [resultado_con "APROBADO"]) ∧
  estado (resultado_con "NO PROCESADO") = "NO PROCESADO" ∧
  _determinar_estado_global
    [resultado_con "APROBADO"; resultado_con "NO PROCESADO";
     resultado_con "APROBADO"] = "ADMISIBLE".
Proof.
  assert (Forall (λ r, estado r = "APROBADO")
            ([resultado_con "APROBADO"] ++ [resultado_con "APROBADO"])) as Hall
    by (repeat constructor).
  split_and!; [exact Hall | reflexivity |].
  exact (proj2 (proj2 (determinar_estado_global_spec
                         [resultado_con "APROBADO"; resultado_con "NO PROCESADO";
                          resultado_con "APROBADO"]))
           [resultado_con "APROBADO"] [resultado_con "APROBADO"]
           (resultado_con "NO PROCESADO") eq_refl Hall eq_refl).
Defined.

Lemma verificar_hojas_blanco_ejemplo :
  doc_tres ≠ [] ∧
  ∃ r, @_verificar_hojas_blanco unicode_ascii doc_tres [] = Ok [r] ∧
       folios_afectados r = [2] ∧ estado r = "OBSERVADO".
Proof.
  assert (doc_tres ≠ []) as Hne by discriminate. split; [exact Hne|].
  destruct (@verificar_hojas_blanco_spec unicode_ascii doc_tres [] Hne)
    as (r & Hr & _).
  exists r. split; [exact Hr|]. vm_compute in Hr. injection Hr as <-.
  split; reflexivity.
Defined.


Lemma verificar_folios_duplicados_ejemplo :
  doc_tres ≠ [] ∧
  ∃ r, @_verificar_folios_duplicados (entorno_ejemplo doc_tres) doc_tres []
       = Ok [r] ∧
       folios_afectados r = [3] ∧ estado r = "RECHAZADO".
Proof.
  assert (doc_tres ≠ []) as Hne by discriminate. split; [exact Hne|].
  destruct (@verificar_folios_duplicados_spec (entorno_ejemplo doc_tres)
              doc_tres [] Hne) as (r & Hr & _).
  exists r. split; [exact Hr|]. vm_compute in Hr. injection Hr as <-.
  split; reflexivity.
Defined.

(** C5 as stated fails: of the second and third of three equal pages the
    earlier one is reported too. *)
Lemma duplicados_tres_copias :
  doc_tres_copias !! 1 = Some (Texto (str_of_string "una hoja")) ∧
  doc_tres_copias !! 2 = Some (Texto (str_of_string "una hoja")) ∧
  ∃ r, @_verificar_folios_duplicados (entorno_ejemplo doc_tres_copias)
         doc_tres_copias [] = Ok [r] ∧
       folios_afectados r = [2; 3].
Proof. split_and!; [reflexivity|reflexivity|]. eexists. split; reflexivity. Qed.

Lemma verificar_ilegibilidad_ejemplo :
  doc_un_ilegible ≠ [] ∧
  ∃ r, @_verificar_ilegibilidad unicode_ascii _config_default doc_un_ilegible []
       = Ok [r] ∧
       folios_afectados r = [1] ∧ estado r = "OBSERVADO".
Proof.
  assert (doc_un_ilegible ≠ []) as Hne by discriminate. split; [exact Hne|].
  destruct (@verificar_ilegibilidad_spec unicode_ascii _config_default
              doc_un_ilegible [] Hne) as (r & Hr & _).
  exists r. split; [exact Hr|]. vm_compute in Hr. injection Hr as <-.
  split; reflexivity.
Defined.

Lemma error_extraccion_ejemplo :
  doc_con_falla !! 1 = Some (ErrorExtraccion (Exception "extract_text")) ∧
  (∃ informe, @verificaciones unicode_ascii (entorno_ejemplo doc_con_falla)
                _config_default doc_con_falla "expediente.pdf" [] = Ok informe) ∧
  {| ileg_folio := 2; ileg_porcentaje := 0;
     ileg_error := Some "extract_text" |}
    ∈ @folios_ilegibles_de unicode_ascii _config_default doc_con_falla ∧
  (2 ∉ @hojas_blanco_de unicode_ascii doc_con_falla).
Proof.
  assert (doc_con_falla !! 1 = Some (ErrorExtraccion (Exception "extract_text")))
    as Hl by reflexivity.
  split; [exact Hl|].
  destruct (@error_extraccion_por_folio unicode_ascii
              (entorno_ejemplo doc_con_falla) _config_default doc_con_falla
              "expediente.pdf" 1 (Exception "extract_text") Hl)
    as (Hrun & Hileg & Hblanco & _).
  split_and!; [exact Hrun | exact Hileg | exact Hblanco].
Defined.

(** C9 as stated fails: the blank-page check reports a page with an empty
    text and passes over a page whose extraction fails. *)
Lemma hoja_fallida_no_es_hoja_vacia :
  @hojas_blanco_de unicode_ascii doc_falla = [] ∧
  @hojas_blanco_de unicode_ascii doc_vacia = [1] ∧
  (∃ r, @_verificar_hojas_blanco unicode_ascii doc_falla [] = Ok [r] ∧
        estado r = "APROBADO" ∧ folios_afectados r = []) ∧
  (∃ r, @_verificar_hojas_blanco unicode_ascii doc_vacia [] = Ok [r] ∧
        estado r = "OBSERVADO" ∧ folios_afectados r = [1]).
Proof.
  split_and!; [reflexivity | reflexivity | |];
    (eexists; split_and!; reflexivity).
Qed.

Lemma ejecutar_verificacion_completa_ejemplo :
  @PdfReader (entorno_ejemplo doc_tres) "expediente.pdf" = Ok doc_tres ∧
  doc_tres ≠ [] ∧
  ∃ resumen resultados,
    @ejecutar_verificacion_completa unicode_ascii (entorno_ejemplo doc_tres)
      _config_default "expediente.pdf"
    = Ok (InformeCompleto "expediente.pdf" "2025-01-01 00:00:00" 3
            resumen resultados) ∧
    length resultados = 6 ∧
    estado_global resumen = "NO ADMISIBLE".
Proof.
  assert (doc_tres ≠ []) as Hne by discriminate.
  split_and!; [reflexivity | exact Hne |].
  destruct (@ejecutar_verificacion_completa_informe unicode_ascii
              (entorno_ejemplo doc_tres) _config_default "expediente.pdf"
              doc_tres eq_refl Hne) as (resumen & resultados & Hr & _).
  exists resumen, resultados. split; [exact Hr|].
  vm_compute in Hr. injection Hr as <- <-. split; reflexivity.
Defined.

(** C4 as stated fails: on a document without pages the exception of the
    first check ends the run, and no report is returned. *)
Lemma ejecucion_sin_folios :
  @PdfReader (entorno_ejemplo []) "vacio.pdf" = Ok [] ∧
  @_verificar_hojas_blanco unicode_ascii [] [] = Raise ZeroDivisionError ∧
  @ejecutar_verificacion_completa unicode_ascii (entorno_ejemplo [])
    _config_default "vacio.pdf" = Raise ZeroDivisionError.
Proof. split_and!; reflexivity. Qed.


(** C7 as stated fails: a document without pages is loaded, and the
    blank-page check raises on it instead of returning a result. *)
Lemma hojas_blanco_sin_folios :
  @PdfReader (entorno_ejemplo []) "vacio.pdf" = Ok [] ∧
  @hojas_blanco_de unicode_ascii [] = [] ∧
  @_verificar_hojas_blanco unicode_ascii [] [] = Raise ZeroDivisionError.
Proof. split_and!; reflexivity. Qed.

(** C8 as stated fails: a document without pages is loaded, and the
    legibility check raises on it instead of returning a result. *)
Lemma ilegibilidad_sin_folios :
  @PdfReader (entorno_ejemplo []) "vacio.pdf" = Ok [] ∧
  @folios_ilegibles_de unicode_ascii _config_default [] = [] ∧
  @_verificar_ilegibilidad unicode_ascii _config_default [] []
    = Raise ZeroDivisionError.
Proof. split_and!; reflexivity. Qed.

(** C10 as stated fails: not every check divides by the number of pages
    without a guard.  On a document without pages the similarity check,
    which divides by [max(len(secciones_texto), 1)], returns its result,
    and the spelling check catches the division by zero and returns NO
    PROCESADO. *)
Lemma plagio_y_ortografia_sin_folios :
  @PdfReader (entorno_con_tool []) "vacio.pdf" = Ok [] ∧
  @_verificar_plagio unicode_ascii _config_default [] [] =
    Ok [{| tipo_verificacion := "1.3 Verificación de Plagio";
           estado := "APROBADO";
           detalles := [Detalle "No se detectaron casos de plagio interno" []];
           porcentaje_cumplimiento := 100 - 0 / 1 * 100;
           folios_afectados := [] |}] ∧
  @_verificar_ortografia unicode_ascii (entorno_con_tool []) _config_default [] [] =
    Ok [{| tipo_verificacion := "1.3 Verificación Ortográfica";
           estado := "NO PROCESADO";
           detalles := [Detalle "No se pudo completar la verificación: {}"
                          [VStr "division by zero"]];
           porcentaje_cumplimiento := 0;
           folios_afectados := [] |}].
Proof. split_and!; reflexivity. Qed.

(** * Further facts about the SequenceMatcher model *)

Module DifflibRange.
Import Difflib.

Section BoundsB.
Variables (a b : str) (b2j : gmap N (list nat)).
Variables (alo ahi blo bhi : nat).

Lemma inner_bounds_b (i : nat) (j2len : gmap nat nat) (js : list nat) :
  (∀ j v, j2len !! j = Some v → blo ≤ j ∧ v ≤ j + 1 - blo) →
  ∀ (best : Match) (new : gmap nat nat),
    (best = (alo, blo, 0) ∨ (blo ≤ best.1.2 ∧ best.1.2 + best.2 ≤ bhi)) →
    (∀ j v, new !! j = Some v → blo ≤ j ∧ v ≤ j + 1 - blo) →
    let r := inner blo bhi i j2len js best new in
    (r.1 = (alo, blo, 0) ∨ (blo ≤ r.1.1.2 ∧ r.1.1.2 + r.1.2 ≤ bhi)) ∧
    (∀ j v, r.2 !! j = Some v → blo ≤ j ∧ v ≤ j + 1 - blo).
Proof.
  intros Hlen. induction js as [|j js IH]; intros best new Hb Hnew; simpl.
  - auto.
  - destruct (j <? blo) eqn:E1; [by apply IH|].
    destruct (bhi <=? j) eqn:E2; [simpl; auto|].
    apply Nat.ltb_ge in E1. apply Nat.leb_gt in E2.
    assert (j2lenget j2len j + 1 ≤ j + 1 - blo) as Hk.
    { destruct j as [|j']; simpl; [lia|].
      destruct (j2len !! j') as [v|] eqn:Ev; simpl; [|lia].
      apply Hlen in Ev. lia. }
    apply IH.
    + destruct (best.2 <? j2lenget j2len j + 1); [|done]. right. simpl. lia.
    + intros j' v. rewrite lookup_insert. case_decide; [|by apply Hnew].
      intros [= <-]. subst j'. lia.
Qed.

Lemma outer_bounds_b (l : list nat) :
  let st := fold_left (outer_step a b2j blo bhi) l ((alo, blo, 0), ∅) in
  (st.1 = (alo, blo, 0) ∨ (blo ≤ st.1.1.2 ∧ st.1.1.2 + st.1.2 ≤ bhi)) ∧
  (∀ j v, st.2 !! j = Some v → blo ≤ j ∧ v ≤ j + 1 - blo).
Proof.
  induction l as [|i l IH] using rev_ind.
  - simpl. split; [by left|]. intros j v. by rewrite lookup_empty.
  - rewrite fold_left_app. simpl. destruct IH as [IH1 IH2].
    unfold outer_step at 1. cbv zeta.
    apply inner_bounds_b; [done|done|]. intros j v. by rewrite lookup_empty.
Qed.

Lemma extend_left_bounds_b (besti bestj bestsize : nat) :
  blo ≤ bestj →
  let r := extend_left a b alo blo besti bestj bestsize in
  blo ≤ r.1.2 ∧ r.1.2 + r.2 = bestj + bestsize.
Proof.
  revert bestj bestsize.
  induction besti as [|i' IH]; intros bestj bestsize Hlo; simpl; [lia|].
  destruct bestj as [|j']; simpl; [lia|].
  destruct (alo <? S i'); simpl; [|lia].
  destruct (blo <? S j') eqn:E; simpl; [|lia].
  destruct (same_elt a b i' j'); simpl; [|lia].
  apply Nat.ltb_lt in E.
  destruct (IH j' (S bestsize) ltac:(lia)) as [? ?]. lia.
Qed.

Lemma extend_left_inicio (bestj bestsize : nat) :
  extend_left a b alo blo alo bestj bestsize = (alo, bestj, bestsize).
Proof.
  destruct alo as [|i']; simpl; [done|]. destruct bestj; [done|].
  by rewrite Nat.ltb_irrefl.
Qed.

Lemma extend_right_bounds_b (rem besti bestj bestsize : nat) :
  let r := extend_right a b bhi rem besti bestj bestsize in
  r.1.2 = bestj ∧ (r.2 = bestsize ∨ r.1.2 + r.2 ≤ bhi).
Proof.
  revert bestsize.
  induction rem as [|rem IH]; intros bestsize; simpl; [auto|].
  destruct (bestj + bestsize <? bhi) eqn:E; simpl; [|auto].
  destruct (same_elt _ _ _ _); simpl; [|auto].
  apply Nat.ltb_lt in E.
  destruct (IH (S bestsize)) as (? & [?|?]); split; try done; right; lia.
Qed.

(** The block lies inside [b[blo:bhi]]. *)
Lemma find_longest_match_bounds_b :
  let r := find_longest_match a b b2j alo ahi blo bhi in
  blo ≤ r.1.2 ∧ (r.2 = 0 ∨ r.1.2 + r.2 ≤ bhi).
Proof.
  unfold find_longest_match, longest_junk_free.
  pose proof (outer_bounds_b (seq alo (ahi - alo))) as [B _].
  destruct (fold_left _ _ _).1 as [[bi bj] bs] eqn:E. cbv zeta in B. simpl in B.
  destruct B as [[= -> -> ->]|[B1 B2]].
  - rewrite extend_left_inicio.
    pose proof (extend_right_bounds_b (ahi - (alo + 0)) alo blo 0) as (R1 & R2).
    destruct (extend_right _ _ _ _ _ _ _) as [[i j] k]. simpl in *. subst j.
    split; [done|]. destruct R2; auto.
  - pose proof (extend_left_bounds_b bi bj bs B1) as [L1 L2].
    destruct (extend_left a b alo blo bi bj bs) as [[bi' bj'] bs'] eqn:E'.
    simpl in L1, L2.
    pose proof (extend_right_bounds_b (ahi - (bi' + bs')) bi' bj' bs') as (R1 & R2).
    destruct (extend_right _ _ _ _ _ _ _) as [[i j] k]. simpl in *. subst j.
    split; [done|]. right. destruct R2; lia.
Qed.
End BoundsB.

Lemma sum_sizes_snoc (l : list Match) (x : Match) :
  sum_sizes (l ++ [x]) = sum_sizes l + x.2.
Proof. unfold sum_sizes. induction l as [|y l IH]; simpl; lia. Qed.

(** The blocks found never take more than the rectangles queued. *)
Lemma blocks_loop_sum (a b : str) (b2j : gmap N (list nat)) (fuel : nat) :
  ∀ (queue : list Rect) (acc l : list Match),
    blocks_loop a b b2j fuel queue acc = Some l →
    sum_sizes l ≤
      sum_sizes acc + sum_list (map (λ r : Rect, r.1.1.2 - r.1.1.1) queue) ∧
    sum_sizes l ≤
      sum_sizes acc + sum_list (map (λ r : Rect, r.2 - r.1.2) queue).
Proof.
  induction fuel as [|fuel IH]; intros queue acc l Hl.
  - destruct queue as [|[[[alo ahi] blo] bhi] q]; simpl in *; [|done].
    injection Hl as <-. lia.
  - destruct queue as [|[[[alo ahi] blo] bhi] q]; simpl in *.
    { injection Hl as <-. lia. }
    pose proof (DifflibFacts.find_longest_match_bounds a b b2j alo ahi blo bhi)
      as [F1 F2].
    pose proof (find_longest_match_bounds_b a b b2j alo ahi blo bhi) as [G1 G2].
    destruct (find_longest_match a b b2j alo ahi blo bhi) as [[i j] k].
    simpl in F1, F2, G1, G2.
    destruct (k =? 0) eqn:Ek.
    + apply IH in Hl. lia.
    + apply Nat.eqb_neq in Ek.
      destruct F2 as [?|F2]; [lia|]. destruct G2 as [?|G2]; [lia|].
      apply IH in Hl. rewrite sum_sizes_snoc in Hl. simpl in Hl.
      destruct ((alo <? i) && (blo <? j)), ((i + k <? ahi) && (j + k <? bhi));
        simpl in Hl; lia.
Qed.

Lemma sum_sizes_insert_sorted (x : Match) (l : list Match) :
  sum_sizes (insert_sorted x l) = x.2 + sum_sizes l.
Proof.
  induction l as [|y l IH]; simpl; [done|].
  destruct (match_leb x y); simpl; [done|]. fold (sum_sizes (insert_sorted x l)).
  fold (sum_sizes l). lia.
Qed.

Lemma sum_sizes_sort_blocks (l : list Match) :
  sum_sizes (sort_blocks l) = sum_sizes l.
Proof.
  induction l as [|x l IH]; simpl; [done|].
  rewrite sum_sizes_insert_sorted. fold (sum_sizes l). lia.
Qed.

Lemma sum_sizes_collapse (la lb : nat) (l : list Match) :
  sum_sizes (collapse la lb l) = sum_sizes l.
Proof.
  unfold collapse.
  enough (∀ st, let r := fold_left collapse_step l st in
                r.1.2 + sum_sizes r.2 = st.1.2 + sum_sizes st.2 + sum_sizes l) as Hg.
  { specialize (Hg ((0, 0, 0), [])). cbv zeta in Hg.
    destruct (fold_left collapse_step l (0, 0, 0, [])) as [[[i1 j1] k1] na].
    simpl in Hg.
    destruct (k1 =? 0) eqn:E.
    - apply Nat.eqb_eq in E. rewrite sum_sizes_snoc. simpl. lia.
    - rewrite !sum_sizes_snoc. simpl. lia. }
  induction l as [|x l IH]; intros st; simpl; [lia|].
  specialize (IH (collapse_step st x)). cbv zeta in IH. rewrite IH.
  fold (sum_sizes l).
  destruct st as [[[i1 j1] k1] na], x as [[i2 j2] k2]. simpl.
  destruct ((i1 + k1 =? i2) && (j1 + k1 =? j2)); simpl; [lia|].
  destruct (k1 =? 0) eqn:E; [apply Nat.eqb_eq in E; lia|].
  rewrite sum_sizes_snoc. simpl. lia.
Qed.

(** The matched length is at most the length of either text. *)
Lemma get_matching_blocks_sum (a b : str) (l : list Match) :
  get_matching_blocks a b = Some l →
  sum_sizes l ≤ length a ∧ sum_sizes l ≤ length b.
Proof.
  unfold get_matching_blocks.
  destruct (blocks_loop _ _ _ _ _ _) as [l0|] eqn:E; [|done].
  intros [= <-]. rewrite sum_sizes_collapse, sum_sizes_sort_blocks.
  apply blocks_loop_sum in E. simpl in E. lia.
Qed.

Lemma ratio_rango (a b : str) : (0 <= ratio a b ∧ ratio a b <= 1)%Q.
Proof.
  pose proof (DifflibFacts.ratio_opt_total a b) as Ht. unfold ratio_opt in Ht.
  destruct (get_matching_blocks a b) as [l|] eqn:E; [|done].
  injection Ht as Ht. rewrite <- Ht.
  apply get_matching_blocks_sum in E as [Ha Hb].
  unfold calculate_ratio.
  destruct (length a + length b =? 0) eqn:E0; [done|].
  apply Nat.eqb_neq in E0.
  unfold Qle, Qdiv, Qmult, Qinv, inject_Z. simpl.
  destruct (Z.of_nat (length a + length b)) as [|p|p] eqn:Ep; [lia| |lia].
  simpl. split; lia.
Qed.
End DifflibRange.

(** * Further facts about the checks *)

Lemma sorted_lookup_lt (l : list nat) :
  StronglySorted lt l →
  ∀ i j x y, l !! i = Some x → l !! j = Some y → i < j → x < y.
Proof.
  induction 1 as [|z l Hs IH Hall]; intros i j x y Hi Hj Hij; [done|].
  destruct j as [|j]; [lia|]. simpl in Hj.
  destruct i as [|i]; simpl in Hi.
  - injection Hi as <-. rewrite Forall_forall in Hall. apply Hall.
    apply list_elem_of_lookup. eauto.
  - eapply IH; [done|done|lia].
Qed.

Lemma length_omap_le {A B} (f : A → option B) (l : list A) :
  length (omap f l) ≤ length l.
Proof.
  induction l as [|x l IH]; [done|]. cbn [omap list_omap].
  destruct (f x); simpl; lia.
Qed.

Section Plagio.
Context `{Unicode}.
Variable config : Config.

Lemma secciones_cuerpo (n : nat) (p : Pagina) (s : Seccion) :
  match p with
  | Texto t =>
      if 100 <? length (strip t)
      then Some {| sec_folio := n + 1; sec_texto := strip t |}
      else None
  | ErrorExtraccion _ => None
  end = Some s ↔
  ∃ t, p = Texto t ∧ 100 < length (strip t) ∧
       s = {| sec_folio := n + 1; sec_texto := strip t |}.
Proof.
  destruct p as [t|e].
  - destruct (Nat.ltb_spec 100 (length (strip t))) as [Hlt|Hge]; split.
    + intros [= <-]. eauto.
    + intros (t' & [= <-] & _ & ->). done.
    + done.
    + intros (t' & [= <-] & Hlt & _). lia.
  - split; [done|]. by intros (t' & ? & _).
Qed.

Lemma secciones_folio (n : nat) (p : Pagina) (s : Seccion) :
  match p with
  | Texto t =>
      if 100 <? length (strip t)
      then Some {| sec_folio := n + 1; sec_texto := strip t |}
      else None
  | ErrorExtraccion _ => None
  end = Some s → sec_folio s = n + 1.
Proof. intros Hs. by apply secciones_cuerpo in Hs as (t & _ & _ & ->). Qed.

(** The sections are the pages with more than 100 characters once
    trimmed, in the order of the pages. *)
Lemma elem_of_secciones (doc : documento) (s : Seccion) :
  s ∈ secciones_texto_de doc ↔
  ∃ n t, doc !! n = Some (Texto t) ∧ 100 < length (strip t) ∧
         s = {| sec_folio := n + 1; sec_texto := strip t |}.
Proof.
  unfold secciones_texto_de. rewrite elem_of_por_cada_folio. split.
  - intros (n & p & Hl & Hs). apply secciones_cuerpo in Hs as (t & -> & ? & ->).
    eauto.
  - intros (n & t & Hl & Hlt & ->). exists n, (Texto t). split; [done|].
    apply (secciones_cuerpo n (Texto t)). eauto.
Qed.

Lemma secciones_orden (doc : documento) (i j : nat) (si sj : Seccion) :
  secciones_texto_de doc !! i = Some si →
  secciones_texto_de doc !! j = Some sj →
  (i < j ↔ sec_folio si < sec_folio sj).
Proof.
  intros Hi Hj.
  pose proof (folios_sorted _ sec_folio secciones_folio doc) as Hs.
  fold (secciones_texto_de doc) in Hs.
  assert (∀ i j si sj, secciones_texto_de doc !! i = Some si →
            secciones_texto_de doc !! j = Some sj → i < j →
            sec_folio si < sec_folio sj) as Hlt.
  { intros i' j' si' sj' Hi' Hj' Hij.
    eapply (sorted_lookup_lt _ Hs i' j'); [| |done].
    - change (map sec_folio ?l) with (sec_folio <$> l).
      by rewrite list_lookup_fmap, Hi'.
    - change (map sec_folio ?l) with (sec_folio <$> l).
      by rewrite list_lookup_fmap, Hj'. }
  split; [by eapply Hlt|]. intros Hf.
  destruct (Nat.lt_trichotomy i j) as [?|[->|Hji]]; [done| |].
  - rewrite Hi in Hj. injection Hj as ->. lia.
  - specialize (Hlt j i sj si Hj Hi Hji). lia.
Qed.

(** The cases are the pairs of sections, the earlier first, whose ratio
    reaches the threshold. *)
Lemma elem_of_casos_plagio (secs : list Seccion) (c : CasoPlagio) :
  c ∈ casos_plagio_de config secs ↔
  ∃ i j si sj, i < j ∧ secs !! i = Some si ∧ secs !! j = Some sj ∧
    Qle_bool (umbral_plagio config)
             (_calcular_similitud (sec_texto si) (sec_texto sj)) = true ∧
    c = {| folio_1 := sec_folio si; folio_2 := sec_folio sj;
           similitud := round2 (_calcular_similitud (sec_texto si) (sec_texto sj)
                                * 100) |}.
Proof.
  revert c. induction secs as [|s secs IH]; intros c; simpl.
  - rewrite elem_of_nil. split; [done|]. by intros (i & j & si & sj & _ & Hi & _).
  - rewrite elem_of_app, IH. unfold casos_con. rewrite list_elem_of_omap. split.
    + intros [(sj & Hin & Hc)|(i & j & si & sj & Hij & Hi & Hj & Hq & ->)].
      * apply list_elem_of_lookup in Hin as [j Hj].
        destruct (Qle_bool _ _) eqn:Hq; [|done]. injection Hc as <-.
        exists 0, (S j), s, sj. split_and!; [lia|done|done|done|done].
      * exists (S i), (S j), si, sj. split_and!; [lia|done|done|done|done].
    + intros (i & j & si & sj & Hij & Hi & Hj & Hq & ->).
      destruct j as [|j]; [lia|]. simpl in Hj. destruct i as [|i]; simpl in Hi.
      * injection Hi as ->. left. exists sj. split.
        -- apply list_elem_of_lookup. eauto.
        -- by rewrite Hq.
      * right. exists i, j, si, sj. split_and!; [lia|done|done|done|done].
Qed.

Lemma length_casos_con (si : Seccion) (despues : list Seccion) :
  length (casos_con config si despues) ≤ length despues.
Proof. apply length_omap_le. Qed.

(** At most one case for each pair of sections. *)
Lemma length_casos_plagio (secs : list Seccion) :
  2 * length (casos_plagio_de config secs) ≤ length secs * (length secs - 1).
Proof.
  induction secs as [|s secs IH]; simpl; [lia|].
  rewrite length_app. pose proof (length_casos_con s secs). nia.
Qed.

Lemma verificar_plagio_resultado (doc : documento)
    (rs : list ResultadoVerificacion) :
  ∃ r, _verificar_plagio config doc rs = Ok (rs ++ [r]) ∧
    tipo_verificacion r = "1.3 Verificación de Plagio" ∧
    estado r = (if length (casos_plagio_de config (secciones_texto_de doc)) =? 0
                then "APROBADO" else "OBSERVADO") ∧
    folios_afectados r =
      list_set (map folio_1 (casos_plagio_de config (secciones_texto_de doc))
                ++ map folio_2 (casos_plagio_de config (secciones_texto_de doc))) ∧
    porcentaje_cumplimiento r =
      (100 - inject_Z (Z.of_nat (length (casos_plagio_de config
                                           (secciones_texto_de doc))))
             / inject_Z (Z.of_nat (Nat.max (length (secciones_texto_de doc)) 1))
             * 100)%Q.
Proof.
  unfold _verificar_plagio.
  destruct (if _ =? 0 then _ else _) as [est det] eqn:Eest.
  rewrite truediv_ok by lia. eexists. split; [reflexivity|].
  cbn [tipo_verificacion estado folios_afectados porcentaje_cumplimiento].
  split_and!; [done| |done|done].
  destruct (_ =? 0); by injection Eest as <- _.
Qed.

Lemma elem_of_folios_plagio (doc : documento) (k : nat) :
  k ∈ list_set (map folio_1 (casos_plagio_de config (secciones_texto_de doc))
                ++ map folio_2 (casos_plagio_de config (secciones_texto_de doc)))
  ↔ ∃ n1 n2 t1 t2,
      n1 < n2 ∧ doc !! n1 = Some (Texto t1) ∧ doc !! n2 = Some (Texto t2) ∧
      100 < length (strip t1) ∧ 100 < length (strip t2) ∧
      (umbral_plagio config <= _calcular_similitud (strip t1) (strip t2))%Q ∧
      (k = n1 + 1 ∨ k = n2 + 1).
Proof.
  unfold list_set.
  set (casos := casos_plagio_de config (secciones_texto_de doc)).
  assert (k ∈ map folio_1 casos ++ map folio_2 casos ↔
          ∃ c, c ∈ casos ∧ (k = folio_1 c ∨ k = folio_2 c)) as Hmem.
  { change (map ?f ?l) with (f <$> l).
    rewrite elem_of_app, !list_elem_of_fmap. split.
    - intros [(c & -> & Hc)|(c & -> & Hc)]; eauto.
    - intros (c & Hc & [-> | ->]); eauto. }
  rewrite elem_of_elements, elem_of_list_to_set, Hmem. split.
  - intros (c & Hc & Hk). unfold casos in Hc.
    apply elem_of_casos_plagio in Hc as (i & j & si & sj & Hij & Hi & Hj & Hq & ->).
    assert (si ∈ secciones_texto_de doc) as Hsi
      by (apply list_elem_of_lookup; eauto).
    assert (sj ∈ secciones_texto_de doc) as Hsj
      by (apply list_elem_of_lookup; eauto).
    pose proof (proj1 (secciones_orden doc i j si sj Hi Hj) Hij) as Hf.
    apply elem_of_secciones in Hsi as (n1 & t1 & H1 & L1 & ->).
    apply elem_of_secciones in Hsj as (n2 & t2 & H2 & L2 & ->).
    simpl in *. exists n1, n2, t1, t2.
    split_and!; [lia|done|done|done|done|by apply Qle_bool_iff|done].
  - intros (n1 & n2 & t1 & t2 & Hn & H1 & H2 & L1 & L2 & Hq & Hk).
    assert ({| sec_folio := n1 + 1; sec_texto := strip t1 |}
              ∈ secciones_texto_de doc) as Hs1
      by (apply elem_of_secciones; eauto).
    assert ({| sec_folio := n2 + 1; sec_texto := strip t2 |}
              ∈ secciones_texto_de doc) as Hs2
      by (apply elem_of_secciones; eauto).
    apply list_elem_of_lookup in Hs1 as [i Hi].
    apply list_elem_of_lookup in Hs2 as [j Hj].
    eexists. split.
    + apply elem_of_casos_plagio.
      exists i, j, {| sec_folio := n1 + 1; sec_texto := strip t1 |},
             {| sec_folio := n2 + 1; sec_texto := strip t2 |}.
      split_and!; [|exact Hi|exact Hj| |reflexivity].
      * apply (secciones_orden doc i j _ _ Hi Hj). simpl. lia.
      * by apply Qle_bool_iff.
    + done.
Qed.

Lemma folios_plagio_vacio (casos : list CasoPlagio) :
  length (list_set (map folio_1 casos ++ map folio_2 casos)) = 0 ↔
  length casos = 0.
Proof.
  unfold list_set. split.
  - intros E. destruct casos as [|c casos']; [done|]. exfalso.
    apply length_zero_iff_nil in E.
    assert (folio_1 c ∈ elements (list_to_set
              (map folio_1 (c :: casos') ++ map folio_2 (c :: casos')) : gset nat))
      as Hin by (apply elem_of_elements, elem_of_list_to_set; simpl; left).
    rewrite E in Hin. by apply elem_of_nil in Hin.
  - intros E. destruct casos; [done|done].
Qed.

(** X1.  The similarity check returns on every document.  Its status is
    APROBADO when no pair of pages reaches the threshold and OBSERVADO
    otherwise; a page is affected exactly when it belongs to a pair of pages,
    both with more than 100 characters once trimmed, whose trimmed texts,
    the earlier page first, have a ratio of at least the threshold; no page
    is listed twice. *)
Theorem verificar_plagio_spec (doc : documento)
    (rs : list ResultadoVerificacion) :
  ∃ r, _verificar_plagio config doc rs = Ok (rs ++ [r]) ∧
    (∀ k, k ∈ folios_afectados r ↔
       ∃ n1 n2 t1 t2,
         n1 < n2 ∧ doc !! n1 = Some (Texto t1) ∧ doc !! n2 = Some (Texto t2) ∧
         100 < length (strip t1) ∧ 100 < length (strip t2) ∧
         (umbral_plagio config <= _calcular_similitud (strip t1) (strip t2))%Q ∧
         (k = n1 + 1 ∨ k = n2 + 1)) ∧
    NoDup (folios_afectados r) ∧
    estado r = (if length (folios_afectados r) =? 0
                then "APROBADO" else "OBSERVADO").
Proof.
  destruct (verificar_plagio_resultado doc rs) as (r & Hr & _ & Hest & Haf & _).
  exists r. split; [done|]. rewrite Haf, Hest.
  split_and!.
  - apply elem_of_folios_plagio.
  - unfold list_set. apply NoDup_elements.
  - pose proof (folios_plagio_vacio
                  (casos_plagio_de config (secciones_texto_de doc))) as Hv.
    destruct (Nat.eqb_spec (length (casos_plagio_de config
                                      (secciones_texto_de doc))) 0) as [E|E],
             (Nat.eqb_spec (length (list_set
                (map folio_1 (casos_plagio_de config (secciones_texto_de doc))
                 ++ map folio_2 (casos_plagio_de config (secciones_texto_de doc)))))
                0) as [E'|E']; try done.
    + by apply Hv in E.
    + by apply Hv in E'.
Qed.

(** X2.  With a threshold of at most 1, two pages whose trimmed texts are
    equal and longer than 100 characters are both reported, and the status is
    OBSERVADO. *)
Theorem plagio_hojas_iguales (doc : documento) (rs : list ResultadoVerificacion)
    (n1 n2 : nat) (t1 t2 : str) :
  n1 < n2 → doc !! n1 = Some (Texto t1) → doc !! n2 = Some (Texto t2) →
  strip t1 = strip t2 → 100 < length (strip t1) →
  (umbral_plagio config <= 1)%Q →
  ∃ r, _verificar_plagio config doc rs = Ok (rs ++ [r]) ∧
       n1 + 1 ∈ folios_afectados r ∧ n2 + 1 ∈ folios_afectados r ∧
       estado r = "OBSERVADO".
Proof.
  intros Hn H1 H2 Heq Hlen Hu.
  destruct (verificar_plagio_resultado doc rs) as (r & Hr & _ & Hest & Haf & _).
  exists r. split; [done|].
  assert (∀ k, k = n1 + 1 ∨ k = n2 + 1 → k ∈ folios_afectados r) as Hin.
  { intros k Hk. rewrite Haf. apply elem_of_folios_plagio.
    exists n1, n2, t1, t2. split_and!; try done; [by rewrite <- Heq|].
    rewrite <- Heq. unfold _calcular_similitud.
    by rewrite ReflexiveFacts.ratio_self. }
  split_and!; [apply Hin; by left | apply Hin; by right |].
  rewrite Hest.
  destruct (Nat.eqb_spec (length (casos_plagio_de config
                                    (secciones_texto_de doc))) 0) as [E|E]; [|done].
  apply folios_plagio_vacio in E. rewrite <- Haf in E.
  apply length_zero_iff_nil in E. specialize (Hin (n1 + 1) ltac:(by left)).
  rewrite E in Hin. by apply elem_of_nil in Hin.
Qed.

(** X3.  With n pages long enough to be compared there are at most
    n (n - 1) / 2 cases and the percentage of the similarity check is at
    most 100; with no such page it is 100, and with n >= 1 of them it is at
    least 100 - 50 (n - 1). *)
Theorem plagio_porcentaje_cotas (doc : documento)
    (rs : list ResultadoVerificacion) :
  ∃ r, _verificar_plagio config doc rs = Ok (rs ++ [r]) ∧
    2 * length (casos_plagio_de config (secciones_texto_de doc))
      + length (secciones_texto_de doc)
      ≤ length (secciones_texto_de doc) * length (secciones_texto_de doc) ∧
    (porcentaje_cumplimiento r <= 100)%Q ∧
    (length (secciones_texto_de doc) = 0 →
     (porcentaje_cumplimiento r == 100)%Q) ∧
    (1 ≤ length (secciones_texto_de doc) →
     (100 - 50 * (qnat (length (secciones_texto_de doc)) - 1)
      <= porcentaje_cumplimiento r)%Q).
Proof.
  destruct (verificar_plagio_resultado doc rs) as (r & Hr & _ & _ & _ & Hp).
  exists r. split; [done|]. rewrite Hp.
  pose proof (length_casos_plagio (secciones_texto_de doc)) as Hc.
  set (c := length (casos_plagio_de config (secciones_texto_de doc))) in *.
  set (n := length (secciones_texto_de doc)) in *.
  split; [destruct n; simpl in *; nia|].
  unfold qnat, Qeq, Qle, Qminus, Qplus, Qopp, Qdiv, Qmult, Qinv, inject_Z. simpl.
  destruct (Z.of_nat (n `max` 1)) as [|p|p] eqn:Ep; [lia| |lia]. simpl.
  assert ((2 * Z.of_nat c ≤ Z.pos p * (Z.of_nat n - 1))%Z ∨ n = 0) as Hz.
  { destruct n as [|n']; [by right|]. left. rewrite <- Ep.
    rewrite Nat.max_l by lia. nia. }
  split_and!.
  - nia.
  - intros ->. assert (c = 0) as -> by (simpl in Hc; lia). simpl in Ep. lia.
  - intros Hn. destruct Hz as [Hz|Hz]; [|lia]. nia.
Qed.
End Plagio.

(** X4.  The ratio of two texts is a number between 0 and 1. *)
Theorem calcular_similitud_rango (texto1 texto2 : str) :
  (0 <= _calcular_similitud texto1 texto2
   ∧ _calcular_similitud texto1 texto2 <= 1)%Q.
Proof. apply DifflibRange.ratio_rango. Qed.

Lemma imap_take {A B} (f : nat → A → B) (k : nat) (l : list A) :
  take k (imap f l) = imap f (take k l).
Proof.
  revert f k. induction l as [|x l IH]; intros f k; [by destruct k|].
  destruct k as [|k]; [done|]. simpl. by rewrite IH.
Qed.

Section Ortografia.
Context `{Unicode} `{Entorno}.
Variable config : Config.

Lemma errores_cuerpo (tool : LanguageTool) (n : nat) (p : Pagina)
    (x : ErroresFolio) :
  match p with
  | Texto texto =>
      if 0 <? length (strip texto) then
        match check tool texto with
        | Ok matches =>
            if 0 <? length matches
            then Some {| err_folio := n + 1;
                         cantidad_errores := length matches;
                         ejemplos := map (take 80) (take 3 matches) |}
            else None
        | Raise _ => None
        end
      else None
  | ErrorExtraccion _ => None
  end = Some x ↔
  ∃ t ms, p = Texto t ∧ 0 < length (strip t) ∧ check tool t = Ok ms ∧
          0 < length ms ∧
          x = {| err_folio := n + 1; cantidad_errores := length ms;
                 ejemplos := map (take 80) (take 3 ms) |}.
Proof.
  destruct p as [t|e].
  - destruct (Nat.ltb_spec 0 (length (strip t))) as [Hlt|Hge].
    + destruct (check tool t) as [ms|e] eqn:Ec.
      * destruct (Nat.ltb_spec 0 (length ms)) as [Hm|Hm]; split.
        -- intros [= <-]. exists t, ms. eauto.
        -- intros (t' & ms' & [= <-] & _ & Hc' & _ & ->).
           rewrite Ec in Hc'. by injection Hc' as <-.
        -- done.
        -- intros (t' & ms' & [= <-] & _ & Hc' & ? & _).
           rewrite Ec in Hc'. injection Hc' as <-. lia.
      * split; [done|]. intros (t' & ms' & [= <-] & _ & Hc' & _).
        by rewrite Ec in Hc'.
    + split; [done|]. intros (t' & ms' & [= <-] & ? & _). lia.
  - split; [done|]. by intros (t' & ms' & ? & _).
Qed.

Lemma errores_por_folio_take (doc : documento) (tool : LanguageTool) :
  errores_por_folio_de doc tool =
  por_cada_folio (take 50 doc) (λ num_pagina pagina,
    match pagina with
    | Texto texto =>
        if 0 <? length (strip texto) then
          match check tool texto with
          | Ok matches =>
              if 0 <? length matches
              then Some {| err_folio := num_pagina + 1;
                           cantidad_errores := length matches;
                           ejemplos := map (take 80) (take 3 matches) |}
              else None
          | Raise _ => None
          end
        else None
    | ErrorExtraccion _ => None
    end).
Proof.
  unfold errores_por_folio_de, por_cada_folio, Difflib.enumerate, total_folios.
  rewrite imap_take. do 2 f_equal.
  destruct (Nat.min_spec (length doc) 50) as [[Hlt ->]|[Hge ->]]; [|done].
  by rewrite !firstn_all2 by lia.
Qed.

(** The pages with spelling matches: among the first 50, those with a text
    that is not blank for which the tool returns at least one match. *)
Lemma elem_of_errores_por_folio (doc : documento) (tool : LanguageTool)
    (x : ErroresFolio) :
  x ∈ errores_por_folio_de doc tool ↔
  ∃ n t ms, n < 50 ∧ doc !! n = Some (Texto t) ∧ 0 < length (strip t) ∧
            check tool t = Ok ms ∧ 0 < length ms ∧
            x = {| err_folio := n + 1; cantidad_errores := length ms;
                   ejemplos := map (take 80) (take 3 ms) |}.
Proof.
  rewrite errores_por_folio_take, elem_of_por_cada_folio. split.
  - intros (n & p & Hl & Hx). apply lookup_take_Some in Hl as [Hl Hn].
    apply errores_cuerpo in Hx as (t & ms & -> & ? & ? & ? & ->).
    exists n, t, ms. eauto 10.
  - intros (n & t & ms & Hn & Hl & ? & ? & ? & ->). exists n, (Texto t). split.
    + apply lookup_take_Some. eauto.
    + apply (errores_cuerpo tool n (Texto t)). eauto 10.
Qed.

Lemma errores_folio (tool : LanguageTool) (n : nat) (p : Pagina)
    (x : ErroresFolio) :
  match p with
  | Texto texto =>
      if 0 <? length (strip texto) then
        match check tool texto with
        | Ok matches =>
            if 0 <? length matches
            then Some {| err_folio := n + 1;
                         cantidad_errores := length matches;
                         ejemplos := map (take 80) (take 3 matches) |}
            else None
        | Raise _ => None
        end
      else None
  | ErrorExtraccion _ => None
  end = Some x → err_folio x = n + 1.
Proof. intros Hx. by apply errores_cuerpo in Hx as (? & ? & _ & _ & _ & _ & ->). Qed.

Lemma total_errores_cero (doc : documento) (tool : LanguageTool) :
  sum_list (map cantidad_errores (errores_por_folio_de doc tool)) = 0 ↔
  errores_por_folio_de doc tool = [].
Proof.
  split; [|by intros ->].
  destruct (errores_por_folio_de doc tool) as [|x l] eqn:E; [done|].
  assert (x ∈ errores_por_folio_de doc tool) as Hx by (rewrite E; left).
  apply elem_of_errores_por_folio in Hx as (n & t & ms & _ & _ & _ & _ & Hm & ->).
  simpl. lia.
Qed.

(** X5.  The spelling check never raises.  When the grammar tool cannot be
    started, when closing it fails, or when the document has no page, the
    result is NO PROCESADO, with percentage 0, no affected page and the text
    of the exception as its only detail. *)
Theorem verificar_ortografia_no_procesado (doc : documento)
    (rs : list ResultadoVerificacion) (e : excepcion) :
  nuevo_LanguageTool (idioma_ortografia config) = Raise e ∨
  (∃ tool, nuevo_LanguageTool (idioma_ortografia config) = Ok tool ∧
           close tool = Raise e) ∨
  (∃ tool, nuevo_LanguageTool (idioma_ortografia config) = Ok tool ∧
           close tool = Ok tt ∧ doc = [] ∧ e = ZeroDivisionError) →
  _verificar_ortografia config doc rs =
    Ok (rs ++ [{| tipo_verificacion := "1.3 Verificación Ortográfica";
                  estado := "NO PROCESADO";
                  detalles := [Detalle "No se pudo completar la verificación: {}"
                                 [VStr (str_excepcion e)]];
                  porcentaje_cumplimiento := 0;
                  folios_afectados := [] |}]).
Proof.
  unfold _verificar_ortografia, try_except.
  intros [Hn|[(tool & Hn & Hc)|(tool & Hn & Hc & -> & ->)]]; rewrite Hn; simpl.
  - done.
  - by rewrite Hc.
  - by rewrite Hc.
Qed.

End Ortografia.

Section DuplicadosOriginal.
Context `{Entorno}.

Lemma primera_snoc (doc : documento) (p : Pagina) (i : nat) (h : string) :
  i < length doc →
  (∀ i' t', i' < i → doc !! i' = Some (Texto t') → md5_hexdigest t' ≠ h) →
  ∀ i' t', i' < i → (doc ++ [p]) !! i' = Some (Texto t') → md5_hexdigest t' ≠ h.
Proof.
  intros Hi Hp i' t' Hi' Hl. apply (Hp i' t' Hi').
  by rewrite lookup_app_l in Hl by lia.
Qed.

(** After the loop: the dictionary sends a hash to the first page that has
    it, and every duplicate is paired with that page. *)
Lemma duplicados_originales (doc : documento) :
  let st := fold_left paso_duplicados (Difflib.enumerate doc) (∅, []) in
  (∀ h k, st.1 !! h = Some k →
     ∃ i t, k = i + 1 ∧ doc !! i = Some (Texto t) ∧ md5_hexdigest t = h ∧
       ∀ i' t', i' < i → doc !! i' = Some (Texto t') → md5_hexdigest t' ≠ h) ∧
  (∀ d, d ∈ st.2 →
     ∃ i j t t', folio_original d = i + 1 ∧ folio_duplicado d = j + 1 ∧ i < j ∧
       doc !! i = Some (Texto t) ∧ doc !! j = Some (Texto t') ∧
       md5_hexdigest t = md5_hexdigest t' ∧
       ∀ i' t'', i' < i → doc !! i' = Some (Texto t'') →
                 md5_hexdigest t'' ≠ md5_hexdigest t).
Proof.
  induction doc as [|p doc IH] using rev_ind.
  - simpl. split.
    + intros h k. by rewrite lookup_empty.
    + intros d Hd. by apply elem_of_nil in Hd.
  - rewrite duplicados_snoc. cbv zeta in IH.
    destruct (duplicados_inv doc) as (IA & _ & _).
    destruct (fold_left paso_duplicados (Difflib.enumerate doc) (∅, []))
      as [hashes dups]. simpl in IH, IA. destruct IH as (ID & IE).
    assert (∀ h k, hashes !! h = Some k →
              ∃ i t, k = i + 1 ∧ (doc ++ [p]) !! i = Some (Texto t) ∧
                md5_hexdigest t = h ∧
                ∀ i' t', i' < i → (doc ++ [p]) !! i' = Some (Texto t') →
                         md5_hexdigest t' ≠ h) as ID'.
    { intros h k Hk. apply ID in Hk as (i & t & -> & Hl & Hh & Hp).
      exists i, t. split_and!; [done|by apply lookup_app_l_Some|done|].
      apply primera_snoc; [by apply lookup_lt_Some in Hl|done]. }
    assert (∀ d, d ∈ dups →
              ∃ i j t t', folio_original d = i + 1 ∧ folio_duplicado d = j + 1 ∧
                i < j ∧ (doc ++ [p]) !! i = Some (Texto t) ∧
                (doc ++ [p]) !! j = Some (Texto t') ∧
                md5_hexdigest t = md5_hexdigest t' ∧
                ∀ i' t'', i' < i → (doc ++ [p]) !! i' = Some (Texto t'') →
                          md5_hexdigest t'' ≠ md5_hexdigest t) as IE'.
    { intros d Hd. apply IE in Hd as (i & j & t & t' & ? & ? & ? & Hi & Hj & ? & Hp).
      exists i, j, t, t'.
      split_and!; [done|done|done|by apply lookup_app_l_Some
                  |by apply lookup_app_l_Some|done|].
      apply primera_snoc; [by apply lookup_lt_Some in Hi|done]. }
    unfold paso_duplicados. cbn [fst snd]. destruct p as [t|e]; [|done].
    destruct (hashes !! md5_hexdigest t) as [orig|] eqn:Eh; cbn [fst snd].
    + split; [done|]. intros d Hd. apply elem_of_app in Hd as [Hd|Hd]; [eauto|].
      apply list_elem_of_singleton in Hd as ->. simpl.
      apply ID in Eh as (i & t0 & -> & Hl & Hh & Hp).
      pose proof (lookup_lt_Some _ _ _ Hl) as Hi.
      exists i, (length doc), t0, t.
      split_and!; [done|done|done|by apply lookup_app_l_Some
                  |by apply list_lookup_middle|done|].
      rewrite Hh. by apply primera_snoc.
    + split; [|done]. intros h k. rewrite lookup_insert. case_decide as Hd.
      * intros [= <-]. subst h. exists (length doc), t.
        split_and!; [done|by apply list_lookup_middle|done|].
        intros i' t' Hi' Hl. rewrite lookup_app_l in Hl by done.
        intros Hh. assert (is_Some (hashes !! md5_hexdigest t)) as [? Hs].
        { apply IA. eauto. }
        by rewrite Eh in Hs.
      * eauto.
Qed.
End DuplicadosOriginal.

Section DuplicadosPares.
Context `{Entorno}.

(** X7.  Every duplicate the check reports is paired with the first page
    that has the same hash, and that page comes before the duplicate. *)
Theorem duplicados_con_original (doc : documento) (d : Duplicado) :
  d ∈ duplicados_de doc →
  ∃ i j t t', folio_original d = i + 1 ∧ folio_duplicado d = j + 1 ∧ i < j ∧
    doc !! i = Some (Texto t) ∧ doc !! j = Some (Texto t') ∧
    md5_hexdigest t = md5_hexdigest t' ∧
    ∀ i' t'', i' < i → doc !! i' = Some (Texto t'') →
              md5_hexdigest t'' ≠ md5_hexdigest t.
Proof.
  destruct (duplicados_originales doc) as [_ IE]. apply IE.
Qed.
End DuplicadosPares.

Section Resultados.
Context `{Unicode} `{Entorno}.
Variable config : Config.

Lemma verificar_hojas_blanco_resultado (doc : documento) rs :
  doc ≠ [] →
  ∃ r, _verificar_hojas_blanco doc rs = Ok (rs ++ [r]) ∧
       tipo_verificacion r = "1.1 Hojas en Blanco" ∧
       estado r = (if length (hojas_blanco_de doc) =? 0
                   then "APROBADO" else "OBSERVADO") ∧
       folios_afectados r = hojas_blanco_de doc.
Proof.
  intros Hdoc. unfold _verificar_hojas_blanco, total_folios.
  rewrite truediv_ok by by apply total_no_cero. eauto.
Qed.

Lemma verificar_foliacion_resultado (doc : documento) rs :
  doc ≠ [] →
  ∃ r, _verificar_foliacion doc rs = Ok (rs ++ [r]) ∧
       tipo_verificacion r = "1.2 Foliación Correlativa" ∧
       (∃ b : bool, estado r = if length (folios_incorrectos_de doc) =? 0
                                then "APROBADO"
                                else if b then "OBSERVADO" else "RECHAZADO") ∧
       folios_afectados r = map inc_pagina (folios_incorrectos_de doc).
Proof.
  intros Hdoc. unfold _verificar_foliacion, total_folios.
  destruct (if _ =? 0 then _ else _) as [est det] eqn:E.
  rewrite truediv_ok by by apply total_no_cero.
  eexists. split_and!; [reflexivity|done| |done]. simpl.
  destruct (_ =? 0); [injection E as <- _; by exists true|].
  destruct (Qle_bool _ _) eqn:Eb; injection E as <- _;
    [by exists true | by exists false].
Qed.

Lemma verificar_folios_duplicados_resultado (doc : documento) rs :
  doc ≠ [] →
  ∃ r, _verificar_folios_duplicados doc rs = Ok (rs ++ [r]) ∧
       tipo_verificacion r = "1.2 Folios Duplicados" ∧
       estado r = (if length (duplicados_de doc) =? 0
                   then "APROBADO" else "RECHAZADO") ∧
       folios_afectados r = map folio_duplicado (duplicados_de doc).
Proof.
  intros Hdoc. unfold _verificar_folios_duplicados, total_folios.
  destruct (if _ =? 0 then _ else _) as [est det] eqn:E.
  rewrite truediv_ok by by apply total_no_cero.
  eexists. split_and!; [reflexivity|done| |done]. simpl.
  destruct (_ =? 0); by injection E as <- _.
Qed.

Lemma verificar_ilegibilidad_resultado (doc : documento) rs :
  doc ≠ [] →
  ∃ r, _verificar_ilegibilidad config doc rs = Ok (rs ++ [r]) ∧
       tipo_verificacion r = "1.3 Ilegibilidad de Información" ∧
       (∃ b : bool, estado r = if length (folios_ilegibles_de config doc) =? 0
                                then "APROBADO"
                                else if b then "OBSERVADO" else "RECHAZADO") ∧
       folios_afectados r = map ileg_folio (folios_ilegibles_de config doc).
Proof.
  intros Hdoc. unfold _verificar_ilegibilidad, total_folios.
  destruct (if _ =? 0 then _ else _) as [est det] eqn:E.
  rewrite truediv_ok by by apply total_no_cero.
  eexists. split_and!; [reflexivity|done| |done]. simpl.
  destruct (_ =? 0); [injection E as <- _; by exists true|].
  destruct (Qle_bool _ _) eqn:Eb; injection E as <- _;
    [by exists true | by exists false].
Qed.

Lemma verificar_ortografia_resultado (doc : documento) rs :
  ∃ r, _verificar_ortografia config doc rs = Ok (rs ++ [r]) ∧
       tipo_verificacion r = "1.3 Verificación Ortográfica" ∧
       (estado r = "APROBADO" ∨ estado r = "OBSERVADO" ∨ estado r = "RECHAZADO"
        ∨ estado r = "NO PROCESADO") ∧
       (∀ k, k ∈ folios_afectados r → 1 ≤ k ≤ length doc).
Proof.
  unfold _verificar_ortografia, try_except.
  destruct (nuevo_LanguageTool (idioma_ortografia config)) as [tool|e]; simpl.
  2: { eexists. split_and!; [reflexivity|done|auto 10|].
       intros k Hk. by apply elem_of_nil in Hk. }
  destruct (close tool) as [[]|e]; simpl.
  2: { eexists. split_and!; [reflexivity|done|auto 10|].
       intros k Hk. by apply elem_of_nil in Hk. }
  destruct (if _ =? 0 then _ else _) as [est det] eqn:E.
  destruct (truediv _ _) as [q|e]; simpl.
  2: { eexists. split_and!; [reflexivity|done|auto 10|].
       intros k Hk. by apply elem_of_nil in Hk. }
  eexists. split_and!; [reflexivity|done| |].
  - simpl. destruct (_ =? 0); [injection E as <- _; auto|].
    destruct (_ <=? _); injection E as <- _; auto.
  - simpl. intros k Hk. change (map err_folio ?l) with (err_folio <$> l) in Hk.
    apply list_elem_of_fmap in Hk as (x & -> & Hx).
    apply elem_of_errores_por_folio in Hx as (n & t & ms & _ & Hl & _ & _ & _ & ->).
    apply lookup_lt_Some in Hl. simpl. lia.
Qed.

(** The pages a check of the document can report are pages of the
    document. *)
Lemma folios_en_rango (doc : documento) (k : nat) :
  k ∈ hojas_blanco_de doc ∨
  k ∈ map inc_pagina (folios_incorrectos_de doc) ∨
  k ∈ map folio_duplicado (duplicados_de doc) ∨
  k ∈ map ileg_folio (folios_ilegibles_de config doc) ∨
  k ∈ list_set (map folio_1 (casos_plagio_de config (secciones_texto_de doc))
                ++ map folio_2 (casos_plagio_de config (secciones_texto_de doc))) →
  1 ≤ k ≤ length doc.
Proof.
  intros [Hk|[Hk|[Hk|[Hk|Hk]]]].
  - unfold hojas_blanco_de in Hk. rewrite <- (map_id (por_cada_folio doc _)) in Hk.
    apply elem_of_folios in Hk as (n & p & x & -> & Hl & _).
    + apply lookup_lt_Some in Hl. lia.
    + intros n [t|e] x; [|done]. destruct (_ <? _); [|done]. by intros [= <-].
  - apply elem_of_folios in Hk as (n & p & x & -> & Hl & _).
    + apply lookup_lt_Some in Hl. lia.
    + intros n p x Hx. by apply folios_incorrectos_cuerpo in Hx as [? _].
  - destruct (duplicados_inv doc) as (_ & IB & _).
    fold (duplicados_de doc) in IB. apply IB in Hk as (j & t & -> & Hl & _).
    apply lookup_lt_Some in Hl. lia.
  - apply (elem_of_folios _ _ (folios_ilegibles_folio config)) in Hk
      as (n & p & x & -> & Hl & _).
    apply lookup_lt_Some in Hl. lia.
  - apply elem_of_folios_plagio in Hk
      as (n1 & n2 & t1 & t2 & _ & H1 & H2 & _ & _ & _ & [-> | ->]).
    + apply lookup_lt_Some in H1. lia.
    + apply lookup_lt_Some in H2. lia.
Qed.

(** What the run appends, check by check. *)
Lemma verificaciones_resultados (doc : documento) (ruta : string) :
  doc ≠ [] →
  ∃ r1 r2 r3 r4 r5 cola,
    verificaciones config doc ruta [] =
      Ok (_preparar_resultados config doc ruta ([r1; r2; r3; r4; r5] ++ cola)) ∧
    (estado r1 = (if length (hojas_blanco_de doc) =? 0
                  then "APROBADO" else "OBSERVADO") ∧
     folios_afectados r1 = hojas_blanco_de doc) ∧
    ((∃ b : bool, estado r2 = if length (folios_incorrectos_de doc) =? 0
                               then "APROBADO"
                               else if b then "OBSERVADO" else "RECHAZADO") ∧
     folios_afectados r2 = map inc_pagina (folios_incorrectos_de doc)) ∧
    (estado r3 = (if length (duplicados_de doc) =? 0
                  then "APROBADO" else "RECHAZADO") ∧
     folios_afectados r3 = map folio_duplicado (duplicados_de doc)) ∧
    ((∃ b : bool, estado r4 = if length (folios_ilegibles_de config doc) =? 0
                               then "APROBADO"
                               else if b then "OBSERVADO" else "RECHAZADO") ∧
     folios_afectados r4 = map ileg_folio (folios_ilegibles_de config doc)) ∧
    (estado r5 = (if length (casos_plagio_de config (secciones_texto_de doc)) =? 0
                  then "APROBADO" else "OBSERVADO") ∧
     folios_afectados r5 =
       list_set (map folio_1 (casos_plagio_de config (secciones_texto_de doc))
                 ++ map folio_2 (casos_plagio_de config (secciones_texto_de doc)))) ∧
    (cola = [] ∨
     ∃ r6, cola = [r6] ∧
       (estado r6 = "APROBADO" ∨ estado r6 = "OBSERVADO" ∨ estado r6 = "RECHAZADO"
        ∨ estado r6 = "NO PROCESADO") ∧
       (∀ k, k ∈ folios_afectados r6 → 1 ≤ k ≤ length doc)) ∧
    map tipo_verificacion ([r1; r2; r3; r4; r5] ++ cola) =
      ["1.1 Hojas en Blanco"; "1.2 Foliación Correlativa";
       "1.2 Folios Duplicados"; "1.3 Ilegibilidad de Información";
       "1.3 Verificación de Plagio"]
      ++ (if verificar_ortografia config
          then ["1.3 Verificación Ortográfica"] else []).
Proof.
  intros Hdoc. unfold verificaciones.
  destruct (verificar_hojas_blanco_resultado doc [] Hdoc) as (r1 & -> & T1 & E1 & A1).
  simpl.
  destruct (verificar_foliacion_resultado doc [r1] Hdoc) as (r2 & -> & T2 & E2 & A2).
  simpl.
  destruct (verificar_folios_duplicados_resultado doc [r1; r2] Hdoc)
    as (r3 & -> & T3 & E3 & A3). simpl.
  destruct (verificar_ilegibilidad_resultado doc [r1; r2; r3] Hdoc)
    as (r4 & -> & T4 & E4 & A4). simpl.
  destruct (verificar_plagio_resultado config doc [r1; r2; r3; r4])
    as (r5 & -> & T5 & E5 & A5 & _). simpl.
  destruct (verificar_ortografia config).
  - destruct (verificar_ortografia_resultado doc [r1; r2; r3; r4; r5])
      as (r6 & -> & T6 & E6 & A6). simpl.
    exists r1, r2, r3, r4, r5, [r6].
    split_and!; try done; [right; eauto | simpl; congruence].
  - simpl. exists r1, r2, r3, r4, r5, [].
    split_and!; try done; [by left | simpl; congruence].
Qed.
End Resultados.

Section Corrida.
Context `{Unicode} `{Entorno}.
Variable config : Config.

Lemma corrida_resultados (ruta : string) (doc : documento) :
  PdfReader ruta = Ok doc →
  ejecutar_verificacion_completa config ruta = verificaciones config doc ruta [].
Proof.
  intros Hload. unfold ejecutar_verificacion_completa, _cargar_documento.
  by rewrite Hload.
Qed.

Lemma estado_global_admisible (rs : list ResultadoVerificacion) :
  _determinar_estado_global rs = "ADMISIBLE" ↔
  Forall (λ r, estado r ≠ "RECHAZADO" ∧ estado r ≠ "OBSERVADO") rs.
Proof.
  unfold _determinar_estado_global. rewrite !contar_existsb.
  induction rs as [|r rs IH]; [by split|]. simpl.
  rewrite Forall_cons.
  destruct (String.eqb_spec (estado r) "RECHAZADO") as [Hr|Hr]; simpl.
  { split; [done|]. by intros [[? _] _]. }
  destruct (existsb _ rs) eqn:ER.
  { split; [done|]. intros [_ Hrs]. by apply IH in Hrs. }
  destruct (String.eqb_spec (estado r) "OBSERVADO") as [Ho|Ho]; simpl.
  { split; [done|]. by intros [[_ ?] _]. }
  rewrite IH. tauto.
Qed.

Lemma contar_suma (rs : list ResultadoVerificacion) :
  Forall (λ r, estado r = "APROBADO" ∨ estado r = "OBSERVADO" ∨
               estado r = "RECHAZADO" ∨ estado r = "NO PROCESADO") rs →
  contar "APROBADO" rs + contar "OBSERVADO" rs + contar "RECHAZADO" rs
  + contar "NO PROCESADO" rs = length rs.
Proof.
  unfold contar. induction 1 as [|r rs Hr _ IH]; [done|]. simpl.
  destruct Hr as [-> | [-> | [-> | ->]]]; simpl; lia.
Qed.

Lemma contar_cero (e : string) (rs : list ResultadoVerificacion) :
  Forall (λ r, estado r ≠ e) rs → contar e rs = 0.
Proof.
  unfold contar. induction 1 as [|r rs Hr _ IH]; [done|]. simpl.
  by destruct (String.eqb_spec (estado r) e).
Qed.

Lemma contar_app (e : string) (l1 l2 : list ResultadoVerificacion) :
  contar e (l1 ++ l2) = contar e l1 + contar e l2.
Proof. unfold contar. by rewrite List.filter_app, length_app. Qed.

Lemma contar_le (e : string) (rs : list ResultadoVerificacion) :
  contar e rs ≤ length rs.
Proof. unfold contar. apply List.filter_length_le. Qed.

Lemma estado_dos (l : nat) (a b : string) (e : string) :
  e = (if l =? 0 then a else b) → e = a ∨ e = b.
Proof. destruct (l =? 0); auto. Qed.

Lemma estado_tres (l : nat) (c : bool) (e : string) :
  e = (if l =? 0 then "APROBADO" else if c then "OBSERVADO" else "RECHAZADO") →
  e = "APROBADO" ∨ e = "OBSERVADO" ∨ e = "RECHAZADO".
Proof. destruct (l =? 0), c; auto. Qed.

Lemma sin_hallazgo_dos {A} (l : list A) (b : string) :
  b = "OBSERVADO" ∨ b = "RECHAZADO" →
  ((if length l =? 0 then "APROBADO" else b) ≠ "RECHAZADO" ∧
   (if length l =? 0 then "APROBADO" else b) ≠ "OBSERVADO") ↔ l = [].
Proof.
  intros Hb. destruct l as [|x l]; simpl; [by split|].
  split; [|done]. by intros [? ?]; destruct Hb.
Qed.

(** X8.  The run raises exactly when the reader returns a document without
    pages, and then what it raises is ZeroDivisionError; when the reader
    fails, the run returns the error report, whose only result is the
    RECHAZADO result of the loading step. *)
Theorem ejecutar_verificacion_completa_excepcion (ruta : string) :
  (∀ e, ejecutar_verificacion_completa config ruta = Raise e ↔
        PdfReader ruta = Ok [] ∧ e = ZeroDivisionError) ∧
  (∀ err, PdfReader ruta = Raise err →
     ejecutar_verificacion_completa config ruta =
       Ok (InformeError ruta (ahora (formato_fecha config))
             "No se pudo procesar el documento"
             [{| tipo_verificacion := "Carga de Documento";
                 estado := "RECHAZADO";
                 detalles := [Detalle "Error al cargar documento: {}"
                                [VStr (str_excepcion err)]];
                 porcentaje_cumplimiento := 0;
                 folios_afectados := [] |}])).
Proof.
  split.
  - intros e. destruct (PdfReader ruta) as [doc|err] eqn:Hload.
    + rewrite (corrida_resultados ruta doc Hload).
      destruct doc as [|p doc].
      * change (verificaciones config [] ruta []) with
          (Raise ZeroDivisionError : salida Informe).
        split; [by intros [= <-] | by intros [_ ->]].
      * destruct (verificaciones_resultados config (p :: doc) ruta)
          as (r1 & r2 & r3 & r4 & r5 & cola & -> & _); [done|].
        split; [done | by intros [[=] _]].
    + unfold ejecutar_verificacion_completa, _cargar_documento.
      rewrite Hload. split; [done | by intros [[=] _]].
  - intros err Hload. unfold ejecutar_verificacion_completa, _cargar_documento.
    by rewrite Hload.
Qed.

(** X9.  In the report of a run every page number listed as affected, by
    whichever check, is the number of a page of the document: between 1
    and the number of pages. *)
Theorem folios_afectados_en_rango (ruta : string) (doc : documento) :
  PdfReader ruta = Ok doc → doc ≠ [] →
  ∃ resumen resultados,
    ejecutar_verificacion_completa config ruta =
      Ok (InformeCompleto ruta (ahora (formato_fecha config)) (length doc)
            resumen resultados) ∧
    ∀ r k, r ∈ resultados → k ∈ folios_afectados r → 1 ≤ k ≤ length doc.
Proof.
  intros Hload Hdoc. rewrite (corrida_resultados ruta doc Hload).
  destruct (verificaciones_resultados config doc ruta Hdoc)
    as (r1 & r2 & r3 & r4 & r5 & cola & -> & [_ A1] & [_ A2] & [_ A3]
        & [_ A4] & [_ A5] & Hcola & _).
  eexists _, _. split; [reflexivity|].
  intros r k Hr Hk. apply elem_of_app in Hr as [Hr|Hr].
  - apply (folios_en_rango config doc k).
    rewrite <- A1, <- A2, <- A3, <- A4, <- A5.
    repeat (apply elem_of_cons in Hr as [-> | Hr]; [tauto|]).
    by apply elem_of_nil in Hr.
  - destruct Hcola as [-> | (r6 & -> & _ & A6)]; [by apply elem_of_nil in Hr|].
    apply list_elem_of_singleton in Hr as ->. by apply A6.
Qed.

(** X10.  The summary of a run counts one result for each check that ran,
    five or six according to the configuration; the approved, observed and
    rejected results add up to that number but for a spelling check that
    could not be carried out, which is counted in none of the three. *)
Theorem resumen_cuentas (ruta : string) (doc : documento) :
  PdfReader ruta = Ok doc → doc ≠ [] →
  ∃ resumen resultados,
    ejecutar_verificacion_completa config ruta =
      Ok (InformeCompleto ruta (ahora (formato_fecha config)) (length doc)
            resumen resultados) ∧
    total_verificaciones resumen = length resultados ∧
    length resultados = (if verificar_ortografia config then 6 else 5) ∧
    aprobados resumen + observados resumen + rechazados resumen
      + contar "NO PROCESADO" resultados = total_verificaciones resumen ∧
    contar "NO PROCESADO" resultados
      = contar "NO PROCESADO" (drop 5 resultados) ∧
    contar "NO PROCESADO" resultados ≤ 1 ∧
    (verificar_ortografia config = false →
     contar "NO PROCESADO" resultados = 0).
Proof.
  intros Hload Hdoc. rewrite (corrida_resultados ruta doc Hload).
  destruct (verificaciones_resultados config doc ruta Hdoc)
    as (r1 & r2 & r3 & r4 & r5 & cola & -> & [E1 _] & [[b2 E2] _] & [E3 _]
        & [[b4 E4] _] & [E5 _] & Hcola & Htipos).
  apply estado_dos in E1, E3, E5. apply estado_tres in E2, E4.
  eexists _, _. split; [reflexivity|]. cbn [total_verificaciones aprobados
    observados rechazados].
  assert (length ([r1; r2; r3; r4; r5] ++ cola)
          = if verificar_ortografia config then 6 else 5) as Hlen.
  { rewrite <- (length_map tipo_verificacion), Htipos.
    by destruct (verificar_ortografia config). }
  assert (contar "NO PROCESADO" [r1; r2; r3; r4; r5] = 0) as Hnp.
  { apply contar_cero. rewrite !Forall_cons, Forall_nil.
    split_and!; [| | | | |done]; intros HE; rewrite HE in *;
      intuition discriminate. }
  split_and!.
  - done.
  - done.
  - apply contar_suma. apply Forall_app. split.
    + rewrite !Forall_cons, Forall_nil. tauto.
    + destruct Hcola as [-> | (r6 & -> & E6 & _)]; [by apply Forall_nil|].
      by rewrite Forall_singleton.
  - by rewrite contar_app, Hnp.
  - rewrite contar_app, Hnp. simpl.
    etrans; [apply contar_le|].
    destruct Hcola as [-> | (r6 & -> & _)]; simpl; lia.
  - intros Hv. rewrite Hv in Hlen. rewrite length_app in Hlen. simpl in Hlen.
    destruct cola; [|simpl in Hlen; lia]. by rewrite contar_app, Hnp.
Qed.

(** X11.  The global status of a run is ADMISIBLE exactly when no check
    found a page to report (no blank page, no page with a wrong number, no
    duplicate, no illegible page, no pair of similar pages) and the
    spelling check, when it runs, is APROBADO or could not be carried
    out. *)
Theorem admisible_sin_hallazgos (ruta : string) (doc : documento) :
  PdfReader ruta = Ok doc → doc ≠ [] →
  ∃ resumen resultados,
    ejecutar_verificacion_completa config ruta =
      Ok (InformeCompleto ruta (ahora (formato_fecha config)) (length doc)
            resumen resultados) ∧
    (estado_global resumen = "ADMISIBLE" ↔
     hojas_blanco_de doc = [] ∧ folios_incorrectos_de doc = [] ∧
     duplicados_de doc = [] ∧ folios_ilegibles_de config doc = [] ∧
     casos_plagio_de config (secciones_texto_de doc) = [] ∧
     ∀ r, r ∈ drop 5 resultados →
          estado r = "APROBADO" ∨ estado r = "NO PROCESADO").
Proof.
  intros Hload Hdoc. rewrite (corrida_resultados ruta doc Hload).
  destruct (verificaciones_resultados config doc ruta Hdoc)
    as (r1 & r2 & r3 & r4 & r5 & cola & -> & [E1 _] & [[b2 E2] _] & [E3 _]
        & [[b4 E4] _] & [E5 _] & Hcola & _).
  eexists _, _. split; [reflexivity|]. cbn [estado_global].
  rewrite estado_global_admisible. cbn [app drop].
  rewrite !Forall_cons, E1, E2, E3, E4, E5.
  assert (Forall (λ r, estado r ≠ "RECHAZADO" ∧ estado r ≠ "OBSERVADO") cola ↔
          ∀ r, r ∈ cola → estado r = "APROBADO" ∨ estado r = "NO PROCESADO")
    as ->.
  { rewrite Forall_forall.
    destruct Hcola as [-> | (r6 & -> & E6 & _)].
    - split; intros _ r Hr; by apply elem_of_nil in Hr.
    - split; intros Hall r Hr; apply list_elem_of_singleton in Hr as ->.
      + destruct (Hall r6) as [? ?]; [by apply list_elem_of_singleton|].
        tauto.
      + destruct (Hall r6) as [-> | ->];
          [by apply list_elem_of_singleton|done|done]. }
  rewrite (sin_hallazgo_dos (hojas_blanco_de doc) "OBSERVADO") by auto.
  rewrite (sin_hallazgo_dos (duplicados_de doc) "RECHAZADO") by auto.
  rewrite (sin_hallazgo_dos (casos_plagio_de config (secciones_texto_de doc))
             "OBSERVADO") by auto.
  rewrite (sin_hallazgo_dos (folios_incorrectos_de doc)
             (if b2 then "OBSERVADO" else "RECHAZADO")) by (destruct b2; auto).
  rewrite (sin_hallazgo_dos (folios_ilegibles_de config doc)
             (if b4 then "OBSERVADO" else "RECHAZADO")) by (destruct b4; auto).
  tauto.
Qed.

(** X12.  A document in which two pages have texts with the same hash is
    never admitted: the run counts a rejected check and gives the global
    status NO ADMISIBLE. *)
Theorem hojas_mismo_hash_no_admisible (ruta : string) (doc : documento)
    (i j : nat) (t t' : str) :
  PdfReader ruta = Ok doc →
  i < j → doc !! i = Some (Texto t) → doc !! j = Some (Texto t') →
  md5_hexdigest t = md5_hexdigest t' →
  ∃ resumen resultados,
    ejecutar_verificacion_completa config ruta =
      Ok (InformeCompleto ruta (ahora (formato_fecha config)) (length doc)
            resumen resultados) ∧
    0 < rechazados resumen ∧
    estado_global resumen = "NO ADMISIBLE".
Proof.
  intros Hload Hij Hi Hj Hhash.
  assert (doc ≠ []) as Hdoc by (by intros ->).
  rewrite (corrida_resultados ruta doc Hload).
  destruct (verificaciones_resultados config doc ruta Hdoc)
    as (r1 & r2 & r3 & r4 & r5 & cola & -> & _ & _ & [E3 _] & _).
  assert (estado r3 = "RECHAZADO") as Hr3.
  { rewrite E3. destruct (duplicados_inv doc) as (_ & IB & _).
    fold (duplicados_de doc) in IB.
    assert (j + 1 ∈ map folio_duplicado (duplicados_de doc)) as Hin.
    { apply IB. exists j, t'. split_and!; [done|done|]. eauto. }
    destruct (duplicados_de doc); [by apply elem_of_nil in Hin|done]. }
  assert (existsb (λ r, String.eqb (estado r) "RECHAZADO")
            ([r1; r2; r3; r4; r5] ++ cola) = true) as Hex.
  { apply existsb_exists. exists r3. split; [simpl; tauto|].
    by apply String.eqb_eq. }
  eexists _, _. split; [reflexivity|]. cbn [rechazados estado_global].
  unfold _determinar_estado_global. rewrite contar_existsb, Hex.
  split; [|done]. apply Nat.ltb_lt. by rewrite contar_existsb.
Qed.
End Corrida.

Section Recomendaciones.

Lemma recomendacion_no_defecto (r : ResultadoVerificacion) (s : string) :
  recomendacion_de r = Some s →
  s ≠ "El documento cumple satisfactoriamente con todos los requisitos".
Proof.
  unfold recomendacion_de.
  repeat (match goal with |- context [if ?b then _ else _] => destruct b end);
    by intros [= <-].
Qed.

Lemma recomendaciones_defecto (inf : Informe) :
  _generar_recomendaciones inf =
    [ "El documento cumple satisfactoriamente con todos los requisitos";
      "Proceder con el siguiente paso del proceso de admisión" ]
  ↔ Forall (λ r, recomendacion_de r = None) (clave_resultados inf).
Proof.
  unfold _generar_recomendaciones.
  induction (clave_resultados inf) as [|r rs IH]; [by split|].
  rewrite Forall_cons. simpl.
  destruct (recomendacion_de r) as [s|] eqn:Er.
  - split; [|by intros [? _]]. intros [= Hs _].
    by apply recomendacion_no_defecto in Er.
  - rewrite <- IH. tauto.
Qed.

Lemma recomendaciones_no_vacias (inf : Informe) : _generar_recomendaciones inf ≠ [].
Proof. unfold _generar_recomendaciones. by destruct (omap _ _). Qed.

Lemma contar_cero_inv (e : string) (rs : list ResultadoVerificacion) :
  contar e rs = 0 → Forall (λ r, estado r ≠ e) rs.
Proof.
  unfold contar. induction rs as [|r rs IH]; [constructor|]. simpl.
  destruct (String.eqb_spec (estado r) e); [done|]. intros Hc.
  constructor; [done | by apply IH].
Qed.
End Recomendaciones.

Section Reporte.
Context `{Unicode} `{Entorno} `{Sistema}.

(** The report of a run on a document with pages can be laid out. *)
Lemma elementos_de_generar_ok (d f : string) (n : nat) (res : Resumen)
    (rs : list ResultadoVerificacion) :
  total_verificaciones res ≠ 0 →
  ∃ els, elementos_de_generar (InformeCompleto d f n res rs) = Ok els.
Proof.
  intros Ht. unfold elementos_de_generar, _generar_encabezado,
    _generar_resumen_ejecutivo, _generar_conclusiones, porcentaje_de.
  cbn [clave_total_folios clave_resumen mbind salida_bind].
  rewrite !truediv_ok by lia. cbn [mbind salida_bind]. eauto.
Qed.

(** X13.  The entry point returns None when the file does not exist.  When
    the file exists but cannot be read, the error report of the run never
    reaches the caller: the generator looks up the number of pages, which
    that report does not have, and the entry point raises KeyError.  When
    the reader returns a document without pages the entry point raises
    ZeroDivisionError. *)
Theorem ejecutar_verificacion_rpa_errores (ruta : string) (salida_reporte : option string) :
  (path_exists ruta = false →
   ejecutar_verificacion_rpa ruta salida_reporte = Ok None) ∧
  (path_exists ruta = true → ∀ err, PdfReader ruta = Raise err →
   ejecutar_verificacion_rpa ruta salida_reporte
     = Raise (KeyError "total_folios")) ∧
  (path_exists ruta = true → PdfReader ruta = Ok [] →
   ejecutar_verificacion_rpa ruta salida_reporte = Raise ZeroDivisionError) ∧
  (∀ d f e rs s,
     generar (InformeError d f e rs) s = Raise (KeyError "total_folios")).
Proof.
  unfold ejecutar_verificacion_rpa. split_and!.
  - by intros ->.
  - intros -> err Hload. cbn [negb].
    unfold ejecutar_verificacion_completa, _cargar_documento. by rewrite Hload.
  - intros -> Hload. cbn [negb].
    unfold ejecutar_verificacion_completa, _cargar_documento. by rewrite Hload.
  - done.
Qed.

(** X14.  When the file exists and the reader returns a document with at
    least one page, the entry point lays the report of the run out without
    an exception of its own; it returns that report when the PDF is built,
    and raises what the build raises otherwise. *)
Theorem ejecutar_verificacion_rpa_informe (ruta salida_reporte : string)
    (doc : documento) :
  path_exists ruta = true → PdfReader ruta = Ok doc → doc ≠ [] →
  ∃ resumen resultados els,
    let informe := InformeCompleto ruta (ahora "%Y-%m-%d %H:%M:%S") (length doc)
                     resumen resultados in
    ejecutar_verificacion_completa _config_default ruta = Ok informe ∧
    length resultados = 6 ∧
    elementos_de_generar informe = Ok els ∧
    ejecutar_verificacion_rpa ruta (Some salida_reporte) =
      match doc_build salida_reporte els with
      | Ok _ => Ok (Some informe)
      | Raise e => Raise e
      end.
Proof.
  intros Hex Hload Hdoc.
  pose proof (corrida_resultados _config_default ruta doc Hload) as Hrun.
  destruct (verificaciones_resultados _config_default doc ruta Hdoc)
    as (r1 & r2 & r3 & r4 & r5 & cola & Hv & _ & _ & _ & _ & _ & _ & Htipos).
  rewrite Hv in Hrun. clear Hv.
  assert (length ([r1; r2; r3; r4; r5] ++ cola) = 6) as Hlen.
  { by rewrite <- (length_map tipo_verificacion), Htipos. }
  set (rs := [r1; r2; r3; r4; r5] ++ cola) in *.
  set (res := {| total_verificaciones := length rs;
                 aprobados := contar "APROBADO" rs;
                 observados := contar "OBSERVADO" rs;
                 rechazados := contar "RECHAZADO" rs;
                 estado_global := _determinar_estado_global rs |}).
  change (ejecutar_verificacion_completa _config_default ruta =
          Ok (InformeCompleto ruta (ahora "%Y-%m-%d %H:%M:%S") (length doc) res rs))
    in Hrun.
  destruct (elementos_de_generar_ok ruta (ahora "%Y-%m-%d %H:%M:%S") (length doc)
              res rs) as [els Hels].
  { unfold res. cbn [total_verificaciones]. lia. }
  exists res, rs, els. cbn zeta.
  split_and!; [exact Hrun | exact Hlen | exact Hels |].
  unfold ejecutar_verificacion_rpa. rewrite Hex. cbn [negb].
  change {| umbral_blanco := 98 # 100; umbral_ilegibilidad := 60 # 100;
            umbral_plagio := 85 # 100; verificar_ortografia := true;
            idioma_ortografia := "es";
            formato_fecha := "%Y-%m-%d %H:%M:%S" |} with _config_default.
  rewrite Hrun. cbn [mbind salida_bind]. unfold generar. rewrite Hels.
  cbn [mbind salida_bind clave_resumen].
  by destruct (doc_build salida_reporte els) as [[]|e].
Qed.

(** X15.  On a complete report the executive summary divides by the number
    of checks: it raises, and then ZeroDivisionError, exactly when the
    summary counts no check. *)
Theorem generar_resumen_ejecutivo_division (d f : string) (n : nat)
    (res : Resumen) (rs : list ResultadoVerificacion) :
  (∀ e, _generar_resumen_ejecutivo (InformeCompleto d f n res rs) = Raise e ↔
        total_verificaciones res = 0 ∧ e = ZeroDivisionError) ∧
  ((∃ els, _generar_resumen_ejecutivo (InformeCompleto d f n res rs) = Ok els)
   ↔ total_verificaciones res ≠ 0).
Proof.
  unfold _generar_resumen_ejecutivo, porcentaje_de.
  cbn [clave_resumen mbind salida_bind].
  destruct (total_verificaciones res) as [|m] eqn:Et.
  - cbn [Z.of_nat]. rewrite !truediv_zero. cbn [mbind salida_bind]. split.
    + intros e. split; [by intros [= <-] | by intros [_ ->]].
    + split; [by intros [els ?] | done].
  - rewrite !truediv_ok by lia. cbn [mbind salida_bind]. split.
    + intros e. split; [done | by intros [? _]].
    + split; [done | eauto].
Qed.
End Reporte.

Section RecomendacionesCorrida.
Context `{Unicode} `{Entorno}.
Variable config : Config.

(** X16.  For the report of a run the recommendations are never empty, and
    they are the two default ones, which say that the document meets every
    requirement, exactly when no check is RECHAZADO, no page is illegible
    and no two pages are similar: blank pages, or an OBSERVADO pagination
    or spelling check, add no recommendation. *)
Theorem recomendaciones_de_la_corrida (ruta : string) (doc : documento) :
  PdfReader ruta = Ok doc → doc ≠ [] →
  ∃ resumen resultados,
    let informe := InformeCompleto ruta (ahora (formato_fecha config))
                     (length doc) resumen resultados in
    ejecutar_verificacion_completa config ruta = Ok informe ∧
    _generar_recomendaciones informe ≠ [] ∧
    (_generar_recomendaciones informe =
       [ "El documento cumple satisfactoriamente con todos los requisitos";
         "Proceder con el siguiente paso del proceso de admisión" ]
     ↔ rechazados resumen = 0 ∧
       folios_ilegibles_de config doc = [] ∧
       casos_plagio_de config (secciones_texto_de doc) = []).
Proof.
  intros Hload Hdoc. rewrite (corrida_resultados config ruta doc Hload).
  destruct (verificaciones_resultados config doc ruta Hdoc)
    as (r1 & r2 & r3 & r4 & r5 & cola & -> & [E1 _] & [[b2 E2] _] & [E3 _]
        & [[b4 E4] _] & [E5 _] & Hcola & Htipos).
  eexists _, _. cbn zeta. split_and!; [reflexivity | apply recomendaciones_no_vacias |].
  rewrite recomendaciones_defecto. cbn [clave_resultados rechazados].
  assert (tipo_verificacion r1 = "1.1 Hojas en Blanco" ∧
          tipo_verificacion r2 = "1.2 Foliación Correlativa" ∧
          tipo_verificacion r3 = "1.2 Folios Duplicados" ∧
          tipo_verificacion r4 = "1.3 Ilegibilidad de Información" ∧
          tipo_verificacion r5 = "1.3 Verificación de Plagio" ∧
          Forall (λ r, tipo_verificacion r = "1.3 Verificación Ortográfica") cola)
    as (T1 & T2 & T3 & T4 & T5 & T6).
  { cbn [map app] in Htipos. injection Htipos as -> -> -> -> -> Hc.
    split_and!; try done.
    destruct Hcola as [-> | (r6 & -> & _)]; [constructor|].
    destruct (verificar_ortografia config); [|done].
    injection Hc as Hc. by apply Forall_singleton. }
  assert (∀ r, tipo_verificacion r = "1.1 Hojas en Blanco" ∨
               tipo_verificacion r = "1.2 Foliación Correlativa" ∨
               tipo_verificacion r = "1.2 Folios Duplicados" ∨
               tipo_verificacion r = "1.3 Verificación Ortográfica" →
               estado r = "APROBADO" ∨ estado r = "OBSERVADO" ∨
               estado r = "RECHAZADO" ∨ estado r = "NO PROCESADO" →
               (recomendacion_de r = None ↔ estado r ≠ "RECHAZADO")) as Hsolo.
  { intros r Ht He. unfold recomendacion_de.
    destruct Ht as [-> | [-> | [-> | ->]]];
      destruct He as [-> | [-> | [-> | ->]]]; by vm_compute. }
  assert (recomendacion_de r4 = None ↔ folios_ilegibles_de config doc = []) as H4.
  { unfold recomendacion_de. rewrite T4, E4.
    destruct (folios_ilegibles_de config doc), b4; by vm_compute. }
  assert (recomendacion_de r5 = None ↔
          casos_plagio_de config (secciones_texto_de doc) = []) as H5.
  { unfold recomendacion_de. rewrite T5, E5.
    destruct (casos_plagio_de config (secciones_texto_de doc)); by vm_compute. }
  assert (folios_ilegibles_de config doc = [] → estado r4 ≠ "RECHAZADO") as H4r.
  { intros Hl. rewrite E4, Hl. done. }
  assert (estado r5 ≠ "RECHAZADO") as H5r.
  { rewrite E5. by destruct (length (casos_plagio_de _ _) =? 0). }
  assert (Forall (λ r, recomendacion_de r = None) cola
          ↔ Forall (λ r, estado r ≠ "RECHAZADO") cola) as Hc.
  { destruct Hcola as [-> | (r6 & -> & E6 & _)]; [by rewrite !Forall_nil|].
    rewrite !Forall_singleton. rewrite Forall_singleton in T6.
    apply Hsolo; [tauto | done]. }
  apply estado_dos in E1, E3. apply estado_tres in E2.
  split.
  - intros Hall. apply Forall_app in Hall as [Hall Hcol].
    rewrite !Forall_cons in Hall. destruct Hall as (N1 & N2 & N3 & N4 & N5 & _).
    apply H4 in N4 as L4. apply H5 in N5. split_and!; [|done|done].
    apply contar_cero. apply Forall_app. split; [|by apply Hc].
    rewrite !Forall_cons, Forall_nil. split_and!; try done.
    + apply Hsolo; [tauto | tauto | done].
    + apply Hsolo; [tauto | tauto | done].
    + apply Hsolo; [tauto | tauto | done].
    + by apply H4r.
  - intros (Hr & L4 & L5). apply contar_cero_inv in Hr.
    apply Forall_app in Hr as [Hr Hcol]. rewrite !Forall_cons in Hr.
    destruct Hr as (N1 & N2 & N3 & N4 & N5 & _).
    apply Forall_app. split; [|by apply Hc].
    rewrite !Forall_cons, Forall_nil. split_and!; try done.
    + apply Hsolo; [tauto | tauto | done].
    + apply Hsolo; [tauto | tauto | done].
    + apply Hsolo; [tauto | tauto | done].
    + by apply H4.
    + by apply H5.
Qed.

(** X17.  Every status the run writes, of a check or of the whole
    document, has a colour of its own in the report: the grey that stands
    for an unknown status is never used. *)
Theorem colores_de_la_corrida (ruta : string) (doc : documento) :
  PdfReader ruta = Ok doc → doc ≠ [] →
  ∃ resumen resultados,
    ejecutar_verificacion_completa config ruta =
      Ok (InformeCompleto ruta (ahora (formato_fecha config)) (length doc)
            resumen resultados) ∧
    (∀ r, r ∈ resultados →
       ∃ hex, _obtener_color_estado (estado r) = HexColor hex) ∧
    ∃ hex, _obtener_color_estado (estado_global resumen) = HexColor hex.
Proof.
  intros Hload Hdoc. rewrite (corrida_resultados config ruta doc Hload).
  destruct (verificaciones_resultados config doc ruta Hdoc)
    as (r1 & r2 & r3 & r4 & r5 & cola & -> & [E1 _] & [[b2 E2] _] & [E3 _]
        & [[b4 E4] _] & [E5 _] & Hcola & _).
  apply estado_dos in E1, E3, E5. apply estado_tres in E2, E4.
  eexists _, _. split_and!; [reflexivity| |].
  - assert (∀ r, estado r = "APROBADO" ∨ estado r = "OBSERVADO" ∨
                 estado r = "RECHAZADO" ∨ estado r = "NO PROCESADO" →
                 ∃ hex, _obtener_color_estado (estado r) = HexColor hex) as Hcol.
    { intros r [-> | [-> | [-> | ->]]]; by eexists. }
    intros r Hr. apply Hcol. apply elem_of_app in Hr as [Hr|Hr].
    + repeat (apply elem_of_cons in Hr as [-> | Hr]; [tauto|]).
      by apply elem_of_nil in Hr.
    + destruct Hcola as [-> | (r6 & -> & E6 & _)]; [by apply elem_of_nil in Hr|].
      by apply list_elem_of_singleton in Hr as ->.
  - cbn [estado_global]. unfold _determinar_estado_global.
    destruct (0 <? _); [by eexists|]. destruct (0 <? _); by eexists.
Qed.
End RecomendacionesCorrida.

(** * The further properties on the example documents *)

Lemma plagio_hojas_iguales_ejemplo :
  ∃ r, @_verificar_plagio unicode_ascii _config_default doc_cuatro_copias []
         = Ok ([] ++ [r]) ∧
       0 + 1 ∈ folios_afectados r ∧ 1 + 1 ∈ folios_afectados r ∧
       estado r = "OBSERVADO".
Proof.
  apply (@plagio_hojas_iguales unicode_ascii _config_default doc_cuatro_copias
           [] 0 1 (repeat 97%N 101) (repeat 97%N 101)).
  - lia.
  - reflexivity.
  - reflexivity.
  - reflexivity.
  - apply Nat.ltb_lt. vm_compute. reflexivity.
  - unfold Qle. simpl. lia.
Defined.

Lemma verificar_ortografia_no_procesado_ejemplo :
  @_verificar_ortografia unicode_ascii (entorno_ejemplo doc_tres) _config_default
    doc_tres [] =
  Ok ([] ++ [{| tipo_verificacion := "1.3 Verificación Ortográfica";
                estado := "NO PROCESADO";
                detalles := [Detalle "No se pudo completar la verificación: {}"
                               [VStr (str_excepcion
                                        (Exception "LanguageTool no disponible"))]];
                porcentaje_cumplimiento := 0;
                folios_afectados := [] |}]).
Proof.
  apply (@verificar_ortografia_no_procesado unicode_ascii (entorno_ejemplo doc_tres)
           _config_default doc_tres [] (Exception "LanguageTool no disponible")).
  left. reflexivity.
Defined.


Lemma duplicados_con_original_ejemplo :
  ∃ i j t t',
    1 = i + 1 ∧ 3 = j + 1 ∧ i < j ∧
    doc_tres_copias !! i = Some (Texto t) ∧
    doc_tres_copias !! j = Some (Texto t') ∧
    @md5_hexdigest (entorno_ejemplo doc_tres_copias) t
      = @md5_hexdigest (entorno_ejemplo doc_tres_copias) t' ∧
    ∀ i' t'', i' < i → doc_tres_copias !! i' = Some (Texto t'') →
      @md5_hexdigest (entorno_ejemplo doc_tres_copias) t''
        ≠ @md5_hexdigest (entorno_ejemplo doc_tres_copias) t.
Proof.
  apply (@duplicados_con_original (entorno_ejemplo doc_tres_copias)
           doc_tres_copias {| folio_original := 1; folio_duplicado := 3 |}).
  apply list_elem_of_In. vm_compute. right. left. reflexivity.
Defined.

Lemma folios_afectados_en_rango_ejemplo :
  @PdfReader (entorno_ejemplo doc_tres) "expediente.pdf" = Ok doc_tres ∧
  doc_tres ≠ [] ∧
  ∃ resumen resultados,
    @ejecutar_verificacion_completa unicode_ascii (entorno_ejemplo doc_tres)
      _config_default "expediente.pdf"
    = Ok (InformeCompleto "expediente.pdf" "2025-01-01 00:00:00" 3
            resumen resultados) ∧
    ∀ r k, r ∈ resultados → k ∈ folios_afectados r → 1 ≤ k ≤ 3.
Proof.
  assert (doc_tres ≠ []) as Hne by discriminate.
  split_and!; [reflexivity | exact Hne |].
  exact (@folios_afectados_en_rango unicode_ascii (entorno_ejemplo doc_tres)
           _config_default "expediente.pdf" doc_tres eq_refl Hne).
Defined.

Lemma resumen_cuentas_ejemplo :
  @PdfReader (entorno_ejemplo doc_tres) "expediente.pdf" = Ok doc_tres ∧
  doc_tres ≠ [] ∧
  ∃ resumen resultados,
    @ejecutar_verificacion_completa unicode_ascii (entorno_ejemplo doc_tres)
      _config_default "expediente.pdf"
    = Ok (InformeCompleto "expediente.pdf" "2025-01-01 00:00:00" 3
            resumen resultados) ∧
    total_verificaciones resumen = 6 ∧
    aprobados resumen + observados resumen + rechazados resumen = 5 ∧
    contar "NO PROCESADO" resultados = 1.
Proof.
  assert (doc_tres ≠ []) as Hne by discriminate.
  split_and!; [reflexivity | exact Hne |].
  destruct (@resumen_cuentas unicode_ascii (entorno_ejemplo doc_tres)
              _config_default "expediente.pdf" doc_tres eq_refl Hne)
    as (resumen & resultados & Hr & _).
  exists resumen, resultados. split; [exact Hr|].
  vm_compute in Hr. injection Hr as <- <-. split_and!; reflexivity.
Defined.

Lemma admisible_sin_hallazgos_ejemplo :
  @PdfReader (entorno_ejemplo doc_tres) "expediente.pdf" = Ok doc_tres ∧
  doc_tres ≠ [] ∧
  ∃ resumen resultados,
    @ejecutar_verificacion_completa unicode_ascii (entorno_ejemplo doc_tres)
      _config_default "expediente.pdf"
    = Ok (InformeCompleto "expediente.pdf" "2025-01-01 00:00:00" 3
            resumen resultados) ∧
    estado_global resumen = "NO ADMISIBLE" ∧
    @hojas_blanco_de unicode_ascii doc_tres = [2].
Proof.
  assert (doc_tres ≠ []) as Hne by discriminate.
  split_and!; [reflexivity | exact Hne |].
  destruct (@admisible_sin_hallazgos unicode_ascii (entorno_ejemplo doc_tres)
              _config_default "expediente.pdf" doc_tres eq_refl Hne)
    as (resumen & resultados & Hr & _).
  exists resumen, resultados. split; [exact Hr|].
  vm_compute in Hr. injection Hr as <- <-. split; reflexivity.
Defined.

Lemma hojas_mismo_hash_no_admisible_ejemplo :
  ∃ resumen resultados,
    @ejecutar_verificacion_completa unicode_ascii (entorno_ejemplo doc_tres)
      _config_default "expediente.pdf"
    = Ok (InformeCompleto "expediente.pdf"
            (@ahora (entorno_ejemplo doc_tres) (formato_fecha _config_default))
            (length doc_tres) resumen resultados) ∧
    0 < rechazados resumen ∧
    estado_global resumen = "NO ADMISIBLE".
Proof.
  apply (@hojas_mismo_hash_no_admisible unicode_ascii (entorno_ejemplo doc_tres)
           _config_default "expediente.pdf" doc_tres 0 2
           (str_of_string "texto de la primera hoja")
           (str_of_string "texto de la primera hoja")).
  - reflexivity.
  - lia.
  - reflexivity.
  - reflexivity.
  - reflexivity.
Defined.

Lemma ejecutar_verificacion_rpa_ejemplo :
  @path_exists sistema_ejemplo "expediente.pdf" = true ∧
  doc_tres ≠ [] ∧
  ∃ informe,
    @ejecutar_verificacion_rpa unicode_ascii (entorno_ejemplo doc_tres)
      sistema_ejemplo "expediente.pdf" (Some "reporte.pdf") = Ok (Some informe) ∧
    @ejecutar_verificacion_completa unicode_ascii (entorno_ejemplo doc_tres)
      _config_default "expediente.pdf" = Ok informe.
Proof.
  assert (doc_tres ≠ []) as Hne by discriminate.
  split_and!; [reflexivity | exact Hne |].
  destruct (@ejecutar_verificacion_rpa_informe unicode_ascii
              (entorno_ejemplo doc_tres) sistema_ejemplo "expediente.pdf"
              "reporte.pdf" doc_tres eq_refl eq_refl Hne)
    as (resumen & resultados & els & Hrun & _ & _ & Hrpa).
  eexists. split; [exact Hrpa | exact Hrun].
Defined.

Lemma recomendaciones_de_la_corrida_ejemplo :
  @PdfReader (entorno_ejemplo doc_tres) "expediente.pdf" = Ok doc_tres ∧
  doc_tres ≠ [] ∧
  ∃ resumen resultados,
    @ejecutar_verificacion_completa unicode_ascii (entorno_ejemplo doc_tres)
      _config_default "expediente.pdf"
    = Ok (InformeCompleto "expediente.pdf" "2025-01-01 00:00:00" 3
            resumen resultados) ∧
    _generar_recomendaciones
      (InformeCompleto "expediente.pdf" "2025-01-01 00:00:00" 3
         resumen resultados)
    = [ "Corregir la numeración correlativa de los folios según normativa vigente";
        "Revisar y eliminar los folios duplicados detectados" ].
Proof.
  assert (doc_tres ≠ []) as Hne by discriminate.
  split_and!; [reflexivity | exact Hne |].
  destruct (@recomendaciones_de_la_corrida unicode_ascii (entorno_ejemplo doc_tres)
              _config_default "expediente.pdf" doc_tres eq_refl Hne)
    as (resumen & resultados & Hr & _).
  exists resumen, resultados. split; [exact Hr|].
  vm_compute in Hr. injection Hr as <- <-. reflexivity.
Defined.

Lemma colores_de_la_corrida_ejemplo :
  @PdfReader (entorno_ejemplo doc_tres) "expediente.pdf" = Ok doc_tres ∧
  doc_tres ≠ [] ∧
  ∃ resumen resultados,
    @ejecutar_verificacion_completa unicode_ascii (entorno_ejemplo doc_tres)
      _config_default "expediente.pdf"
    = Ok (InformeCompleto "expediente.pdf" "2025-01-01 00:00:00" 3
            resumen resultados) ∧
    _obtener_color_estado (estado_global resumen) = HexColor "#e74c3c".
Proof.
  assert (doc_tres ≠ []) as Hne by discriminate.
  split_and!; [reflexivity | exact Hne |].
  destruct (@colores_de_la_corrida unicode_ascii (entorno_ejemplo doc_tres)
              _config_default "expediente.pdf" doc_tres eq_refl Hne)
    as (resumen & resultados & Hr & _).
  exists resumen, resultados. split; [exact Hr|].
  vm_compute in Hr. injection Hr as <- <-. reflexivity.
Defined.
